(** * MindMate Harmony: the mood classifier and the entry store

    A shallow embedding of the two dashboards of the repository,

    - [src/mindmate_front.py]    (module [Front]:    [mock_analyze_mood],
      the "Clear My Data" handler and the per-entry delete handler), and
    - [src/mindmate_frontend.py] (module [Frontend]: [analyze_mood]),

    over a small model of the Python runtime (module [Py]), followed by the
    properties of the classifier, the content generator and the store.

    Modelling conventions.
    - A Python [str] is a [string]: the bytes of its UTF-8 encoding.  Substring
      search on valid UTF-8 agrees with substring search on code points.
    - [Py.lower] lowers the ASCII letters and keeps every other byte, where
      [str.lower] lowers every cased character.  The two agree on ASCII
      text.  They also agree on whether a non-empty ASCII word occurs in
      the lowered text, unless the text holds one of the two characters
      outside ASCII that [str.lower] turns into text with an ASCII letter:
      U+212A, the Kelvin sign, lowered to k, and U+0130, the capital I with
      a dot, lowered to i and a combining dot.  Every other character
      outside ASCII is lowered to characters outside ASCII, at least one,
      so the ASCII letters of the lowered text and what lies between them
      are those of [Py.lower].  All keywords of the program are ASCII.  A
      theorem that reads a result of the program off the occurrences of
      keywords in the text therefore takes a text that is [Spec.plain]
      (neither of the two characters), and one about a search term typed
      by the user takes a term that is [Spec.ascii_only].
    - A Python [dict] is an association list in insertion order: the order
      decides the ties of [max].
    - An exception is a value of [Py.exn]; a function that can raise returns
      a [Py.result].
    - The builtin [hash], [hashlib.md5(..).hexdigest()] and the readings of
      the clock are inputs of the model.  [hash] on [str] is salted per
      interpreter process: it is one function for the life of the process.
    - [analyze_mood] of [mindmate_front.py] first asks a remote service and
      falls back to [mock_analyze_mood]; in the modules [Front] and
      [Frontend] the remote answer is outside the model, and so are the
      widgets, the charts and the JSON file.
    - The handlers around the classifier (modules [FrontApp] and
      [FrontendApp], over [PyText]) take what the environment does as
      inputs: the answer of the remote service, whose body of status 200 is
      read as an entry; the outcome of a write; the order in which a [set]
      yields its items.  [json.load] gives back the entries that
      [json.dump] wrote.  A Streamlit run handles one button; a session is
      a list of such runs.  The charts of the "Analytics" tabs and the
      export stay outside the model.
    - A float literal is read as the rational it writes.  The quotient of
      two integers is the float nearest to the exact quotient: the
      rounding is an input of the model ([to_float]), and a theorem takes
      of it what [Spec2.rounds] says. *)

From Stdlib Require Import String Ascii List ZArith QArith Bool Lia Arith.
From Stdlib Require Import DecimalString DecimalNat Qround.
Import ListNotations.

Open Scope string_scope.
Open Scope list_scope.

(* ================================================================== *)
(** ** The Python runtime, as far as the program uses it *)
(* ================================================================== *)

Module Py.

(** *** Exceptions *)

Inductive exn : Type :=
| KeyError
| IndexError
| ValueError.

Inductive result (A : Type) : Type :=
| Ok (a : A)
| Raise (e : exn).

Arguments Ok {A} a.
Arguments Raise {A} e.

Definition bind {A B : Type} (m : result A) (k : A -> result B) : result B :=
  match m with
  | Ok a => k a
  | Raise e => Raise e
  end.

Declare Scope py_scope.
Delimit Scope py_scope with py.
Notation "x <- m ;; k" := (bind m (fun x => k))
  (at level 61, m at next level, right associativity) : py_scope.

(** *** str *)

(** [c.lower()] on one byte. *)
Definition lower_char (c : ascii) : ascii :=
  let n := nat_of_ascii c in
  if (65 <=? n)%nat && (n <=? 90)%nat then ascii_of_nat (n + 32) else c.

(** [s.lower()] on the ASCII letters; see the conventions above for the
    texts on which the program's tests on [s.lower()] are those on
    [lower s]. *)
Fixpoint lower (s : string) : string :=
  match s with
  | EmptyString => EmptyString
  | String c r => String (lower_char c) (lower r)
  end.

(** [needle in hay] on strings: [needle] starts at some position of [hay]. *)
Fixpoint contains (needle hay : string) : bool :=
  String.prefix needle hay
  || match hay with
     | EmptyString => false
     | String _ r => contains needle r
     end.

(** [sep.join(parts)] *)
Definition join (sep : string) (parts : list string) : string :=
  String.concat sep parts.

(** [s[:n]] *)
Definition take (n : nat) (s : string) : string := String.substring 0 n s.

(** [str(n)] for a natural number. *)
Definition str_of_nat (n : nat) : string :=
  NilEmpty.string_of_uint (Nat.to_uint n).

(** *** dict *)

Definition dict (V : Type) : Type := list (string * V).

Fixpoint dict_get {V : Type} (k : string) (d : dict V) : option V :=
  match d with
  | [] => None
  | (k', v) :: r => if String.eqb k' k then Some v else dict_get k r
  end.

(** [d[k] = v]: an existing key keeps its place, a new key goes last. *)
Fixpoint dict_set {V : Type} (k : string) (v : V) (d : dict V) : dict V :=
  match d with
  | [] => [(k, v)]
  | (k', v') :: r =>
      if String.eqb k' k then (k', v) :: r else (k', v') :: dict_set k v r
  end.

(** [d[k]] *)
Definition getitem {V : Type} (d : dict V) (k : string) : result V :=
  match dict_get k d with
  | Some v => Ok v
  | None => Raise KeyError
  end.

(** [k in d] *)
Definition dict_in {V : Type} (k : string) (d : dict V) : bool :=
  match dict_get k d with
  | Some _ => true
  | None => false
  end.

Definition keys {V : Type} (d : dict V) : list string := map fst d.
Definition values {V : Type} (d : dict V) : list V := map snd d.
Definition items {V : Type} (d : dict V) : list (string * V) := d.

(** [d1 == d2]: the same keys with equal values, whatever the order. *)
Definition dict_eqb {V : Type} (veqb : V -> V -> bool) (d1 d2 : dict V) : bool :=
  Nat.eqb (List.length d1) (List.length d2)
  && forallb
       (fun kv =>
          match dict_get (fst kv) d2 with
          | Some v2 => veqb (snd kv) v2
          | None => false
          end)
       d1.

(** *** list *)

(** [l[i]], a negative index counting from the end. *)
Definition list_getitem {A : Type} (l : list A) (i : Z) : result A :=
  let n := Z.of_nat (List.length l) in
  let j := (if i <? 0 then i + n else i)%Z in
  if (j <? 0)%Z then Raise IndexError
  else match nth_error l (Z.to_nat j) with
       | Some a => Ok a
       | None => Raise IndexError
       end.

(** [l.remove(x)]: drops the first item equal to [x]. *)
Fixpoint list_remove {A : Type} (eqb : A -> A -> bool) (x : A) (l : list A)
  : result (list A) :=
  match l with
  | [] => Raise ValueError
  | y :: r =>
      if eqb y x then Ok r
      else match list_remove eqb x r with
           | Ok r' => Ok (y :: r')
           | Raise e => Raise e
           end
  end.

(** *** builtins *)

(** [any(iterable)] over truth values. *)
Definition any (l : list bool) : bool := existsb (fun b => b) l.

(** [sum(iterable)] over ints. *)
Definition sum (l : list Z) : Z := fold_left Z.add l 0%Z.

(** [max(iterable, key=key)]: the running maximum is replaced only by an
    item whose key is strictly greater, so the first maximal item wins. *)
Section Max.
Context {A K : Type} (gtb : K -> K -> bool) (key : A -> K).

Fixpoint max_from (best : A) (l : list A) : A :=
  match l with
  | [] => best
  | x :: r => max_from (if gtb (key x) (key best) then x else best) r
  end.

Definition max_by (l : list A) : result A :=
  match l with
  | [] => Raise ValueError
  | x :: r => Ok (max_from x r)
  end.
End Max.

(** [a > b] on floats given by decimal literals, read as rationals. *)
Definition Qgtb (a b : Q) : bool := negb (Qle_bool a b).

End Py.

(* ================================================================== *)
(** ** [src/mindmate_front.py] *)
(* ================================================================== *)

Module Front.
Import Py.
Local Open Scope py_scope.

(** The dict that [mock_analyze_mood] returns and the store keeps.  The key
    [private_note] is set by the "New Entry" handler, and only when the note
    box is ticked. *)
Record MoodEntry : Type := mkMoodEntry {
  success : bool;
  record_id : string;
  user_id : string;
  mood : string;
  primary_trigger : string;
  trigger_scores : dict Z;
  severity : string;
  advice : string;
  music_track : string;
  deep_insight : string;
  timestamp : string;
  private_note : option string
}.

(** *** The literals of [mock_analyze_mood] *)

Definition trigger_keywords : dict (list string) :=
  [ ("political", ["election"; "politics"; "government"; "vote"; "policy"; "politician"]);
    ("work", ["job"; "boss"; "deadline"; "work"; "career"; "office"; "colleague"]);
    ("health", ["sick"; "pain"; "anxiety"; "depression"; "mental"; "physical"]);
    ("relationship", ["partner"; "breakup"; "marriage"; "dating"; "spouse"; "divorce"]);
    ("financial", ["money"; "debt"; "bills"; "salary"; "budget"; "expensive"]);
    ("academic", ["exam"; "school"; "study"; "grade"; "homework"; "test"]);
    ("family", ["family"; "parent"; "mother"; "father"; "sibling"; "child"]);
    ("social", ["friend"; "lonely"; "isolated"; "people"; "community"]);
    ("environmental", ["climate"; "environment"; "pollution"; "nature"; "weather"]) ].

Definition high_words : list string :=
  ["crisis"; "hopeless"; "unbearable"; "suicide"; "kill"; "can't take"; "overwhelming"].

Definition medium_words : list string :=
  ["stressed"; "anxious"; "worried"; "upset"; "struggling"; "difficult"].

Definition trigger_insights : dict (dict string) :=
  [ ("political",
      [ ("high",
          "Political events can deeply affect our sense of safety and control. Consider limiting news consumption and focusing on local action you can take.");
        ("medium",
          "Political concerns are valid. Channel this energy into constructive civic engagement or set boundaries around political media.");
        ("low",
          "Your political awareness is healthy. Stay informed while maintaining balance in other life areas.") ]);
    ("work",
      [ ("high",
          "Work-related distress at this level may indicate burnout or unsustainable conditions. Professional boundaries and support are crucial.");
        ("medium",
          "Work pressures are impacting your wellbeing. Time management, delegation, or discussing workload with supervisors may help.");
        ("low",
          "Work challenges are present but manageable. Continue using your coping strategies and maintain work-life boundaries.") ]);
    ("health",
      [ ("high",
          "Health concerns causing this level of distress require both medical attention and mental health support. Don't hesitate to reach out.");
        ("medium",
          "Health worries can be consuming. Consulting healthcare providers and practicing self-compassion are important steps.");
        ("low",
          "Health awareness is positive. Continue healthy routines and address concerns early with medical professionals.") ]);
    ("relationship",
      [ ("high",
          "Relationship conflicts at this intensity significantly impact emotional wellbeing. Couples therapy or counseling could provide valuable support.");
        ("medium",
          "Relationship challenges are affecting you. Open communication, setting healthy boundaries, and possibly counseling could help.");
        ("low",
          "Relationship dynamics have ups and downs. Your awareness suggests you're navigating this thoughtfully.") ]);
    ("financial",
      [ ("high",
          "Financial stress at this level can feel overwhelming. Seek support from financial counselors, trusted advisors, or mental health professionals.");
        ("medium",
          "Money concerns are weighing on you. Creating a budget, exploring resources, or consulting a financial advisor may provide relief.");
        ("low",
          "Financial awareness is responsible. Continue monitoring your finances and planning for future stability.") ]);
    ("academic",
      [ ("high",
          "Academic pressure has reached a critical point. Reach out to counselors, professors, or academic support services immediately.");
        ("medium",
          "Academic stress is significant. Time management, study groups, tutoring, or speaking with instructors could ease the burden.");
        ("low",
          "Academic challenges are normal. Your approach seems balanced—continue your study habits and self-care.") ]);
    ("family",
      [ ("high",
          "Family dynamics causing this distress may benefit from family therapy or individual counseling to process these relationships.");
        ("medium",
          "Family tensions are impacting you. Setting boundaries, open dialogue when safe, or therapy can help navigate these relationships.");
        ("low",
          "Family relationships have complexities. Your self-awareness in managing these dynamics is healthy.") ]);
    ("social",
      [ ("high",
          "Social isolation or conflicts at this level need attention. Consider reaching out to trusted friends, joining groups, or seeking counseling.");
        ("medium",
          "Social concerns are affecting your mood. Small steps like reaching out to one person or joining an activity can make a difference.");
        ("low",
          "Social connections seem balanced. Continue nurturing relationships that bring you joy and support.") ]);
    ("environmental",
      [ ("high",
          "Environmental anxiety (eco-anxiety) is real and valid. Channeling this into action while practicing self-care is essential.");
        ("medium",
          "Environmental concerns are weighing on you. Balance staying informed with taking breaks and focusing on actionable steps.");
        ("low",
          "Environmental awareness shows your values. Continue sustainable choices while maintaining overall wellbeing.") ]);
    ("other",
      [ ("high",
          "You're experiencing significant distress. Professional support can help you understand and address what you're going through.");
        ("medium",
          "Multiple factors may be contributing to your current state. Taking time to identify specific concerns can be helpful.");
        ("low",
          "General life challenges are present. Your self-reflection and self-care practices are serving you well.") ]) ].

Definition music_options_high : list string :=
  [ "Weightless - Marconi Union (scientifically proven calming)";
    "Spiegel im Spiegel - Arvo Pärt (deeply peaceful)";
    "Clair de Lune - Debussy (gentle, soothing)" ].

Definition music_options_medium : list string :=
  [ "Clair de Lune - Debussy (calming classical)";
    "Pure Shores - All Saints (relaxing)";
    "Nocturne in E-flat Major - Chopin (peaceful piano)" ].

Definition music_options_low : list string :=
  [ "Here Comes The Sun - The Beatles (uplifting)";
    "Three Little Birds - Bob Marley (positive vibes)";
    "Good Vibrations - The Beach Boys (mood-boosting)" ].

Definition advice_high : string :=
"🚨 IMMEDIATE SUPPORT NEEDED:
1. Deep breathing (4-7-8 technique: inhale 4, hold 7, exhale 8)
2. Contact a trusted person immediately
3. Crisis Lifeline: 988 (call or text) or text HELLO to 741741
4. Remove yourself from immediate stressors if safe
5. Consider emergency mental health services if needed".

Definition advice_medium : string :=
"⚠️ STRESS MANAGEMENT:
1. Journal your thoughts (10-15 minutes of free writing)
2. Take an outdoor walk (15-20 minutes, mindful movement)
3. Practice mindfulness or meditation (apps: Headspace, Calm)
4. Connect with your support network (call or text someone)
5. Limit caffeine and prioritize sleep (7-9 hours)".

Definition advice_low : string :=
"✅ MAINTAIN YOUR BALANCE:
1. Continue your healthy routines and self-care practices
2. Engage in activities that bring you joy and fulfillment
3. Stay connected with friends, family, and community
4. Keep a gratitude journal (note 3 things daily)
5. Exercise regularly and maintain good sleep hygiene
6. Celebrate small wins and progress".

(** *** [mock_analyze_mood] *)

Section Runtime.

(** The builtin [hash] on [str]: fixed within one interpreter process. *)
Variable hash : string -> Z.

(** [hashlib.md5(s.encode()).hexdigest()] *)
Variable md5_hexdigest : string -> string.

(** [now_id] and [now_stamp] are the [isoformat()] of the two readings of
    [datetime.now()], the first for the record id, the second for the
    timestamp. *)
Definition mock_analyze_mood (user_id mood_text : string)
    (severity : option string) (now_id now_stamp : string) : result MoodEntry :=
  let mood_lower := lower mood_text in
  let trigger_scores : dict Z :=
    fold_left
      (fun (trigger_scores : dict Z) '(trigger, keywords) =>
         let score :=
           sum (map (fun _ => 1%Z)
                    (filter (fun kw => contains kw mood_lower) keywords)) in
         dict_set trigger score trigger_scores)
      (items trigger_keywords) [] in
  primary_trigger <-
    (if any (map (fun v => negb (v =? 0)%Z) (values trigger_scores))
     then x <- max_by Z.gtb snd (items trigger_scores) ;; Ok (fst x)
     else Ok "other") ;;
  (* [if not severity:] the scan runs for [None] and for the empty string *)
  let severity : string :=
    match severity with
    | Some (String c r) => String c r
    | Some EmptyString | None =>
        if any (map (fun word => contains word mood_lower) high_words)
        then "high"
        else if any (map (fun word => contains word mood_lower) medium_words)
        then "medium"
        else "low"
    end in
  let insight_parts : list string := [] in
  let insight_parts :=
    insight_parts ++
    [ if severity =? "high" then
        "Your entry indicates significant emotional distress that warrants immediate attention."
      else if severity =? "medium" then
        "Your mood reflects notable challenges that could benefit from proactive support."
      else
        "Your emotional state appears stable with manageable concerns." ] in
  insight_parts <-
    (if dict_in primary_trigger trigger_insights
     then by_severity <- getitem trigger_insights primary_trigger ;;
          sentence <- getitem by_severity severity ;;
          Ok (insight_parts ++ [sentence])
     else Ok insight_parts) ;;
  let insight_parts :=
    insight_parts ++
    [ if severity =? "high" then
        "Remember: You deserve support and things can improve with proper help."
      else if severity =? "medium" then
        "Taking proactive steps now can prevent escalation and improve your situation."
      else
        "Maintaining this self-awareness and continuing healthy habits will serve you well." ] in
  let insight := join " " insight_parts in
  advice_music <-
    (if severity =? "high" then
       let advice := advice_high in
       let music_options := music_options_high in
       music <- list_getitem music_options
                  (hash mood_text mod Z.of_nat (List.length music_options)) ;;
       Ok (advice, music)
     else if severity =? "medium" then
       let advice := advice_medium in
       let music_options := music_options_medium in
       music <- list_getitem music_options
                  (hash mood_text mod Z.of_nat (List.length music_options)) ;;
       Ok (advice, music)
     else
       let advice := advice_low in
       let music_options := music_options_low in
       music <- list_getitem music_options
                  (hash mood_text mod Z.of_nat (List.length music_options)) ;;
       Ok (advice, music)) ;;
  Ok {| success := true;
        record_id := take 12 (md5_hexdigest (user_id ++ now_id));
        user_id := user_id;
        mood := mood_text;
        primary_trigger := primary_trigger;
        trigger_scores := trigger_scores;
        severity := severity;
        advice := fst advice_music;
        music_track := snd advice_music;
        deep_insight := insight;
        timestamp := now_stamp;
        private_note := None |}.

End Runtime.

(** *** The store handlers *)

Definition option_eqb {A : Type} (eqb : A -> A -> bool) (a b : option A) : bool :=
  match a, b with
  | Some x, Some y => eqb x y
  | None, None => true
  | _, _ => false
  end.

(** [e1 == e2] on two entries: dict equality, key by key. *)
Definition entry_eqb (e1 e2 : MoodEntry) : bool :=
  Bool.eqb (success e1) (success e2)
  && (record_id e1 =? record_id e2)
  && (user_id e1 =? user_id e2)
  && (mood e1 =? mood e2)
  && (primary_trigger e1 =? primary_trigger e2)
  && dict_eqb Z.eqb (trigger_scores e1) (trigger_scores e2)
  && (severity e1 =? severity e2)
  && (advice e1 =? advice e2)
  && (music_track e1 =? music_track e2)
  && (deep_insight e1 =? deep_insight e2)
  && (timestamp e1 =? timestamp e2)
  && option_eqb String.eqb (private_note e1) (private_note e2).

(** History tab, "Delete Entry": [st.session_state.entries.remove(entry)] *)
Definition delete_entry (entries : list MoodEntry) (entry : MoodEntry)
  : result (list MoodEntry) :=
  list_remove entry_eqb entry entries.

(** Sidebar, "Clear My Data":
    [[e for e in entries if e['user_id'] != current_user]] *)
Definition clear_my_data (entries : list MoodEntry) (current_user : string)
  : list MoodEntry :=
  filter (fun e => negb (user_id e =? current_user)) entries.

End Front.

(* ================================================================== *)
(** ** [src/mindmate_frontend.py] *)
(* ================================================================== *)

Module Frontend.
Import Py.
Local Open Scope py_scope.

(** The dict that [analyze_mood] returns.  The scores are float literals,
    kept as the rationals they denote. *)
Record MoodEntry : Type := mkMoodEntry {
  success : bool;
  record_id : string;
  user_id : string;
  primary_trigger : string;
  trigger_scores : dict Q;
  severity : string;
  advice : string;
  music_track : string;
  deep_insight : string;
  timestamp : string
}.

(** One step of the keyword scan:
    [if any(word in text_lower for word in words): trigger_scores[trigger] = weight] *)
Definition scan (words : list string) (trigger : string) (weight : Q)
    (text_lower : string) (trigger_scores : dict Q) : dict Q :=
  if any (map (fun word => contains word text_lower) words)
  then dict_set trigger weight trigger_scores
  else trigger_scores.

Definition stress_words : list string :=
  ["overwhelmed"; "anxious"; "depressed"; "crisis"; "help"; "can't"].

(** [entries] is [st.session_state.entries] at the call, [now] the
    [isoformat()] of [datetime.now()]. *)
Definition analyze_mood (entries : list MoodEntry) (user_id mood_text : string)
    (severity : option string) (now : string) : result MoodEntry :=
  let trigger_scores : dict Q := [] in
  let text_lower := lower mood_text in
  let trigger_scores :=
    scan ["election"; "government"; "politics"] "political" 0.8 text_lower trigger_scores in
  let trigger_scores :=
    scan ["people"; "society"; "community"] "social" 0.7 text_lower trigger_scores in
  let trigger_scores :=
    scan ["climate"; "environment"; "pollution"] "environmental" 0.75 text_lower trigger_scores in
  let trigger_scores :=
    scan ["work"; "job"; "boss"; "career"] "work" 0.8 text_lower trigger_scores in
  let trigger_scores :=
    scan ["relationship"; "partner"; "breakup"] "relationship" 0.85 text_lower trigger_scores in
  let trigger_scores :=
    scan ["sick"; "pain"; "health"] "health" 0.8 text_lower trigger_scores in
  let trigger_scores :=
    scan ["money"; "debt"; "bills"] "financial" 0.75 text_lower trigger_scores in
  (* [trigger_scores.get] is applied to keys of [trigger_scores] only, where it
     returns the stored weight. *)
  primary_trigger <-
    (match trigger_scores with
     | _ :: _ =>
         max_by Qgtb
           (fun k => match dict_get k trigger_scores with
                     | Some w => w
                     | None => 0%Q
                     end)
           (keys trigger_scores)
     | [] => Ok "other"
     end) ;;
  (* [if not severity:] the scan runs for [None] and for the empty string *)
  let severity : string :=
    match severity with
    | Some (String c r) => String c r
    | Some EmptyString | None =>
        if any (map (fun word => contains word text_lower) stress_words)
        then "high"
        else "medium"
    end in
  let '(advice, music, insight) :=
    if severity =? "high" then
      ("IMMEDIATE SUPPORT:
• Deep breathing (4-7-8 technique)
• Contact trusted person
• Crisis line: 988
• Remove from immediate stressors",
       "Weightless - Marconi Union",
       "Significant emotional distress detected. Professional support recommended.")
    else if severity =? "medium" then
      ("STRESS MANAGEMENT:
• Journal your thoughts
• 15-minute walk
• Mindfulness practice
• Connect with support network",
       "Clair de Lune - Debussy",
       "Notable stress levels. Implementing coping strategies is beneficial.")
    else
      ("MAINTAIN BALANCE:
• Continue healthy routines
• Engage in joy activities
• Stay connected
• Track mood patterns",
       "Here Comes The Sun - The Beatles",
       "Manageable stress levels. Keep up the good work!") in
  Ok {| success := true;
        record_id := "entry_" ++ str_of_nat (List.length entries + 1);
        user_id := user_id;
        primary_trigger := primary_trigger;
        trigger_scores := trigger_scores;
        severity := severity;
        advice := advice;
        music_track := music;
        deep_insight := insight;
        timestamp := now |}.

End Frontend.

(* ================================================================== *)
(** ** More of the Python runtime: text *)
(* ================================================================== *)

Module PyText.
Import Py.

Definition double_quote : ascii := ascii_of_nat 34.
Definition backslash : ascii := ascii_of_nat 92.
Definition newline : ascii := ascii_of_nat 10.

(** [s.replace(old, new)] for an [old] of one ASCII character. *)
Fixpoint replace_char (old : ascii) (new s : string) : string :=
  match s with
  | EmptyString => EmptyString
  | String c r =>
      if Ascii.eqb c old then (new ++ replace_char old new r)%string
      else String c (replace_char old new r)
  end.

(** A byte that continues a character of several bytes. *)
Definition is_continuation (c : ascii) : bool :=
  let n := nat_of_ascii c in
  ((128 <=? n) && (n <=? 191))%nat.

(** [len(s)]: the number of characters, that is of bytes that start one. *)
Fixpoint len (s : string) : nat :=
  match s with
  | EmptyString => 0
  | String c r => (if is_continuation c then 0 else 1) + len r
  end.

(** The white space of [str.strip] and [str.isspace], by the bytes of its
    encoding: the ASCII characters 9 to 13 and 28 to 32, U+0085 and U+00A0,
    U+1680, U+2000 to U+200A, U+2028, U+2029, U+202F, U+205F and U+3000. *)
Definition space1 (c : ascii) : bool :=
  let n := nat_of_ascii c in
  ((9 <=? n) && (n <=? 13) || (28 <=? n) && (n <=? 32))%nat.

Definition space2 (c1 c2 : ascii) : bool :=
  let a := nat_of_ascii c1 in
  let b := nat_of_ascii c2 in
  ((a =? 194) && ((b =? 133) || (b =? 160)))%nat.

Definition space3 (c1 c2 c3 : ascii) : bool :=
  let a := nat_of_ascii c1 in
  let b := nat_of_ascii c2 in
  let c := nat_of_ascii c3 in
  ((a =? 225) && (b =? 154) && (c =? 128)
   || (a =? 226) && (b =? 128)
      && ((128 <=? c) && (c <=? 138) || (c =? 168) || (c =? 169) || (c =? 175))
   || (a =? 226) && (b =? 129) && (c =? 159)
   || (a =? 227) && (b =? 128) && (c =? 128))%nat.

(** [s.lstrip()] *)
Fixpoint lstrip (s : string) : string :=
  match s with
  | EmptyString => s
  | String c1 r1 =>
      if space1 c1 then lstrip r1
      else match r1 with
           | EmptyString => s
           | String c2 r2 =>
               if space2 c1 c2 then lstrip r2
               else match r2 with
                    | EmptyString => s
                    | String c3 r3 =>
                        if space3 c1 c2 c3 then lstrip r3 else s
                    end
           end
  end.

(** [not s.strip()]: nothing but white space. *)
Definition blank (s : string) : bool :=
  match lstrip s with
  | EmptyString => true
  | String _ _ => false
  end.

(** [s.rstrip()]: the text up to the point from which all is white space. *)
Fixpoint rstrip (s : string) : string :=
  match s with
  | EmptyString => EmptyString
  | String c r => if blank s then EmptyString else String c (rstrip r)
  end.

(** [s.strip()] *)
Definition strip (s : string) : string := rstrip (lstrip s).

(** [l.index(x)]: the place of the first item equal to [x]. *)
Fixpoint list_index {A : Type} (eqb : A -> A -> bool) (x : A) (l : list A)
  : result nat :=
  match l with
  | [] => Raise ValueError
  | y :: r =>
      if eqb y x then Ok 0%nat
      else match list_index eqb x r with
           | Ok n => Ok (S n)
           | Raise e => Raise e
           end
  end.

(** [l.count(x)] on strings. *)
Definition list_count (x : string) (l : list string) : Z :=
  Z.of_nat (List.length (filter (fun y => String.eqb y x) l)).

(** A loop body that can raise, run over a list. *)
Fixpoint for_each {A B : Type} (f : A -> result B) (l : list A)
  : result (list B) :=
  match l with
  | [] => Ok []
  | x :: r =>
      match f x with
      | Ok y => match for_each f r with
                | Ok ys => Ok (y :: ys)
                | Raise e => Raise e
                end
      | Raise e => Raise e
      end
  end.

(** [sorted(l, key=key, reverse=True)] on integer keys: from the greatest
    key to the least, items of equal keys in the order they had. *)
Fixpoint insert_reverse {A : Type} (key : A -> Z) (x : A) (l : list A)
  : list A :=
  match l with
  | [] => [x]
  | y :: r => if (key y >? key x)%Z then y :: insert_reverse key x r
              else x :: y :: r
  end.

Definition sorted_reverse {A : Type} (key : A -> Z) (l : list A) : list A :=
  fold_right (insert_reverse key) [] l.

(** [enumerate(l)] *)
Definition enumerate {A : Type} (l : list A) : list (nat * A) :=
  combine (seq 0 (List.length l)) l.

End PyText.

(* ================================================================== *)
(** ** [src/mindmate_front.py]: the session and its handlers *)
(* ================================================================== *)

(** Streamlit runs the script once per interaction; a run handles the one
    button that was pressed.  A handler is a function of the session state,
    of the widgets' values and of what the environment answers: the remote
    service, the file system, the clock.  [json.dump] followed by
    [json.load] gives back a list of entries as it was; a file that holds
    anything else is [Unreadable]. *)

Module FrontApp.
Import Py PyText Front.
Local Open Scope py_scope.

(** [DATA_FILE]: absent, not a JSON document, or the saved entries. *)
Inductive disk : Type :=
| NoFile
| Unreadable
| File (saved : list MoodEntry).

(** What [st.error], [st.warning] and [st.success] show. *)
Inductive message : Type :=
| ErrorLoading
| ErrorSaving
| ErrorAnalyzing
| PleaseDescribe
| MoreDetail
| AnalysisComplete
| AnalysisFailed.

(** [load_data()] *)
Definition load_data (d : disk) : list MoodEntry * list message :=
  match d with
  | NoFile => ([], [])
  | Unreadable => ([], [ErrorLoading])
  | File saved => (saved, [])
  end.

(** What an attempt to write the file does: it succeeds, or it raises and
    leaves the file in some state. *)
Inductive write : Type :=
| Written
| WriteFailed (remains : disk).

(** [save_data(entries)] *)
Definition save_data (w : write) (entries : list MoodEntry)
  : bool * disk * list message :=
  match w with
  | Written => (true, File entries, [])
  | WriteFailed remains => (false, remains, [ErrorSaving])
  end.

(** What [requests.post] does: it raises a [RequestException], it returns a
    response whose body is an entry, or it raises another exception. *)
Inductive remote : Type :=
| RequestError
| Response (status_code : Z) (json : MoodEntry)
| OtherError.

(** The JSON body of the request. *)
Record payload : Type := mkPayload {
  payload_user_id : string;
  payload_mood : string;
  payload_severity : option string
}.

Section Runtime.

Variable hash : string -> Z.
Variable md5_hexdigest : string -> string.

(** [analyze_mood]: the payload that is posted, what is returned ([None] for
    Python's [None]) and what is shown. *)
Definition analyze_mood (r : remote) (user_id mood_text : string)
    (severity : option string) (now_id now_stamp : string)
  : payload * option MoodEntry * list message :=
  let sanitized_mood :=
    replace_char newline " "
      (replace_char double_quote (String backslash (String double_quote ""))
         mood_text) in
  let sanitized_user :=
    replace_char double_quote (String backslash (String double_quote ""))
      user_id in
  let payload :=
    {| payload_user_id := sanitized_user;
       payload_mood := mood_text;
       payload_severity := severity |} in
  let fallback :=
    match mock_analyze_mood hash md5_hexdigest user_id mood_text severity
            now_id now_stamp with
    | Ok e => (payload, Some e, [])
    | Raise _ => (payload, None, [ErrorAnalyzing])
    end in
  match r with
  | Response status_code json =>
      if (status_code =? 200)%Z then (payload, Some json, []) else fallback
  | RequestError => fallback
  | OtherError => (payload, None, [ErrorAnalyzing])
  end.

(** [result['private_note'] = private_note] *)
Definition set_private_note (e : MoodEntry) (note : string) : MoodEntry :=
  {| success := success e;
     record_id := record_id e;
     user_id := user_id e;
     mood := mood e;
     primary_trigger := primary_trigger e;
     trigger_scores := trigger_scores e;
     severity := severity e;
     advice := advice e;
     music_track := music_track e;
     deep_insight := deep_insight e;
     timestamp := timestamp e;
     private_note := Some note |}.

(** What a handler leaves: the entries of the session, the file, the
    requests that were posted and the messages that were shown. *)
Record outcome : Type := mkOutcome {
  entries_after : list MoodEntry;
  disk_after : disk;
  posted : list payload;
  shown : list message
}.

(** The "Analyze Mood" button of the "New Entry" tab, for the user who is
    logged in. *)
Definition new_entry (r : remote) (w : write) (entries : list MoodEntry)
    (d : disk) (current_user mood_text severity : string) (add_note : bool)
    (private_note : string) (now_id now_stamp : string) : outcome :=
  if blank mood_text then
    mkOutcome entries d [] [PleaseDescribe]
  else if (len mood_text <? 10)%nat then
    mkOutcome entries d [] [MoreDetail]
  else
    let sev :=
      if severity =? "Auto-detect" then None else Some (lower severity) in
    let '(request, result, errors) :=
      analyze_mood r current_user mood_text sev now_id now_stamp in
    match result with
    | Some result =>
        if success result then
          let result :=
            if add_note then set_private_note result private_note
            else result in
          let entries := entries ++ [result] in
          let '(_, d, save_errors) := save_data w entries in
          mkOutcome entries d [request]
            (errors ++ save_errors ++ [AnalysisComplete])
        else mkOutcome entries d [request] (errors ++ [AnalysisFailed])
    | None => mkOutcome entries d [request] (errors ++ [AnalysisFailed])
    end.

(** The bars of the "Trigger Analysis" of an entry: the trigger and the
    value passed to [st.progress].  [score / max_score] is a float:
    [to_float q] is the float that the division gives when the exact
    quotient is [q]. *)
Definition progress_bars (to_float : Q -> Q) (trigger_scores : dict Z)
  : result (list (string * Q)) :=
  match trigger_scores with
  | [] => Ok []
  | _ :: _ =>
      m <- max_by Z.gtb (fun v => v) (values trigger_scores) ;;
      let max_score := if (m =? 0)%Z then 1%Z else m in
      Ok (map (fun '(trigger, score) =>
                 (trigger, to_float (inject_Z score / inject_Z max_score)%Q))
              (filter (fun '(_, score) => (score >? 0)%Z)
                 (firstn 5 (sorted_reverse snd (items trigger_scores)))))
  end.

End Runtime.

(** [login_user]: the "Login" button. *)
Definition login (current_user : option string) (username : string)
  : option string :=
  if negb (blank username) then Some (strip username) else current_user.

(** [[e for e in st.session_state.entries if e['user_id'] == current_user]] *)
Definition user_entries (entries : list MoodEntry) (current_user : string)
  : list MoodEntry :=
  filter (fun e => user_id e =? current_user) entries.

(** The dashboard of the sidebar: the number of entries of the user, the
    number of those of high severity and the top trigger; [None] where the
    sidebar shows "No entries yet".  [set_items l] is the order in which
    [set(l)] yields its items. *)
Definition dashboard (set_items : list string -> list string)
    (entries : list MoodEntry) (current_user : string)
  : result (option (Z * Z * option string)) :=
  let user_entries := user_entries entries current_user in
  match user_entries with
  | [] => Ok None
  | _ :: _ =>
      let high_count :=
        sum (map (fun _ => 1%Z)
                 (filter (fun e => severity e =? "high") user_entries)) in
      let triggers := map primary_trigger user_entries in
      top <-
        match triggers with
        | [] => Ok None
        | _ :: _ =>
            most_common <-
              max_by Z.gtb (fun t => list_count t triggers) (set_items triggers) ;;
            Ok (Some most_common)
        end ;;
      Ok (Some (Z.of_nat (List.length user_entries), high_count, top))
  end.

(** The "Clear My Data" button. *)
Definition clear (w : write) (entries : list MoodEntry) (current_user : string)
  : outcome :=
  let entries := clear_my_data entries current_user in
  let '(_, d, save_errors) := save_data w entries in
  mkOutcome entries d [] save_errors.

(** The entries that the "History" tab lists, before it reverses them. *)
Definition filtered_entries (entries : list MoodEntry)
    (current_user search_term : string) : list MoodEntry :=
  let user_entries := user_entries entries current_user in
  match search_term with
  | String _ _ =>
      let search_lower := lower search_term in
      filter (fun e => contains search_lower (lower (mood e))
                       || contains search_lower (lower (primary_trigger e)))
             user_entries
  | EmptyString => user_entries
  end.

(** The rows of the "History" tab: the entry number and the entry, the
    newest first. *)
Definition history (entries : list MoodEntry) (current_user search_term : string)
  : result (list (Z * MoodEntry)) :=
  let user_entries := user_entries entries current_user in
  for_each
    (fun entry =>
       i <- list_index entry_eqb entry user_entries ;;
       Ok ((Z.of_nat (List.length user_entries) - Z.of_nat i)%Z, entry))
    (rev (filtered_entries entries current_user search_term)).

(** The "Delete Entry" button of a row of the "History" tab. *)
Definition delete (w : write) (entries : list MoodEntry) (d : disk)
    (entry : MoodEntry) : result outcome :=
  entries <- delete_entry entries entry ;;
  let '(_, d, save_errors) := save_data w entries in
  Ok (mkOutcome entries d [] save_errors).

(** *** The session *)

Record session : Type := mkSession {
  entries : list MoodEntry;
  current_user : option string;
  file : disk
}.

(** The first run of a session: [entries = load_data()], nobody logged in. *)
Definition start (d : disk) : session :=
  mkSession (fst (load_data d)) None d.

(** [if st.session_state.current_user:] the user who is logged in; the
    empty name counts as nobody. *)
Definition logged_in (s : session) : option string :=
  match current_user s with
  | Some (String c r) => Some (String c r)
  | Some EmptyString | None => None
  end.

(** One interaction.  The "Logout" button, the tabs and the "Clear My Data"
    button exist only for a user who is logged in, and a "Delete Entry"
    button only for a row of the history: [row] counts the rows from the
    top, under the search term of that run. *)
Inductive event : Type :=
| Login (username : string)
| Logout
| NewEntry (r : remote) (w : write) (mood_text severity : string)
    (add_note : bool) (private_note : string) (now_id now_stamp : string)
| DeleteRow (w : write) (search_term : string) (row : nat)
| ClearMyData (w : write).

Section Run.

Variable hash : string -> Z.
Variable md5_hexdigest : string -> string.

Definition step (s : session) (ev : event) : session :=
  match ev, logged_in s with
  | Login username, _ =>
      mkSession (entries s) (login (current_user s) username) (file s)
  | Logout, Some _ => mkSession (entries s) None (file s)
  | NewEntry r w mood_text severity add_note private_note now_id now_stamp,
    Some user =>
      let o := new_entry hash md5_hexdigest r w (entries s) (file s) user
                 mood_text severity add_note private_note now_id now_stamp in
      mkSession (entries_after o) (current_user s) (disk_after o)
  | DeleteRow w search_term row, Some user =>
      match nth_error (rev (filtered_entries (entries s) user search_term)) row with
      | Some entry =>
          match delete w (entries s) (file s) entry with
          | Ok o => mkSession (entries_after o) (current_user s) (disk_after o)
          | Raise _ => s
          end
      | None => s
      end
  | ClearMyData w, Some user =>
      let o := clear w (entries s) user in
      mkSession (entries_after o) (current_user s) (disk_after o)
  | _, None => s
  end.

Definition run (s : session) (evs : list event) : session :=
  fold_left step evs s.

End Run.

End FrontApp.

(* ================================================================== *)
(** ** [src/mindmate_frontend.py]: the session and its handlers *)
(* ================================================================== *)

Module FrontendApp.
Import Py PyText Frontend.
Local Open Scope py_scope.

Inductive message : Type :=
| PleaseDescribe
| AnalysisComplete.

(** The "Analyze Mood" button. *)
Definition new_entry (entries : list MoodEntry)
    (user_id mood_text severity now : string)
  : result (list MoodEntry * list message) :=
  if negb (blank mood_text) then
    let sev :=
      if severity =? "Auto-detect" then None else Some (lower severity) in
    result <- analyze_mood entries user_id mood_text sev now ;;
    if success result
    then Ok (entries ++ [result], [AnalysisComplete])
    else Ok (entries, [])
  else Ok (entries, [PleaseDescribe]).

(** The dashboard of the sidebar, over the entries of the session. *)
Definition dashboard (set_items : list string -> list string)
    (entries : list MoodEntry) : result (option (Z * Z * option string)) :=
  match entries with
  | [] => Ok None
  | _ :: _ =>
      let high_count :=
        sum (map (fun _ => 1%Z)
                 (filter (fun e => severity e =? "high") entries)) in
      let triggers := map primary_trigger entries in
      top <-
        match triggers with
        | [] => Ok None
        | _ :: _ =>
            most_common <-
              max_by Z.gtb (fun t => list_count t triggers) (set_items triggers) ;;
            Ok (Some most_common)
        end ;;
      Ok (Some (Z.of_nat (List.length entries), high_count, top))
  end.

(** The bars of the "Trigger Scores" of an entry: the trigger and the
    value passed to [st.progress]. *)
Definition progress_bars (trigger_scores : dict Q) : list (string * Q) :=
  match trigger_scores with
  | [] => []
  | _ :: _ => items trigger_scores
  end.

(** The "Clear All Data" button. *)
Definition clear_all (entries : list MoodEntry) : list MoodEntry := [].

(** The rows of the "History" tab: the entry number and the entry, the
    newest first. *)
Definition history (entries : list MoodEntry) : list (Z * MoodEntry) :=
  map (fun '(i, entry) =>
         ((Z.of_nat (List.length entries) - Z.of_nat i)%Z, entry))
      (enumerate (rev entries)).

Inductive event : Type :=
| NewEntry (user_id mood_text severity now : string)
| ClearAllData.

(** One interaction; an exception leaves the entries as they are. *)
Definition step (entries : list MoodEntry) (ev : event) : list MoodEntry :=
  match ev with
  | NewEntry user_id mood_text severity now =>
      match new_entry entries user_id mood_text severity now with
      | Ok (entries, _) => entries
      | Raise _ => entries
      end
  | ClearAllData => clear_all entries
  end.

(** A session starts with no entry. *)
Definition run (evs : list event) : list MoodEntry := fold_left step evs [].

End FrontendApp.

(* ================================================================== *)
(** ** The vocabulary of the specification *)
(* ================================================================== *)

Module Spec.
Import Py.

(** The three severity tiers.  The "New Entry" form passes [None]
    ("Auto-detect") or the lowered name of a tier. *)
Inductive Tier : Type := Low | Medium | High.

Definition tier_name (t : Tier) : string :=
  match t with
  | Low => "low"
  | Medium => "medium"
  | High => "high"
  end.

Definition tiers : list Tier := [Low; Medium; High].

(** The severity argument of the classifier for a caller's choice. *)
Definition supplied (choice : option Tier) : option string :=
  option_map tier_name choice.

(** Two strings are equal up to the case of their letters. *)
Definition eq_ci (a b : string) : Prop := lower a = lower b.

(** [kw] occurs in [text] as a case-insensitive substring: some substring of
    [text] equals [kw] up to case. *)
Definition occurs_ci (kw text : string) : Prop :=
  exists pre mid post, text = (pre ++ mid ++ post)%string /\ eq_ci mid kw.

(** The decision procedure for [occurs_ci] (see [occurs_cib_iff]). *)
Definition occurs_cib (kw text : string) : bool :=
  contains (lower kw) (lower text).

Definition any_occurs (words : list string) (text : string) : Prop :=
  exists kw, In kw words /\ occurs_ci kw text.

(** The Kelvin sign U+212A and the capital I with a dot U+0130, by the
    bytes of their encoding: the characters outside ASCII that [str.lower]
    turns into text with an ASCII letter. *)
Definition kelvin_sign : string :=
  String (ascii_of_nat 226) (String (ascii_of_nat 132)
    (String (ascii_of_nat 170) "")).

Definition capital_i_with_dot : string :=
  String (ascii_of_nat 196) (String (ascii_of_nat 176) "").

(** A text that holds neither: the search of an ASCII keyword in
    [text.lower()] is then the search in [lower text]. *)
Definition plain (text : string) : bool :=
  negb (contains kelvin_sign text) && negb (contains capital_i_with_dot text).

(** A text of ASCII characters only: [text.lower()] is then [lower text]. *)
Fixpoint ascii_only (text : string) : bool :=
  match text with
  | EmptyString => true
  | String c r => (nat_of_ascii c <? 128)%nat && ascii_only r
  end.

(** The number of the keywords of [words] that occur in [text]. *)
Definition count_occurring (words : list string) (text : string) : nat :=
  List.length (filter (fun kw => occurs_cib kw text) words).

(** The score of category [c] in a score dict, an absent category scoring
    [zero]. *)
Definition score_in {V : Type} (zero : V) (d : dict V) (c : string) : V :=
  match dict_get c d with
  | Some v => v
  | None => zero
  end.

(** [m] is the maximum of [l] by [key], and the first one: the items before
    it are strictly smaller, the items after it are not greater. *)
Definition first_max {A K : Type} (leb : K -> K -> bool) (key : A -> K)
    (l : list A) (m : A) : Prop :=
  exists pre post,
    l = pre ++ m :: post
    /\ (forall x, In x pre -> leb (key m) (key x) = false)
    /\ (forall x, In x post -> leb (key x) (key m) = true).

(** A decision procedure for [first_max] on strings (see [first_maxb_sound]). *)
Fixpoint first_maxb {K : Type} (leb : K -> K -> bool) (key : string -> K)
    (l : list string) (m : string) : bool :=
  match l with
  | [] => false
  | x :: r =>
      ((x =? m)%string && forallb (fun y => leb (key y) (key m)) r)
      || (negb (leb (key m) (key x)) && first_maxb leb key r m)
  end.

(** The ASCII characters that [str.isspace] accepts. *)
Definition is_space (c : ascii) : bool :=
  let n := nat_of_ascii c in
  ((9 <=? n) && (n <=? 13) || (28 <=? n) && (n <=? 32))%nat.

(** Text made of white space only; the empty text is. *)
Fixpoint whitespace_only (s : string) : bool :=
  match s with
  | EmptyString => true
  | String c r => is_space c && whitespace_only r
  end.

(** A keyword that starts with a character other than white space. *)
Definition word_like (kw : string) : bool :=
  match kw with
  | EmptyString => false
  | String c _ => negb (is_space (lower_char c))
  end.

(** A decision procedure for [NoDup] on strings (see [nodupb_sound]). *)
Fixpoint nodupb (l : list string) : bool :=
  match l with
  | [] => true
  | x :: r => negb (existsb (String.eqb x) r) && nodupb r
  end.

(** A decision procedure for [incl] on strings (see [subsetb_incl]). *)
Definition subsetb (l1 l2 : list string) : bool :=
  forallb (fun x => existsb (String.eqb x) l2) l1.

End Spec.

(* ================================================================== *)
(** ** [mock_analyze_mood], field by field *)
(* ================================================================== *)

(** The local variables and the fields of the result of [mock_analyze_mood]
    as functions of its arguments; [FrontFacts.mock_analyze_mood_run] shows
    that the function returns [entry_of]. *)

Module FrontView.
Import Py Spec Front.

(** The categories, in the enumeration order of the keyword table. *)
Definition categories : list string := keys trigger_keywords.

(** The labels a primary trigger can take. *)
Definition labels : list string := categories ++ ["other"].

(** The score dict: one count per category, in table order. *)
Definition scores_of (text : string) : dict Z :=
  map (fun '(trigger, keywords) =>
         (trigger, Z.of_nat (count_occurring keywords text)))
      trigger_keywords.

Definition all_zero (text : string) : bool :=
  forallb (fun v => (v =? 0)%Z) (values (scores_of text)).

Definition primary_of (text : string) : string :=
  if all_zero text then "other"
  else fst (max_from Z.gtb snd
              (hd ("other", 0%Z) (scores_of text)) (tl (scores_of text))).

(** The tier found by the keyword scan. *)
Definition detect (text : string) : Tier :=
  if existsb (fun kw => occurs_cib kw text) high_words then High
  else if existsb (fun kw => occurs_cib kw text) medium_words then Medium
  else Low.

(** The tier of the result: the caller's choice, or else the scan's. *)
Definition tier_of (choice : option Tier) (text : string) : Tier :=
  match choice with
  | Some t => t
  | None => detect text
  end.

(** The three parts of the insight. *)
Definition opening (t : Tier) : string :=
  match t with
  | High => "Your entry indicates significant emotional distress that warrants immediate attention."
  | Medium => "Your mood reflects notable challenges that could benefit from proactive support."
  | Low => "Your emotional state appears stable with manageable concerns."
  end.

Definition specific (trigger : string) (t : Tier) : string :=
  score_in "" (score_in [] trigger_insights trigger) (tier_name t).

Definition closing (t : Tier) : string :=
  match t with
  | High => "Remember: You deserve support and things can improve with proper help."
  | Medium => "Taking proactive steps now can prevent escalation and improve your situation."
  | Low => "Maintaining this self-awareness and continuing healthy habits will serve you well."
  end.

Definition insight_of (trigger : string) (t : Tier) : string :=
  (opening t ++ " " ++ specific trigger t ++ " " ++ closing t)%string.

Definition advice_of (t : Tier) : string :=
  match t with
  | High => advice_high
  | Medium => advice_medium
  | Low => advice_low
  end.

Definition music_options (t : Tier) : list string :=
  match t with
  | High => music_options_high
  | Medium => music_options_medium
  | Low => music_options_low
  end.

Definition music_of (hash : string -> Z) (text : string) (t : Tier) : string :=
  nth (Z.to_nat (hash text mod 3)) (music_options t) "".

(** The whole result. *)
Definition entry_of (hash : string -> Z) (md5_hexdigest : string -> string)
    (user text : string) (choice : option Tier) (now_id now_stamp : string)
  : MoodEntry :=
  {| success := true;
     record_id := take 12 (md5_hexdigest (user ++ now_id)%string);
     user_id := user;
     mood := text;
     primary_trigger := primary_of text;
     trigger_scores := scores_of text;
     severity := tier_name (tier_of choice text);
     advice := advice_of (tier_of choice text);
     music_track := music_of hash text (tier_of choice text);
     deep_insight := insight_of (primary_of text) (tier_of choice text);
     timestamp := now_stamp;
     private_note := None |}.

End FrontView.

(* ================================================================== *)
(** ** [analyze_mood], field by field *)
(* ================================================================== *)

(** The same for [analyze_mood]; [FrontendFacts.analyze_mood_run] shows that
    the function returns [entry_of]. *)

Module FrontendView.
Import Py Spec Frontend.

(** The chain of keyword scans, as a table: category, keywords, weight, in
    the order of the [if] statements. *)
Definition category_table : list (string * list string * Q) :=
  [ ("political", ["election"; "government"; "politics"], 0.8);
    ("social", ["people"; "society"; "community"], 0.7);
    ("environmental", ["climate"; "environment"; "pollution"], 0.75);
    ("work", ["work"; "job"; "boss"; "career"], 0.8);
    ("relationship", ["relationship"; "partner"; "breakup"], 0.85);
    ("health", ["sick"; "pain"; "health"], 0.8);
    ("financial", ["money"; "debt"; "bills"], 0.75) ].

Definition categories : list string :=
  map (fun row => fst (fst row)) category_table.

Definition labels : list string := categories ++ ["other"].

(** The score dict: a category whose keywords occur gets its weight, in table
    order; the other categories get no key. *)
Definition scores_of (text : string) : dict Q :=
  fold_left
    (fun (d : dict Q) '(trigger, keywords, weight) =>
       if existsb (fun kw => occurs_cib kw text) keywords
       then dict_set trigger weight d
       else d)
    category_table [].

Definition primary_of (text : string) : string :=
  match keys (scores_of text) with
  | [] => "other"
  | k :: r => max_from Qgtb (score_in 0%Q (scores_of text)) k r
  end.

(** The tier found by the keyword scan: never [Low]. *)
Definition detect (text : string) : Tier :=
  if existsb (fun kw => occurs_cib kw text) stress_words then High else Medium.

Definition tier_of (choice : option Tier) (text : string) : Tier :=
  match choice with
  | Some t => t
  | None => detect text
  end.

Definition advice_of (t : Tier) : string :=
  match t with
  | High => "IMMEDIATE SUPPORT:
• Deep breathing (4-7-8 technique)
• Contact trusted person
• Crisis line: 988
• Remove from immediate stressors"
  | Medium => "STRESS MANAGEMENT:
• Journal your thoughts
• 15-minute walk
• Mindfulness practice
• Connect with support network"
  | Low => "MAINTAIN BALANCE:
• Continue healthy routines
• Engage in joy activities
• Stay connected
• Track mood patterns"
  end.

Definition music_of (t : Tier) : string :=
  match t with
  | High => "Weightless - Marconi Union"
  | Medium => "Clair de Lune - Debussy"
  | Low => "Here Comes The Sun - The Beatles"
  end.

Definition insight_of (t : Tier) : string :=
  match t with
  | High => "Significant emotional distress detected. Professional support recommended."
  | Medium => "Notable stress levels. Implementing coping strategies is beneficial."
  | Low => "Manageable stress levels. Keep up the good work!"
  end.

Definition entry_of (entries : list MoodEntry) (user text : string)
    (choice : option Tier) (now : string) : MoodEntry :=
  {| success := true;
     record_id := ("entry_" ++ str_of_nat (List.length entries + 1))%string;
     user_id := user;
     primary_trigger := primary_of text;
     trigger_scores := scores_of text;
     severity := tier_name (tier_of choice text);
     advice := advice_of (tier_of choice text);
     music_track := music_of (tier_of choice text);
     deep_insight := insight_of (tier_of choice text);
     timestamp := now |}.

(** The requirement on the primary trigger, as a test on a score dict. *)
Definition primary_okb (d : dict Q) (p : string) : bool :=
  if forallb (fun c => Qeq_bool (score_in 0%Q d c) 0) categories
  then (p =? "other")%string
  else negb (p =? "other")%string
       && first_maxb Qle_bool (score_in 0%Q d) categories p.

End FrontendView.

(* ================================================================== *)
(** ** The store *)
(* ================================================================== *)

Module Store.
Import Py Spec.

(** An entry of the store holds a dict under [trigger_scores]: no key
    twice. *)
Definition well_formed (e : Front.MoodEntry) : Prop :=
  NoDup (keys (Front.trigger_scores e)).

(** Two entries of two users, to try the handlers on. *)
Definition sample_entry (rid user text : string) : Front.MoodEntry :=
  FrontView.entry_of (fun _ => 0%Z) (fun _ => rid) user text None
    "2024-01-01T09:00:00" "2024-01-01T09:00:00".

Definition sample_store : list Front.MoodEntry :=
  [ sample_entry "0123456789ab" "ann" "I am stressed about my exam tomorrow";
    sample_entry "ba9876543210" "bob" "a quiet day at the office" ].

End Store.

(* ================================================================== *)
(** ** Sample calls *)
(* ================================================================== *)

Module Samples.
Import Py Spec.

(** A stand-in for the builtin [hash]. *)
Definition hash0 (s : string) : Z := Z.of_nat (String.length s).

(** A stand-in for [hashlib.md5(..).hexdigest()]. *)
Definition md5_0 (s : string) : string := "d41d8cd98f00b204e9800998ecf8427e".

(** A stand-in for the rounding of a quotient to a float: down to a
    multiple of 1/1024. *)
Definition to_float0 (q : Q) : Q := Qfloor (q * 1024) # 1024.

Definition front (text : string) (severity : option string)
  : result Front.MoodEntry :=
  Front.mock_analyze_mood hash0 md5_0 "demo_user" text severity
    "2024-01-01T09:00:00.000001" "2024-01-01T09:00:00.000002".

Definition frontend (text : string) (severity : option string)
  : result Frontend.MoodEntry :=
  Frontend.analyze_mood [] "demo_user" text severity "2024-01-01T09:00:00".

(** What a test reads off a result. *)
Definition summary_front (r : result Front.MoodEntry)
  : option (string * string * string) :=
  match r with
  | Ok e => Some (Front.primary_trigger e, Front.severity e, Front.record_id e)
  | Raise _ => None
  end.

Definition summary_frontend (r : result Frontend.MoodEntry)
  : option (string * string * string) :=
  match r with
  | Ok e => Some (Frontend.primary_trigger e, Frontend.severity e,
                  Frontend.record_id e)
  | Raise _ => None
  end.

End Samples.

(* ================================================================== *)
(** ** The laws of the specification *)
(* ================================================================== *)

(** Each law is stated for any classifier: a function from the mood text and
    the severity argument to an entry or an exception, with the projections
    of the entry it speaks about. *)

Module Laws.
Import Py Spec.

Section Classifier.
Context {E : Type}.
Variable classify : string -> option string -> result E.
Variables sev primary insight : E -> string.

(** Severity by keywords: high before medium before low. *)
Definition severity_by_keywords (high medium : list string) : Prop :=
  forall text,
  plain text = true ->
  exists e,
    classify text None = Ok e
    /\ (any_occurs high text -> sev e = "high")
    /\ (~ any_occurs high text -> any_occurs medium text -> sev e = "medium")
    /\ (~ any_occurs high text -> ~ any_occurs medium text -> sev e = "low").

(** The score of every category of [table] is the count of its keywords
    that occur; [is_count v n] reads the score [v] as the count [n]. *)
Definition scores_are_counts {V : Type} (score : E -> string -> V)
    (is_count : V -> nat -> Prop) (table : list (string * list string)) : Prop :=
  forall text choice,
  plain text = true ->
  exists e,
    classify text (supplied choice) = Ok e
    /\ Forall (fun row => is_count (score e (fst row))
                                   (count_occurring (snd row) text))
              table.

(** The primary trigger is the first category of maximal score, and "other"
    exactly when every score is zero. *)
Definition primary_by_first_max {V : Type} (score : E -> string -> V)
    (leb : V -> V -> bool) (is_zero : V -> Prop) (cats : list string) : Prop :=
  forall text choice,
  exists e,
    classify text (supplied choice) = Ok e
    /\ ((exists c, In c cats /\ ~ is_zero (score e c)) ->
        first_max leb (score e) cats (primary e))
    /\ (primary e = "other" <-> forall c, In c cats -> is_zero (score e c)).

(** A supplied tier is the severity of the result, whatever the text. *)
Definition explicit_severity_kept : Prop :=
  forall text t,
  exists e, classify text (Some (tier_name t)) = Ok e /\ sev e = tier_name t.

(** The insight is an opening by tier, a sentence by trigger and tier that
    tells the triggers apart, and a closing by tier, joined by spaces. *)
Definition insight_three_parts (labels : list string)
    (opening : Tier -> string) (table : string -> Tier -> string)
    (closing : Tier -> string) : Prop :=
  (forall t c c', In c labels -> In c' labels -> c <> c' ->
                  table c t <> table c' t)
  /\ forall text choice,
     exists e t,
       classify text (supplied choice) = Ok e
       /\ sev e = tier_name t
       /\ In (primary e) labels
       /\ insight e
          = (opening t ++ " " ++ table (primary e) t ++ " " ++ closing t)%string.

(** No exception without a severity argument; and on blank text all scores
    are zero, the trigger is "other" and the severity is "low". *)
Definition blank_text_law {V : Type} (score : E -> string -> V)
    (is_zero : V -> Prop) (cats : list string) : Prop :=
  (forall text, exists e, classify text None = Ok e)
  /\ forall text,
     whitespace_only text = true ->
     exists e,
       classify text None = Ok e
       /\ (forall c, In c cats -> is_zero (score e c))
       /\ primary e = "other"
       /\ sev e = "low".

(** The invariants of an entry. *)
Definition entry_invariants {V : Type} (scores : E -> dict V)
    (cats : list string) : Prop :=
  forall text choice,
  exists e,
    classify text (supplied choice) = Ok e
    /\ In (sev e) (map tier_name tiers)
    /\ In (primary e) (cats ++ ["other"])
    /\ incl (keys (scores e)) cats.

End Classifier.

(** The music track is one of three candidates of the tier, the one at
    index [hash(text) % 3], for every hash function. *)
Definition music_by_hash {E : Type}
    (classify : (string -> Z) -> string -> option string -> result E)
    (sev music : E -> string) (candidates : Tier -> list string) : Prop :=
  (forall t, List.length (candidates t) = 3%nat /\ NoDup (candidates t))
  /\ forall hash text choice,
     exists e t,
       classify hash text (supplied choice) = Ok e
       /\ sev e = tier_name t
       /\ nth_error (candidates t)
            (Z.to_nat (hash text mod Z.of_nat (List.length (candidates t))))
          = Some (music e).

(** The analysis of a text does not depend on the user. *)
Definition user_independent {E X : Type}
    (classify : string -> string -> option string -> result E)
    (analysis : E -> X) : Prop :=
  forall user user' text choice,
  exists e e',
    classify user text (supplied choice) = Ok e
    /\ classify user' text (supplied choice) = Ok e'
    /\ analysis e = analysis e'.

(** The classifier of [mindmate_front.py], in the interpreter state given by
    [hash] and [md5_hexdigest], for a user and two readings of the clock. *)
Definition front_classifier (hash : string -> Z)
    (md5_hexdigest : string -> string) (user now_id now_stamp : string)
  : string -> option string -> result Front.MoodEntry :=
  fun text severity =>
    Front.mock_analyze_mood hash md5_hexdigest user text severity now_id now_stamp.

(** The classifier of [mindmate_frontend.py], for the entries of the session,
    a user and a reading of the clock. *)
Definition frontend_classifier (entries : list Frontend.MoodEntry)
    (user now : string)
  : string -> option string -> result Frontend.MoodEntry :=
  fun text severity => Frontend.analyze_mood entries user text severity now.

End Laws.

(* ================================================================== *)
(** ** Further vocabulary *)
(* ================================================================== *)

Module Spec2.
Import Py PyText Spec.

(** The tiers from the mildest to the gravest. *)
Definition rank (t : Tier) : nat :=
  match t with
  | Low => 0
  | Medium => 1
  | High => 2
  end.

(** The tier whose advice, music and insight [analyze_mood] of
    [mindmate_frontend.py] attaches to a severity string. *)
Definition content_tier (severity : string) : Tier :=
  if severity =? "high" then High
  else if severity =? "medium" then Medium
  else Low.

(** The severity that [analyze_mood] of [mindmate_frontend.py] works with. *)
Definition frontend_severity (severity : option string) (text : string)
  : string :=
  match severity with
  | Some (String c r) => String c r
  | Some EmptyString | None => tier_name (FrontendView.detect text)
  end.

(** The result of [analyze_mood] of [mindmate_frontend.py] for any severity
    argument (see [analyze_mood_run_any]). *)
Definition frontend_entry (entries : list Frontend.MoodEntry)
    (user text : string) (severity : option string) (now : string)
  : Frontend.MoodEntry :=
  {| Frontend.success := true;
     Frontend.record_id :=
       ("entry_" ++ str_of_nat (List.length entries + 1))%string;
     Frontend.user_id := user;
     Frontend.primary_trigger := FrontendView.primary_of text;
     Frontend.trigger_scores := FrontendView.scores_of text;
     Frontend.severity := frontend_severity severity text;
     Frontend.advice :=
       FrontendView.advice_of (content_tier (frontend_severity severity text));
     Frontend.music_track :=
       FrontendView.music_of (content_tier (frontend_severity severity text));
     Frontend.deep_insight :=
       FrontendView.insight_of (content_tier (frontend_severity severity text));
     Frontend.timestamp := now |}.

(** The categories of [mindmate_frontend.py] from the heaviest weight to the
    lightest, equal weights in the order of the scans. *)
Definition frontend_priority : list string :=
  ["relationship"; "political"; "work"; "health"; "environmental";
   "financial"; "social"].

(** The keywords of a category of [mindmate_frontend.py]. *)
Definition frontend_keywords (category : string) : list string :=
  match find (fun row => fst (fst row) =? category) FrontendView.category_table with
  | Some row => snd (fst row)
  | None => []
  end.

(** The first category of [frontend_priority] that has a keyword in the
    text. *)
Definition first_present (text : string) : string :=
  match find (fun c => existsb (fun kw => occurs_cib kw text)
                               (frontend_keywords c))
             frontend_priority with
  | Some c => c
  | None => "other"
  end.

(** The options of the severity select box. *)
Definition severity_options : list string :=
  ["Auto-detect"; "Low"; "Medium"; "High"].

(** [s] starts with [p]. *)
Definition starts_with (p s : string) : Prop := exists t, s = (p ++ t)%string.

(** [l1] is [l2] with some items left out, the order kept. *)
Inductive sublist {A : Type} : list A -> list A -> Prop :=
| sublist_nil : sublist [] []
| sublist_skip (x : A) (l1 l2 : list A) : sublist l1 l2 -> sublist l1 (x :: l2)
| sublist_keep (x : A) (l1 l2 : list A) : sublist l1 l2 -> sublist (x :: l1) (x :: l2).

(** What the model asks of the items of a [set]: each value of the list
    once, in some order. *)
Definition set_like (set_items : list string -> list string) : Prop :=
  forall l, NoDup (set_items l) /\ forall x, In x (set_items l) <-> In x l.

(** An event of the session of [mindmate_front.py] that writes writes well. *)
Definition writes_well (ev : FrontApp.event) : Prop :=
  match ev with
  | FrontApp.NewEntry _ w _ _ _ _ _ _ => w = FrontApp.Written
  | FrontApp.DeleteRow w _ _ => w = FrontApp.Written
  | FrontApp.ClearMyData w => w = FrontApp.Written
  | _ => True
  end.

(** The remote service cannot be reached or answers another status than
    200: [analyze_mood] goes on to [mock_analyze_mood]. *)
Definition falls_back (r : FrontApp.remote) : Prop :=
  match r with
  | FrontApp.Response status_code _ => status_code <> 200%Z
  | FrontApp.RequestError => True
  | FrontApp.OtherError => False
  end.

(** The remote service does not answer 200. *)
Definition no_answer (r : FrontApp.remote) : Prop :=
  match r with
  | FrontApp.Response status_code _ => status_code <> 200%Z
  | FrontApp.RequestError => True
  | FrontApp.OtherError => True
  end.

(** What is taken of the rounding of a quotient to a float: a greater
    quotient does not give a smaller float, and 0 and 1 are floats. *)
Definition rounds (to_float : Q -> Q) : Prop :=
  (forall q q', (q <= q')%Q -> (to_float q <= to_float q')%Q)
  /\ (to_float 0 == 0)%Q
  /\ (to_float 1 == 1)%Q.

(** An entry whose mood text and primary trigger hold neither the Kelvin
    sign nor the capital I with a dot. *)
Definition searchable (e : Front.MoodEntry) : Prop :=
  plain (Front.mood e) = true /\ plain (Front.primary_trigger e) = true.

(** An event of the session of [mindmate_front.py] in which the remote
    service does not answer 200. *)
Definition local_event (ev : FrontApp.event) : Prop :=
  match ev with
  | FrontApp.NewEntry r _ _ _ _ _ _ _ => no_answer r
  | _ => True
  end.

(** An event of the session of [mindmate_front.py] that is not a login as
    [user]. *)
Definition other_user (user : string) (ev : FrontApp.event) : Prop :=
  match ev with
  | FrontApp.Login username => strip username <> user
  | _ => True
  end.

(** The file holds the entries of the session. *)
Definition saved (s : FrontApp.session) : Prop :=
  fst (FrontApp.load_data (FrontApp.file s)) = FrontApp.entries s.

(** The place of [x] in [l] by [l.index(x)], 0 where that raises. *)
Definition place {A : Type} (eqb : A -> A -> bool) (x : A) (l : list A) : nat :=
  match list_index eqb x l with
  | Ok i => i
  | Raise _ => 0
  end.

(** How many items of [l] are [x]. *)
Definition times (x : string) (l : list string) : nat :=
  List.length (filter (fun y => String.eqb y x) l).

(** What the dashboard shows for a list of severities and triggers: the
    number of entries, the number of those of high severity, and a trigger
    that no other trigger beats in number. *)
Definition dashboard_of (severities triggers : list string)
    (shown : option (Z * Z * option string)) : Prop :=
  match triggers with
  | [] => shown = None
  | _ :: _ =>
      exists top,
        shown = Some (Z.of_nat (List.length triggers),
                      Z.of_nat (times "high" severities), Some top)
        /\ In top triggers
        /\ forall t, (times t triggers <= times top triggers)%nat
  end.

(** The record ids of a session of [mindmate_frontend.py] number its entries
    from 1, in order. *)
Definition numbered (entries : list Frontend.MoodEntry) : Prop :=
  forall i e,
    nth_error entries i = Some e ->
    Frontend.record_id e = ("entry_" ++ str_of_nat (i + 1))%string.

End Spec2.

(* ================================================================== *)
(** ** Facts about the runtime model *)
(* ================================================================== *)

Module StrFacts.
Import Py.
Local Open Scope string_scope.

Lemma append_length (a b : string) :
  String.length (a ++ b) = (String.length a + String.length b)%nat.
Proof. induction a as [|c a IH]; cbn; [reflexivity | now rewrite IH]. Qed.

Lemma append_cancel_l (a x y : string) : (a ++ x = a ++ y)%string -> x = y.
Proof. induction a as [|c a IH]; cbn; intros H; [exact H | injection H; auto]. Qed.

Lemma append_cancel_r (b x y : string) : (x ++ b = y ++ b)%string -> x = y.
Proof.
  revert y; induction x as [|c x IH]; intros [|d y] H; cbn in H.
  - reflexivity.
  - apply (f_equal String.length) in H. cbn in H. rewrite append_length in H. lia.
  - apply (f_equal String.length) in H. cbn in H. rewrite append_length in H. lia.
  - injection H as -> H. f_equal. now apply IH.
Qed.

(** [String.prefix] recognises exactly the strings that start with [p]. *)
Lemma prefix_iff_append (p s : string) :
  String.prefix p s = true <-> exists t, s = p ++ t.
Proof.
  revert s; induction p as [|c p IH]; intros s.
  - destruct s; simpl; split; intros; eauto.
  - destruct s as [|d s]; simpl.
    + split; [discriminate | intros [t Ht]; discriminate].
    + destruct (ascii_dec c d) as [->|Hne].
      * split.
        -- intros H. apply IH in H as [t ->]. now exists t.
        -- intros [t Ht]. apply IH. exists t. congruence.
      * split; [discriminate | intros [t Ht]; congruence].
Qed.

(** [needle in hay]: [hay] splits around one occurrence of [needle]. *)
Lemma contains_iff_split (needle hay : string) :
  contains needle hay = true <-> exists a b, hay = a ++ needle ++ b.
Proof.
  induction hay as [|c hay IH]; cbn [contains]; rewrite orb_true_iff.
  - split.
    + intros [H|H]; [|discriminate].
      apply prefix_iff_append in H as [t Ht]. now exists "", t.
    + intros [a [b H]]. left. apply prefix_iff_append.
      destruct a; [now exists b | discriminate].
  - split.
    + intros [H|H].
      * apply prefix_iff_append in H as [t Ht]. now exists "", t.
      * apply IH in H as [a [b ->]]. now exists (String c a), b.
    + intros [[|d a] [b H]].
      * left. apply prefix_iff_append. now exists b.
      * right. apply IH. simpl in H. exists a, b. congruence.
Qed.

Lemma lower_append (a b : string) : lower (a ++ b) = lower a ++ lower b.
Proof. induction a as [|c a IH]; simpl; [reflexivity | now rewrite IH]. Qed.

(** A split of the lowered text comes from a split of the text. *)
Lemma lower_split (s a b : string) :
  lower s = a ++ b -> exists s1 s2, s = s1 ++ s2 /\ lower s1 = a /\ lower s2 = b.
Proof.
  revert s; induction a as [|c a IH]; intros s H.
  - exists "", s. auto.
  - destruct s as [|d s]; [discriminate|].
    simpl in H. injection H as Hc Hr.
    destruct (IH _ Hr) as [s1 [s2 [-> [H1 H2]]]].
    exists (String d s1), s2. simpl. now rewrite Hc, H1.
Qed.

(** The first byte of a non-empty needle that occurs is a byte of the text. *)
Lemma contains_first_byte (c : ascii) (k hay : string) :
  contains (String c k) hay = true ->
  exists a b, hay = a ++ String c b.
Proof.
  intros H. apply contains_iff_split in H as [a [b ->]].
  exists a, (k ++ b). reflexivity.
Qed.

End StrFacts.


Module PyFacts.
Import Py.

Lemma any_map_existsb {A : Type} (f : A -> bool) (l : list A) :
  any (map f l) = existsb f l.
Proof.
  unfold any. induction l as [|x l IH]; simpl; [reflexivity | now rewrite IH].
Qed.

Lemma existsb_count {A : Type} (f : A -> bool) (l : list A) :
  existsb f l
  = match List.length (filter f l) with O => false | S _ => true end.
Proof.
  induction l as [|x l IH]; [reflexivity|]. cbn [existsb filter].
  destruct (f x); [reflexivity | exact IH].
Qed.

Lemma fold_add_shift (l : list Z) (a : Z) :
  fold_left Z.add l a = (a + fold_left Z.add l 0)%Z.
Proof.
  revert a; induction l as [|x l IH]; intros a; simpl; [lia|].
  rewrite (IH (a + x)%Z), (IH x). lia.
Qed.

(** [sum(1 for _ in l)] is the number of items of [l]. *)
Lemma sum_ones {A : Type} (l : list A) :
  sum (map (fun _ => 1%Z) l) = Z.of_nat (List.length l).
Proof.
  unfold sum. induction l as [|x l IH]; [reflexivity|].
  cbn [map fold_left List.length]. rewrite fold_add_shift, IH. lia.
Qed.

Lemma any_nonzero (l : list Z) :
  any (map (fun v => negb (v =? 0)%Z) l) = negb (forallb (fun v => (v =? 0)%Z) l).
Proof.
  rewrite any_map_existsb.
  induction l as [|v l IH]; simpl; [reflexivity|].
  rewrite IH. now destruct (v =? 0)%Z.
Qed.

Lemma list_getitem_in_range {A : Type} (l : list A) (i : Z) (d : A) :
  (0 <= i < Z.of_nat (List.length l))%Z ->
  list_getitem l i = Ok (nth (Z.to_nat i) l d).
Proof.
  intros Hi. unfold list_getitem.
  destruct (i <? 0)%Z eqn:E; [lia|]. rewrite E.
  destruct (nth_error l (Z.to_nat i)) as [a|] eqn:N.
  - now rewrite (nth_error_nth _ _ d N).
  - apply nth_error_None in N. lia.
Qed.

(** [l.remove(x)] takes out the first item equal to [x] and nothing else. *)
Lemma list_remove_split {A : Type} (eqb : A -> A -> bool) (x : A) (l : list A) :
  (exists y, In y l /\ eqb y x = true) ->
  exists before y after,
    l = before ++ y :: after
    /\ eqb y x = true
    /\ (forall z, In z before -> eqb z x = false)
    /\ list_remove eqb x l = Ok (before ++ after).
Proof.
  induction l as [|a l IH]; intros [y [Hin Hy]]; [destruct Hin|].
  cbn [list_remove]. destruct (eqb a x) eqn:Ea.
  - exists [], a, l. repeat split; auto. intros z [].
  - destruct Hin as [->|Hin]; [congruence|].
    destruct (IH (ex_intro _ y (conj Hin Hy)))
      as [before [y' [after [-> [Hy' [Hb Hr]]]]]].
    exists (a :: before), y', after. rewrite Hr.
    repeat split; auto. intros z [<-|Hz]; auto.
Qed.

Lemma filter_none {A : Type} (f : A -> bool) (l : list A) :
  (forall x, In x l -> f x = true) -> filter f l = l.
Proof.
  induction l as [|a l IH]; intros H; [reflexivity|]. cbn [filter].
  rewrite (H a (or_introl eq_refl)), IH; [reflexivity|].
  intros x Hx. apply H. now right.
Qed.

Lemma nodup_map_injective {A B : Type} (f : A -> B) (l : list A) (x y : A) :
  NoDup (map f l) -> In x l -> In y l -> f x = f y -> x = y.
Proof.
  induction l as [|a l IH]; intros Hnd Hx Hy E; [destruct Hx|].
  cbn [map] in Hnd. apply NoDup_cons_iff in Hnd as [Ha Hnd].
  destruct Hx as [->|Hx], Hy as [->|Hy]; auto.
  - exfalso. apply Ha. rewrite E. now apply in_map.
  - exfalso. apply Ha. rewrite <- E. now apply in_map.
Qed.

Lemma max_from_in {A K : Type} (gtb : K -> K -> bool) (key : A -> K)
    (l : list A) (best : A) :
  In (max_from gtb key best l) (best :: l).
Proof.
  revert best; induction l as [|x l IH]; intros best; simpl; [now left|].
  destruct (IH (if gtb (key x) (key best) then x else best)) as [H|H].
  - rewrite <- H. destruct (gtb _ _); auto.
  - auto.
Qed.

Lemma dict_get_in_nodup {V : Type} (d : dict V) (k : string) (v : V) :
  NoDup (keys d) -> In (k, v) d -> dict_get k d = Some v.
Proof.
  induction d as [|[k' v'] d IH]; intros Hnd Hin; [destruct Hin|].
  cbn [keys map fst] in Hnd. apply NoDup_cons_iff in Hnd as [Hk Hnd].
  cbn [dict_get]. destruct Hin as [E|Hin].
  - injection E as -> ->. now rewrite String.eqb_refl.
  - destruct (String.eqb_spec k' k) as [->|_]; [|now apply IH].
    exfalso. apply Hk. change k with (fst (k, v)). now apply in_map.
Qed.

Lemma dict_eqb_refl {V : Type} (veqb : V -> V -> bool) (d : dict V) :
  (forall v, veqb v v = true) -> NoDup (keys d) -> dict_eqb veqb d d = true.
Proof.
  intros Hv Hnd. unfold dict_eqb. rewrite Nat.eqb_refl. cbn [andb].
  apply forallb_forall. intros [k v] Hin. cbn [fst snd].
  now rewrite (dict_get_in_nodup d k v Hnd Hin).
Qed.

Lemma Zgtb_leb (a b : Z) : (a >? b)%Z = negb (a <=? b)%Z.
Proof. rewrite Z.gtb_ltb. apply Z.ltb_antisym. Qed.

Lemma Zleb_total (a b : Z) : (a <=? b)%Z = true \/ (b <=? a)%Z = true.
Proof. rewrite !Z.leb_le. lia. Qed.

Lemma Zleb_trans (a b c : Z) :
  (a <=? b)%Z = true -> (b <=? c)%Z = true -> (a <=? c)%Z = true.
Proof. rewrite !Z.leb_le. lia. Qed.

End PyFacts.

(* ================================================================== *)
(** ** Facts about the vocabulary *)
(* ================================================================== *)

Module SpecFacts.
Import Py Spec StrFacts PyFacts.

(** [occurs_cib] decides [occurs_ci]: searching the lowered keyword in the
    lowered text finds exactly the substrings equal to it up to case. *)
Lemma occurs_cib_iff (kw text : string) :
  occurs_cib kw text = true <-> occurs_ci kw text.
Proof.
  unfold occurs_cib, occurs_ci, eq_ci. rewrite contains_iff_split. split.
  - intros [a [b H]].
    apply lower_split in H as [pre [rest [-> [_ H]]]].
    apply lower_split in H as [mid [post [-> [H _]]]].
    now exists pre, mid, post.
  - intros [pre [mid [post [-> H]]]].
    exists (lower pre), (lower post).
    now rewrite !lower_append, H.
Qed.

(** On a keyword written in lower case the program's test
    [kw in text.lower()] is [occurs_cib]. *)
Lemma contains_lowered (kw text : string) :
  lower kw = kw -> contains kw (lower text) = occurs_cib kw text.
Proof. intros H. unfold occurs_cib. now rewrite H. Qed.

Lemma filter_lowered (words : list string) (text : string) :
  Forall (fun kw => lower kw = kw) words ->
  filter (fun kw => contains kw (lower text)) words
  = filter (fun kw => occurs_cib kw text) words.
Proof.
  intros Hl. apply filter_ext_in. intros kw Hin.
  rewrite Forall_forall in Hl. now apply contains_lowered, Hl.
Qed.

Lemma existsb_contains_lowered (words : list string) (text : string) :
  Forall (fun kw => lower kw = kw) words ->
  any (map (fun word => contains word (lower text)) words)
  = existsb (fun kw => occurs_cib kw text) words.
Proof.
  intros Hl. rewrite any_map_existsb.
  induction Hl as [|kw words Hkw _ IH]; simpl; [reflexivity|].
  now rewrite IH, (contains_lowered kw text Hkw).
Qed.

(** Nothing that starts with a letter occurs in white space. *)
Lemma whitespace_has_no_byte (c : ascii) (text a b : string) :
  whitespace_only text = true -> text = (a ++ String c b)%string ->
  is_space c = true.
Proof.
  revert text; induction a as [|d a IH]; intros text Hw ->; simpl in Hw;
    apply andb_true_iff in Hw as [H1 H2].
  - exact H1.
  - now apply (IH _ H2).
Qed.

Lemma whitespace_lower (text : string) :
  whitespace_only text = true -> lower text = text.
Proof.
  induction text as [|c text IH]; simpl; [reflexivity|].
  intros H. apply andb_true_iff in H as [Hc Ht]. rewrite (IH Ht). f_equal.
  destruct c as [[] [] [] [] [] [] [] []]; try reflexivity; discriminate.
Qed.

Lemma whitespace_contains (c : ascii) (k text : string) :
  is_space c = false -> whitespace_only text = true ->
  contains (String c k) (lower text) = false.
Proof.
  intros Hc Hw. rewrite (whitespace_lower _ Hw).
  destruct (contains (String c k) text) eqn:E; [|reflexivity].
  apply contains_first_byte in E as [a [b E]].
  rewrite (whitespace_has_no_byte c text a b Hw E) in Hc. discriminate.
Qed.

(** *** The first maximum *)

Section FirstMax.
Context {A K : Type} (leb gtb : K -> K -> bool) (key : A -> K).
Hypothesis gtb_leb : forall a b, gtb a b = negb (leb a b).
Hypothesis leb_total : forall a b, leb a b = true \/ leb b a = true.
Hypothesis leb_trans :
  forall a b c, leb a b = true -> leb b c = true -> leb a c = true.

Lemma first_max_bounds (l : list A) (m x : A) :
  first_max leb key l m -> In x l -> leb (key x) (key m) = true.
Proof.
  intros [pre [post [-> [Hpre Hpost]]]] Hin.
  apply in_app_or in Hin as [Hin|[<-|Hin]].
  - destruct (leb_total (key x) (key m)) as [H|H]; [exact H|].
    now rewrite (Hpre _ Hin) in H.
  - now destruct (leb_total (key m) (key m)).
  - now apply Hpost.
Qed.

Lemma first_max_step (seen : list A) (best x : A) :
  first_max leb key seen best ->
  first_max leb key (seen ++ [x])
    (if gtb (key x) (key best) then x else best).
Proof.
  intros Hb. rewrite gtb_leb.
  destruct (leb (key x) (key best)) eqn:E; simpl.
  - destruct Hb as [pre [post [-> [Hpre Hpost]]]].
    exists pre, (post ++ [x]). split; [now rewrite <- app_assoc|].
    split; [exact Hpre|].
    intros y Hy. apply in_app_or in Hy as [Hy|[<-|[]]]; auto.
  - exists seen, []. split; [reflexivity|]. split; [|intros y []].
    intros y Hy. pose proof (first_max_bounds _ _ _ Hb Hy) as Hle.
    destruct (leb (key x) (key y)) eqn:E'; [|reflexivity].
    now rewrite (leb_trans _ _ _ E' Hle) in E.
Qed.

Lemma max_from_first_max (l seen : list A) (best : A) :
  first_max leb key seen best ->
  first_max leb key (seen ++ l) (max_from gtb key best l).
Proof.
  revert seen best; induction l as [|x l IH]; intros seen best Hb; simpl.
  - now rewrite app_nil_r.
  - replace (seen ++ x :: l) with ((seen ++ [x]) ++ l)
      by now rewrite <- app_assoc.
    apply IH, first_max_step, Hb.
Qed.

(** [max(l, key=key)] on a list with an item returns its first maximum. *)
Lemma max_by_first_max (x : A) (l : list A) :
  max_by gtb key (x :: l) = Ok (max_from gtb key x l)
  /\ first_max leb key (x :: l) (max_from gtb key x l).
Proof.
  split; [reflexivity|].
  apply (max_from_first_max l [x] x).
  exists [], []. split; [reflexivity|]. split; intros y [].
Qed.

(** There is one first maximum. *)
Lemma first_max_unique (l : list A) (m m' : A) :
  first_max leb key l m -> first_max leb key l m' -> m = m'.
Proof.
  intros [p1 [q1 [E1 [P1 Q1]]]] [p2 [q2 [E2 [P2 Q2]]]].
  revert p2 E2 P2. subst l. induction p1 as [|a p1 IH]; intros p2 E2 P2.
  - destruct p2 as [|b p2]; simpl in E2; [congruence|].
    injection E2 as -> E2.
    pose proof (P2 b (or_introl eq_refl)) as H.
    assert (Hin : In m' q1) by (rewrite E2; apply in_elt).
    now rewrite (Q1 _ Hin) in H.
  - destruct p2 as [|b p2]; simpl in E2.
    + injection E2 as -> E2.
      pose proof (P1 m' (or_introl eq_refl)) as H.
      assert (Hin : In m q2) by (rewrite <- E2; apply in_elt).
      now rewrite (Q2 _ Hin) in H.
    + injection E2 as -> E2.
      apply (fun H => IH H p2 E2); intros y Hy; [apply P1 | apply P2]; now right.
Qed.

End FirstMax.

Lemma first_maxb_sound {K : Type} (leb : K -> K -> bool) (key : string -> K)
    (l : list string) (m : string) :
  first_maxb leb key l m = true -> first_max leb key l m.
Proof.
  induction l as [|x l IH]; simpl; [discriminate|].
  rewrite orb_true_iff, !andb_true_iff. intros [[Hx Hall]|[Hlt Hrest]].
  - apply String.eqb_eq in Hx as ->. exists [], l.
    split; [reflexivity|]. split; [intros y []|].
    now apply forallb_forall.
  - destruct (IH Hrest) as [pre [post [-> [Hpre Hpost]]]].
    exists (x :: pre), post. split; [reflexivity|]. split; [|exact Hpost].
    intros y [<-|Hy]; [now apply negb_true_iff | now apply Hpre].
Qed.

Lemma first_max_in {A K : Type} (leb : K -> K -> bool) (key : A -> K)
    (l : list A) (m : A) :
  first_max leb key l m -> In m l.
Proof. intros [pre [post [-> _]]]. apply in_elt. Qed.

Lemma score_in_item {V : Type} (zero : V) (d : dict V) (it : string * V) :
  NoDup (keys d) -> In it d -> score_in zero d (fst it) = snd it.
Proof.
  intros Hnd Hin. destruct it as [k v]. unfold score_in. cbn [fst snd].
  now rewrite (dict_get_in_nodup d k v Hnd Hin).
Qed.

(** The first maximal item of a dict with distinct keys names the first
    maximal key. *)
Lemma first_max_keys {V : Type} (leb : V -> V -> bool) (zero : V)
    (d : dict V) (it : string * V) :
  NoDup (keys d) -> first_max leb snd (items d) it ->
  first_max leb (score_in zero d) (keys d) (fst it).
Proof.
  intros Hnd [pre [post [E [Hpre Hpost]]]]. unfold items in E.
  assert (Hit : In it d) by (rewrite E; apply in_elt).
  exists (map fst pre), (map fst post). split.
  - unfold keys. now rewrite E, map_app.
  - rewrite (score_in_item zero d it Hnd Hit).
    split; intros k Hk; apply in_map_iff in Hk as [x [<- Hx]].
    + rewrite (score_in_item zero d x Hnd); [now apply Hpre|].
      rewrite E. apply in_or_app. now left.
    + rewrite (score_in_item zero d x Hnd); [now apply Hpost|].
      rewrite E. apply in_or_app. right. now right.
Qed.

Lemma existsb_occurs_iff (words : list string) (text : string) :
  existsb (fun kw => occurs_cib kw text) words = true <-> any_occurs words text.
Proof.
  rewrite existsb_exists. unfold any_occurs.
  split; intros [kw [Hin H]]; exists kw; split; auto;
    now apply occurs_cib_iff.
Qed.

Lemma blank_no_keyword (kw text : string) :
  word_like kw = true -> whitespace_only text = true ->
  occurs_cib kw text = false.
Proof.
  destruct kw as [|c k]; [discriminate|]. cbn [word_like].
  intros Hc Hw. unfold occurs_cib. cbn [lower].
  apply whitespace_contains; [|exact Hw]. now apply negb_true_iff.
Qed.

Lemma blank_existsb (words : list string) (text : string) :
  forallb word_like words = true -> whitespace_only text = true ->
  existsb (fun kw => occurs_cib kw text) words = false.
Proof.
  intros Hl Hw. induction words as [|kw words IH]; [reflexivity|].
  cbn [forallb] in Hl. apply andb_true_iff in Hl as [Hk Hl].
  cbn [existsb]. now rewrite (blank_no_keyword kw text Hk Hw), IH.
Qed.

Lemma blank_count (words : list string) (text : string) :
  forallb word_like words = true -> whitespace_only text = true ->
  count_occurring words text = 0%nat.
Proof.
  intros Hl Hw. unfold count_occurring.
  induction words as [|kw words IH]; [reflexivity|].
  cbn [forallb] in Hl. apply andb_true_iff in Hl as [Hk Hl].
  cbn [filter]. now rewrite (blank_no_keyword kw text Hk Hw), IH.
Qed.

(** No keyword other than the empty one occurs in the empty text. *)
Lemma empty_text_occurs (kw : string) : occurs_ci kw "" -> kw = "".
Proof.
  intros [pre [mid [post [E H]]]].
  destruct pre; [|discriminate]. destruct mid; [|discriminate].
  unfold eq_ci in H. destruct kw; [reflexivity | discriminate].
Qed.

Lemma nodupb_sound (l : list string) : nodupb l = true -> NoDup l.
Proof.
  induction l as [|x l IH]; cbn [nodupb]; [constructor|].
  intros H. apply andb_true_iff in H as [Hx Hl]. constructor; [|now apply IH].
  intros Hin. apply negb_true_iff in Hx.
  assert (Ht : existsb (String.eqb x) l = true)
    by (apply existsb_exists; exists x; split; [exact Hin | apply String.eqb_refl]).
  rewrite Ht in Hx. discriminate.
Qed.

Lemma subsetb_incl (l1 l2 : list string) : subsetb l1 l2 = true -> incl l1 l2.
Proof.
  unfold subsetb. rewrite forallb_forall. intros H x Hx.
  specialize (H x Hx). apply existsb_exists in H as [y [Hy E]].
  apply String.eqb_eq in E. now subst.
Qed.

Lemma tier_name_injective (t t' : Tier) : tier_name t = tier_name t' -> t = t'.
Proof. destruct t, t'; intros H; try reflexivity; discriminate. Qed.

End SpecFacts.

(* ================================================================== *)
(** ** Facts about [mock_analyze_mood] *)
(* ================================================================== *)

Module FrontFacts.
Import Py Spec StrFacts PyFacts SpecFacts Front FrontView.

(** Every keyword of the tables is written in lower case. *)
Lemma trigger_keywords_lowered :
  Forall (fun row => Forall (fun kw => lower kw = kw) (snd row)) trigger_keywords.
Proof. repeat constructor. Qed.

Lemma high_words_lowered : Forall (fun kw => lower kw = kw) high_words.
Proof. repeat constructor. Qed.

Lemma medium_words_lowered : Forall (fun kw => lower kw = kw) medium_words.
Proof. repeat constructor. Qed.

(** The loop over the keyword table fills the dict in table order: the
    categories are distinct, so every assignment adds a key. *)
Lemma scores_loop (f : list string -> Z) :
  fold_left
    (fun (d : dict Z) '(trigger, keywords) => dict_set trigger (f keywords) d)
    (items trigger_keywords) []
  = map (fun '(trigger, keywords) => (trigger, f keywords)) trigger_keywords.
Proof. reflexivity. Qed.

Lemma scores_loop_counts (text : string) :
  fold_left
    (fun (d : dict Z) '(trigger, keywords) =>
       dict_set trigger
         (sum (map (fun _ => 1%Z)
                   (filter (fun kw => contains kw (lower text)) keywords))) d)
    (items trigger_keywords) []
  = scores_of text.
Proof.
  rewrite (scores_loop
             (fun keywords =>
                sum (map (fun _ => 1%Z)
                         (filter (fun kw => contains kw (lower text)) keywords)))).
  unfold scores_of. apply map_ext_in. intros [trigger keywords] Hin.
  pose proof trigger_keywords_lowered as Hl. rewrite Forall_forall in Hl.
  specialize (Hl _ Hin). simpl in Hl.
  rewrite sum_ones, (filter_lowered _ _ Hl). reflexivity.
Qed.

(** [if not severity: ...]: a supplied tier is kept, and the scan runs
    otherwise. *)
Lemma severity_step (text : string) (choice : option Tier) :
  match supplied choice with
  | Some (String c r) => String c r
  | Some EmptyString | None =>
      if any (map (fun word => contains word (lower text)) high_words)
      then "high"
      else if any (map (fun word => contains word (lower text)) medium_words)
      then "medium"
      else "low"
  end = tier_name (tier_of choice text).
Proof.
  destruct choice as [[]|]; try reflexivity. cbn [supplied option_map tier_of].
  rewrite (existsb_contains_lowered _ _ high_words_lowered),
          (existsb_contains_lowered _ _ medium_words_lowered).
  unfold detect.
  destruct (existsb _ high_words); [reflexivity|].
  destruct (existsb _ medium_words); reflexivity.
Qed.

(** The choice of the primary trigger never raises: the score dict has an
    item for each category. *)
Lemma primary_step (text : string) :
  (if any (map (fun v => negb (v =? 0)%Z) (values (scores_of text)))
   then bind (max_by Z.gtb snd (items (scores_of text))) (fun x => Ok (fst x))
   else Ok "other")
  = Ok (primary_of text).
Proof.
  rewrite any_nonzero. unfold primary_of, all_zero.
  destruct (forallb _ _); reflexivity.
Qed.

Lemma scores_keys (text : string) : keys (scores_of text) = categories.
Proof.
  unfold keys, scores_of, categories, keys. rewrite map_map.
  apply map_ext. now intros [trigger keywords].
Qed.

Lemma primary_of_label (text : string) : In (primary_of text) labels.
Proof.
  unfold primary_of, labels. apply in_or_app.
  destruct (all_zero text); [right; now left | left].
  rewrite <- (scores_keys text). apply in_map.
  change (scores_of text)
    with (hd ("other", 0%Z) (scores_of text) :: tl (scores_of text)) at 3.
  apply max_from_in.
Qed.

Lemma music_step (hash : string -> Z) (text : string) (t : Tier) :
  list_getitem (music_options t)
    (hash text mod Z.of_nat (List.length (music_options t)))
  = Ok (music_of hash text t).
Proof.
  unfold music_of.
  replace (Z.of_nat (List.length (music_options t))) with 3%Z
    by now destruct t.
  apply list_getitem_in_range.
  replace (Z.of_nat (List.length (music_options t))) with 3%Z
    by now destruct t.
  apply Z.mod_pos_bound. lia.
Qed.

(** [mock_analyze_mood] returns, and returns [entry_of], whenever the
    severity argument is absent or names a tier. *)
Lemma mock_analyze_mood_run (hash : string -> Z) (md5_hexdigest : string -> string)
    (user text : string) (choice : option Tier) (now_id now_stamp : string) :
  mock_analyze_mood hash md5_hexdigest user text (supplied choice) now_id now_stamp
  = Ok (entry_of hash md5_hexdigest user text choice now_id now_stamp).
Proof.
  unfold mock_analyze_mood. cbv zeta.
  rewrite scores_loop_counts, severity_step, primary_step.
  pose proof (music_step hash text High) as MH.
  pose proof (music_step hash text Medium) as MM.
  pose proof (music_step hash text Low) as ML.
  cbn [music_options] in MH, MM, ML. rewrite MH, MM, ML. clear MH MM ML.
  cbn [bind]. unfold entry_of.
  pose proof (primary_of_label text) as Hp.
  set (p := primary_of text) in *. clearbody p.
  set (t := tier_of choice text). clearbody t.
  unfold labels, categories, keys in Hp. cbn in Hp.
  destruct t;
    repeat (destruct Hp as [<-|Hp]; [reflexivity|]); destruct Hp.
Qed.

Lemma categories_nodup : NoDup categories.
Proof.
  unfold categories, keys, trigger_keywords. cbn [map fst].
  repeat (constructor; [cbn; intuition discriminate|]). constructor.
Qed.

Lemma other_not_category : ~ In "other" categories.
Proof. cbn. intuition discriminate. Qed.

(** The trigger score of a category is the number of its keywords that
    occur in the text. *)
Lemma scores_lookup (text : string) :
  Forall (fun row =>
            dict_get (fst row) (scores_of text)
            = Some (Z.of_nat (count_occurring (snd row) text)))
         trigger_keywords.
Proof. unfold scores_of, trigger_keywords. repeat constructor. Qed.

Lemma all_zero_iff (text : string) :
  all_zero text = true
  <-> forall c, In c categories -> score_in 0%Z (scores_of text) c = 0%Z.
Proof.
  unfold all_zero. rewrite forallb_forall. split.
  - intros H c Hc. rewrite <- (scores_keys text) in Hc.
    apply in_map_iff in Hc as [it [<- Hit]].
    rewrite (score_in_item 0%Z _ it); [|now rewrite scores_keys; apply categories_nodup|exact Hit].
    apply Z.eqb_eq, H. now apply in_map.
  - intros H v Hv. apply in_map_iff in Hv as [it [<- Hit]].
    apply Z.eqb_eq.
    rewrite <- (score_in_item 0%Z (scores_of text) it);
      [|now rewrite scores_keys; apply categories_nodup|exact Hit].
    apply H. rewrite <- (scores_keys text). now apply in_map.
Qed.

Lemma scores_of_cons (text : string) :
  scores_of text
  = hd ("other", 0%Z) (scores_of text) :: tl (scores_of text).
Proof. reflexivity. Qed.

(** With a score that is not zero the primary trigger is the first category
    of maximal score. *)
Lemma primary_first_max (text : string) :
  all_zero text = false ->
  first_max Z.leb (score_in 0%Z (scores_of text)) categories (primary_of text).
Proof.
  intros Hz. unfold primary_of. rewrite Hz.
  rewrite <- (scores_keys text).
  apply first_max_keys; [rewrite scores_keys; apply categories_nodup|].
  pose proof (scores_of_cons text) as Hc.
  set (x := hd ("other", 0%Z) (scores_of text)) in *.
  set (l := tl (scores_of text)) in *.
  unfold items. rewrite Hc.
  exact (proj2 (max_by_first_max Z.leb Z.gtb snd Zgtb_leb Zleb_total Zleb_trans x l)).
Qed.

Lemma primary_other_iff (text : string) :
  primary_of text = "other" <-> all_zero text = true.
Proof.
  split.
  - intros H. destruct (all_zero text) eqn:Hz; [reflexivity|].
    exfalso. apply other_not_category. rewrite <- H.
    apply (first_max_in _ _ _ _ (primary_first_max text Hz)).
  - intros H. unfold primary_of. now rewrite H.
Qed.

Lemma front_specific_nodup (t : Tier) :
  NoDup (map (fun c => FrontView.specific c t) FrontView.labels).
Proof. apply nodupb_sound. now destruct t. Qed.

Lemma front_blank_scores (text : string) :
  whitespace_only text = true -> FrontView.all_zero text = true.
Proof.
  intros Hw. unfold FrontView.all_zero, FrontView.scores_of, Front.trigger_keywords.
  cbn [map]. now rewrite !(fun ws H => blank_count ws text H Hw) by reflexivity.
Qed.

Lemma front_blank_detect (text : string) :
  whitespace_only text = true -> FrontView.detect text = Low.
Proof.
  intros Hw. unfold FrontView.detect.
  now rewrite !(fun ws H => blank_existsb ws text H Hw) by reflexivity.
Qed.

End FrontFacts.

(* ================================================================== *)
(** ** Facts about [analyze_mood] *)
(* ================================================================== *)

Module FrontendFacts.
Import Py Spec StrFacts PyFacts SpecFacts Frontend FrontendView.

Lemma stress_words_lowered : Forall (fun kw => lower kw = kw) stress_words.
Proof. repeat constructor. Qed.

Lemma scan_lowered (words : list string) (trigger : string) (weight : Q)
    (text : string) (d : dict Q) :
  Forall (fun kw => lower kw = kw) words ->
  scan words trigger weight (lower text) d
  = if existsb (fun kw => occurs_cib kw text) words
    then dict_set trigger weight d
    else d.
Proof.
  intros Hl. unfold scan. now rewrite (existsb_contains_lowered _ _ Hl).
Qed.

Lemma frontend_severity_step (text : string) (choice : option Tier) :
  match supplied choice with
  | Some (String c r) => String c r
  | Some EmptyString | None =>
      if any (map (fun word => contains word (lower text)) stress_words)
      then "high"
      else "medium"
  end = tier_name (tier_of choice text).
Proof.
  destruct choice as [[]|]; try reflexivity. cbn [supplied option_map tier_of].
  rewrite (existsb_contains_lowered _ _ stress_words_lowered).
  unfold detect. now destruct (existsb _ stress_words).
Qed.

(** [analyze_mood] returns, and returns [entry_of], whenever the severity
    argument is absent or names a tier. *)
Lemma analyze_mood_run (entries : list MoodEntry) (user text : string)
    (choice : option Tier) (now : string) :
  analyze_mood entries user text (supplied choice) now
  = Ok (entry_of entries user text choice now).
Proof.
  unfold analyze_mood. cbv zeta.
  rewrite !scan_lowered by (repeat constructor).
  change (if existsb (fun kw => occurs_cib kw text) ["money"; "debt"; "bills"]
          then _ else _) with (scores_of text).
  rewrite frontend_severity_step.
  unfold entry_of, primary_of.
  destruct (scores_of text) as [|[k w] d];
    destruct (tier_of choice text); reflexivity.
Qed.

(** The 128 outcomes of the seven keyword scans. *)
Ltac scan_cases :=
  unfold primary_of, scores_of, category_table; cbn [fold_left];
  repeat match goal with
         | |- context [existsb ?f ?l] => destruct (existsb f l)
         end.

(** A category whose keywords occur scores its weight, and another has no
    key. *)
Lemma frontend_scores_lookup (text : string) :
  Forall (fun row =>
            dict_get (fst (fst row)) (scores_of text)
            = if existsb (fun kw => occurs_cib kw text) (snd (fst row))
              then Some (snd row) else None)
         category_table.
Proof.
  unfold category_table. repeat constructor; cbn [fst snd];
    unfold scores_of, category_table; cbn [fold_left];
    repeat match goal with
           | |- context [existsb ?f ?l] => destruct (existsb f l)
           end; reflexivity.
Qed.

Lemma frontend_primary_okb (text : string) :
  primary_okb (scores_of text) (primary_of text) = true.
Proof. scan_cases; vm_compute; reflexivity. Qed.

Lemma frontend_keys_subsetb (text : string) :
  subsetb (keys (scores_of text)) categories = true.
Proof. scan_cases; vm_compute; reflexivity. Qed.

Lemma frontend_blank_scores (text : string) :
  whitespace_only text = true -> scores_of text = [].
Proof.
  intros Hw. unfold scores_of, category_table. cbn [fold_left].
  now rewrite !(fun ws H => blank_existsb ws text H Hw) by reflexivity.
Qed.

End FrontendFacts.

(* ================================================================== *)
(** ** Facts about the store *)
(* ================================================================== *)

Module StoreFacts.
Import Py Spec StrFacts PyFacts SpecFacts Store.

Lemma entry_eqb_refl (e : Front.MoodEntry) :
  well_formed e -> Front.entry_eqb e e = true.
Proof.
  intros Hwf. unfold Front.entry_eqb.
  rewrite !String.eqb_refl, Bool.eqb_reflx,
    (dict_eqb_refl Z.eqb _ Z.eqb_refl Hwf).
  destruct (Front.private_note e); cbn; [apply String.eqb_refl | reflexivity].
Qed.

Lemma entry_eqb_record_id (x y : Front.MoodEntry) :
  Front.entry_eqb x y = true -> Front.record_id x = Front.record_id y.
Proof.
  unfold Front.entry_eqb. rewrite !andb_true_iff.
  intros H. decompose [and] H. now apply String.eqb_eq.
Qed.

(** What "Clear My Data" leaves of the entries of one user. *)
Lemma clear_my_data_frame (entries : list Front.MoodEntry) (user other : string) :
  filter (fun e => (Front.user_id e =? other)%string)
         (Front.clear_my_data entries user)
  = if (other =? user)%string then []
    else filter (fun e => (Front.user_id e =? other)%string) entries.
Proof.
  unfold Front.clear_my_data.
  induction entries as [|a l IH]; [now destruct (other =? user)%string|].
  cbn [filter].
  destruct (String.eqb_spec (Front.user_id a) user) as [Eu|Eu]; cbn [negb filter];
    destruct (String.eqb_spec (Front.user_id a) other) as [Eo|Eo];
    rewrite IH; destruct (String.eqb_spec other user) as [E|E];
    try reflexivity; congruence.
Qed.

Lemma sample_store_well_formed : Forall well_formed sample_store.
Proof.
  unfold sample_store.
  constructor; [|constructor; [|constructor]];
    unfold well_formed; apply nodupb_sound; reflexivity.
Defined.

End StoreFacts.

(* ================================================================== *)
(** ** The two classifiers on sample texts *)
(* ================================================================== *)

Module SampleRuns.
Import Py Spec Samples.

(** "exam" makes the trigger academic, "stressed" the severity medium. *)
Example front_exam :
  summary_front (front "I am stressed about my exam tomorrow" None)
  = Some ("academic", "medium", "d41d8cd98f00").
Proof. reflexivity. Qed.

(** "hopeless" and "can't take" make the severity high; no category keyword
    occurs. *)
Example front_hopeless :
  summary_front (front "I feel hopeless and can't take this anymore" None)
  = Some ("other", "high", "d41d8cd98f00").
Proof. reflexivity. Qed.

(** Letters of either case match; "political" and "work" score 1 each, and
    the first category of the table wins. *)
Example front_tie :
  summary_front (front "POLITICS at Work" (Some "low"))
  = Some ("political", "low", "d41d8cd98f00").
Proof. reflexivity. Qed.

(** Blank text: no keyword, the trigger "other" and the severity "low". *)
Example front_blank :
  whitespace_only "  	
" = true
  /\ summary_front (front "  	
" None)
     = Some ("other", "low", "d41d8cd98f00").
Proof. split; reflexivity. Qed.

(** A severity outside the three tiers has no row in [trigger_insights]. *)
Example front_unknown_severity :
  front "a quiet day" (Some "severe") = Raise KeyError.
Proof. reflexivity. Qed.

(** "political", "work" and "health" weigh 0.8 each, and the first scan
    wins; "help" makes the severity high. *)
Example frontend_tie :
  summary_frontend (frontend "sick of my job and of politics, help" None)
  = Some ("political", "high", "entry_1").
Proof. reflexivity. Qed.

(** Without a stress word the severity is medium. *)
Example frontend_default :
  summary_frontend (frontend "a quiet day" None)
  = Some ("other", "medium", "entry_1").
Proof. reflexivity. Qed.

(** Blank text: the severity is medium all the same. *)
Example frontend_blank :
  summary_frontend (frontend "  	
" None)
  = Some ("other", "medium", "entry_1").
Proof. reflexivity. Qed.

End SampleRuns.

(* ================================================================== *)
(** ** The claims *)
(* ================================================================== *)

Import Py Spec Store Laws.
Import StrFacts PyFacts SpecFacts FrontFacts FrontendFacts StoreFacts.

(** C1 (amended).  For a text that holds neither the Kelvin sign nor the
    capital I with a dot: without a severity argument, [mock_analyze_mood]
    returns "high" when a keyword of [high_words] occurs in the text as a
    case-insensitive substring, whether or not a keyword of [medium_words]
    occurs; else "medium" when a keyword of [medium_words] occurs; else "low".
    [analyze_mood] of [mindmate_frontend.py] has one keyword list and two
    outcomes: "high" when a keyword of [stress_words] occurs, else "medium". *)
Theorem C1_auto_severity :
  (forall hash md5_hexdigest user now_id now_stamp,
     severity_by_keywords
       (front_classifier hash md5_hexdigest user now_id now_stamp)
       Front.severity Front.high_words Front.medium_words)
  /\ (forall entries user now text,
      plain text = true ->
      exists e,
        frontend_classifier entries user now text None = Ok e
        /\ (any_occurs Frontend.stress_words text ->
            Frontend.severity e = "high")
        /\ (~ any_occurs Frontend.stress_words text ->
            Frontend.severity e = "medium")).
Proof.
  split.
  - intros hash md5_hexdigest user now_id now_stamp text _.
    exists (FrontView.entry_of hash md5_hexdigest user text None now_id now_stamp).
    split; [apply (mock_analyze_mood_run _ _ _ _ None)|].
    cbn [Front.severity FrontView.entry_of FrontView.tier_of].
    unfold FrontView.detect. rewrite <- !existsb_occurs_iff.
    destruct (existsb _ Front.high_words);
      destruct (existsb _ Front.medium_words);
      repeat split; intros; try reflexivity; congruence.
  - intros entries user now text _.
    exists (FrontendView.entry_of entries user text None now).
    split; [apply (analyze_mood_run _ _ _ None)|].
    cbn [Frontend.severity FrontendView.entry_of FrontendView.tier_of].
    unfold FrontendView.detect. rewrite <- !existsb_occurs_iff.
    destruct (existsb _ Frontend.stress_words);
      repeat split; intros; try reflexivity; congruence.
Qed.

(** C1, the claim as stated, fails on [analyze_mood] of
    [mindmate_frontend.py]: on the empty text, in which no keyword occurs, it
    returns "medium" and not "low", whatever lists of non-empty keywords are
    taken for the high and the medium list. *)
Lemma C1_frontend_empty_text_is_medium :
  ~ exists high medium,
      Forall (fun kw => kw <> "") high
      /\ Forall (fun kw => kw <> "") medium
      /\ severity_by_keywords
           (frontend_classifier [] "demo_user" "2024-01-01T00:00:00")
           Frontend.severity high medium.
Proof.
  intros [high [medium [Hh [Hm H]]]].
  destruct (H "" eq_refl) as [e [He [_ [_ Hlow]]]].
  vm_compute in He. injection He as <-.
  assert (Hno : forall words, Forall (fun kw => kw <> "") words ->
                              ~ any_occurs words "").
  { intros words Hw [kw [Hin Hocc]]. rewrite Forall_forall in Hw.
    apply (Hw kw Hin). now apply empty_text_occurs. }
  specialize (Hlow (Hno _ Hh) (Hno _ Hm)). discriminate.
Qed.

(** C1 at a text with letters outside ASCII: "crisis" occurs in it, in
    capitals. *)
Lemma C1_auto_severity_sample :
  plain "Quelle journée — a real CRISIS, je suis stressé" = true
  /\ exists e,
       Samples.front "Quelle journée — a real CRISIS, je suis stressé" None
       = Ok e
       /\ Front.severity e = "high".
Proof.
  assert (H : plain "Quelle journée — a real CRISIS, je suis stressé" = true)
    by reflexivity.
  split; [exact H|].
  destruct (proj1 C1_auto_severity Samples.hash0 Samples.md5_0 "demo_user"
              "2024-01-01T09:00:00.000001" "2024-01-01T09:00:00.000002" _ H)
    as [e [He [Hhigh _]]].
  exists e. split; [exact He|].
  apply Hhigh. exists "crisis". split; [now left|].
  apply occurs_cib_iff. reflexivity.
Defined.

(** C2 (amended).  In [mock_analyze_mood] every category of the keyword
    table has a key in [trigger_scores], and for a text that holds neither
    the Kelvin sign nor the capital I with a dot its score is the number of
    its keywords that occur in the text as case-insensitive substrings.  In
    [analyze_mood] of [mindmate_frontend.py] a category has a key, for such
    a text, only when one of its keywords occurs, and its score is then the
    fixed weight of the category, not a count. *)
Theorem C2_trigger_scores :
  (forall hash md5_hexdigest user now_id now_stamp,
     scores_are_counts
       (front_classifier hash md5_hexdigest user now_id now_stamp)
       (fun e => score_in 0%Z (Front.trigger_scores e))
       (fun v n => v = Z.of_nat n)
       Front.trigger_keywords
     /\ forall text choice,
        exists e,
          front_classifier hash md5_hexdigest user now_id now_stamp
            text (supplied choice) = Ok e
          /\ keys (Front.trigger_scores e) = FrontView.categories)
  /\ (forall entries user now text choice,
      plain text = true ->
      exists e,
        frontend_classifier entries user now text (supplied choice) = Ok e
        /\ Forall (fun row =>
                     dict_get (fst (fst row)) (Frontend.trigger_scores e)
                     = match count_occurring (snd (fst row)) text with
                       | O => None
                       | S _ => Some (snd row)
                       end)
                  FrontendView.category_table).
Proof.
  split.
  - intros hash md5_hexdigest user now_id now_stamp. split.
    + intros text choice _.
      exists (FrontView.entry_of hash md5_hexdigest user text choice now_id now_stamp).
      split; [apply mock_analyze_mood_run|].
      cbn [Front.trigger_scores FrontView.entry_of].
      pose proof (scores_lookup text) as H.
      rewrite Forall_forall in H |- *. intros row Hrow.
      unfold score_in. now rewrite (H row Hrow).
    + intros text choice.
      exists (FrontView.entry_of hash md5_hexdigest user text choice now_id now_stamp).
      split; [apply mock_analyze_mood_run|].
      apply scores_keys.
  - intros entries user now text choice _.
    exists (FrontendView.entry_of entries user text choice now).
    split; [apply analyze_mood_run|].
    cbn [Frontend.trigger_scores FrontendView.entry_of].
    pose proof (frontend_scores_lookup text) as H.
    rewrite Forall_forall in H |- *. intros row Hrow.
    rewrite (H row Hrow), existsb_count. unfold count_occurring.
    now destruct (List.length _).
Qed.

(** C2, the claim as stated, fails on [analyze_mood] of
    [mindmate_frontend.py]: on "I lost my job" one keyword of "work" occurs,
    and the score of "work" is 0.8, not 1. *)
Lemma C2_frontend_score_is_a_weight :
  ~ scores_are_counts
      (frontend_classifier [] "demo_user" "2024-01-01T00:00:00")
      (fun e => score_in 0%Q (Frontend.trigger_scores e))
      (fun v n => v == inject_Z (Z.of_nat n))
      (map fst FrontendView.category_table).
Proof.
  intros H. destruct (H "I lost my job" None eq_refl) as [e [He Hall]].
  vm_compute in He. injection He as <-.
  rewrite Forall_forall in Hall.
  specialize (Hall ("work", ["work"; "job"; "boss"; "career"])).
  assert (Hin : In ("work", ["work"; "job"; "boss"; "career"])
                   (map fst FrontendView.category_table))
    by (cbn; tauto).
  specialize (Hall Hin). vm_compute in Hall. discriminate.
Qed.

(** C2 at a text with letters outside ASCII: "job" and "deadline" occur
    in it, two keywords of "work". *)
Lemma C2_trigger_scores_sample :
  plain "Mon job: the DEADLINE est passée" = true
  /\ exists e,
       Samples.front "Mon job: the DEADLINE est passée" None = Ok e
       /\ score_in 0%Z (Front.trigger_scores e) "work" = 2%Z.
Proof.
  assert (H : plain "Mon job: the DEADLINE est passée" = true) by reflexivity.
  split; [exact H|].
  destruct (proj1 (proj1 C2_trigger_scores Samples.hash0 Samples.md5_0
                     "demo_user" "2024-01-01T09:00:00.000001"
                     "2024-01-01T09:00:00.000002") _ None H)
    as [e [He Hall]].
  exists e. split; [exact He|].
  rewrite Forall_forall in Hall.
  assert (Hin : In ("work", ["job"; "boss"; "deadline"; "work"; "career";
                             "office"; "colleague"])
                   Front.trigger_keywords)
    by (right; now left).
  apply Hall in Hin. cbn [fst snd] in Hin. rewrite Hin. reflexivity.
Defined.

(** C3.  The primary trigger is the category of maximal score, the first one
    in the enumeration order of the category table when several are maximal,
    and it is "other" exactly when every score is zero; in
    [mindmate_frontend.py] the order is that of the keyword scans, and a
    category without a key scores zero. *)
Theorem C3_primary_trigger :
  (forall hash md5_hexdigest user now_id now_stamp,
     primary_by_first_max
       (front_classifier hash md5_hexdigest user now_id now_stamp)
       Front.primary_trigger
       (fun e => score_in 0%Z (Front.trigger_scores e))
       Z.leb (fun v => v = 0%Z) FrontView.categories)
  /\ (forall entries user now,
        primary_by_first_max
          (frontend_classifier entries user now)
          Frontend.primary_trigger
          (fun e => score_in 0%Q (Frontend.trigger_scores e))
          Qle_bool (fun v => v == 0) FrontendView.categories).
Proof.
  split.
  - intros hash md5_hexdigest user now_id now_stamp text choice.
    exists (FrontView.entry_of hash md5_hexdigest user text choice now_id now_stamp).
    split; [apply mock_analyze_mood_run|].
    cbn [Front.primary_trigger Front.trigger_scores FrontView.entry_of].
    split.
    + intros [c [Hc Hnz]]. apply primary_first_max.
      destruct (FrontView.all_zero text) eqn:Hz; [|reflexivity].
      exfalso. apply Hnz. now apply all_zero_iff.
    + rewrite primary_other_iff. apply all_zero_iff.
  - intros entries user now text choice.
    exists (FrontendView.entry_of entries user text choice now).
    split; [apply analyze_mood_run|].
    cbn [Frontend.primary_trigger Frontend.trigger_scores FrontendView.entry_of].
    pose proof (frontend_primary_okb text) as H.
    unfold FrontendView.primary_okb in H.
    destruct (forallb _ FrontendView.categories) eqn:Hz.
    + apply String.eqb_eq in H. rewrite forallb_forall in Hz.
      split.
      * intros [c [Hc Hnz]]. exfalso. apply Hnz.
        now apply Qeq_bool_iff, Hz.
      * split; [|now intros _].
        intros _ c Hc. now apply Qeq_bool_iff, Hz.
    + apply andb_true_iff in H as [Hne Hfm].
      apply negb_true_iff, String.eqb_neq in Hne.
      split; [intros _; now apply first_maxb_sound|].
      split; [contradiction|].
      intros Hall. exfalso.
      assert (Ht : forallb
                     (fun c => Qeq_bool
                                 (score_in 0 (FrontendView.scores_of text) c) 0)
                     FrontendView.categories = true).
      { apply forallb_forall. intros c Hc. now apply Qeq_bool_iff, Hall. }
      rewrite Ht in Hz. discriminate.
Qed.

(** C4.  A supplied severity among low, medium and high is the severity of
    the result, whatever the text says: the keyword scan is skipped. *)
Theorem C4_explicit_severity :
  (forall hash md5_hexdigest user now_id now_stamp,
     explicit_severity_kept
       (front_classifier hash md5_hexdigest user now_id now_stamp)
       Front.severity)
  /\ (forall entries user now,
        explicit_severity_kept (frontend_classifier entries user now)
          Frontend.severity).
Proof.
  split.
  - intros hash md5_hexdigest user now_id now_stamp text t.
    exists (FrontView.entry_of hash md5_hexdigest user text (Some t) now_id now_stamp).
    split; [apply (mock_analyze_mood_run _ _ _ _ (Some t))|reflexivity].
  - intros entries user now text t.
    exists (FrontendView.entry_of entries user text (Some t) now).
    split; [apply (analyze_mood_run _ _ _ (Some t))|reflexivity].
Qed.

(** C5 (amended).  In [mock_analyze_mood] the music track is taken from the
    list of three candidates of the severity tier, at the index
    [hash(mood_text) % 3]: it is a function of the text, through its hash in
    the running interpreter, and of the severity, and of nothing else, the
    trigger included.  In [analyze_mood] of [mindmate_frontend.py] every tier
    has one track, and the text plays no part. *)
Theorem C5_music_track :
  (forall md5_hexdigest user now_id now_stamp,
     music_by_hash
       (fun hash => front_classifier hash md5_hexdigest user now_id now_stamp)
       Front.severity Front.music_track FrontView.music_options)
  /\ (forall entries user now text choice,
      exists e t,
        frontend_classifier entries user now text (supplied choice) = Ok e
        /\ Frontend.severity e = tier_name t
        /\ Frontend.music_track e = FrontendView.music_of t).
Proof.
  split.
  - intros md5_hexdigest user now_id now_stamp. split.
    + intros t. split; [now destruct t|].
      apply nodupb_sound. now destruct t.
    + intros hash text choice.
      exists (FrontView.entry_of hash md5_hexdigest user text choice now_id now_stamp),
             (FrontView.tier_of choice text).
      split; [apply mock_analyze_mood_run|].
      split; [reflexivity|].
      cbn [Front.music_track FrontView.entry_of]. unfold FrontView.music_of.
      replace (Z.of_nat (List.length
                           (FrontView.music_options (FrontView.tier_of choice text))))
        with 3%Z by now destruct (FrontView.tier_of choice text).
      apply nth_error_nth'.
      replace (List.length
                 (FrontView.music_options (FrontView.tier_of choice text)))
        with 3%nat by now destruct (FrontView.tier_of choice text).
      pose proof (Z.mod_pos_bound (hash text) 3). lia.
  - intros entries user now text choice.
    exists (FrontendView.entry_of entries user text choice now),
           (FrontendView.tier_of choice text).
    split; [apply analyze_mood_run|]. split; reflexivity.
Qed.

(** C5, the claim as stated, fails on [analyze_mood] of
    [mindmate_frontend.py]: with a hash that is 0 everywhere and with a hash
    that is 1 everywhere the track for the empty text is the same, so it is
    not the candidate at index [hash(text) % 3] of a list of three
    candidates. *)
Lemma C5_frontend_track_ignores_hash :
  ~ exists candidates,
      music_by_hash
        (fun _ : string -> Z =>
           frontend_classifier [] "demo_user" "2024-01-01T00:00:00")
        Frontend.severity Frontend.music_track candidates.
Proof.
  intros [candidates [Hc H]].
  destruct (H (fun _ => 0%Z) "" None) as [e [t [He [Hs Hn]]]].
  destruct (H (fun _ => 1%Z) "" None) as [e' [t' [He' [Hs' Hn']]]].
  vm_compute in He, He'. injection He as <-. injection He' as <-.
  cbn [Frontend.severity Frontend.music_track] in *.
  assert (t = Medium) by (destruct t; try reflexivity; discriminate).
  assert (t' = Medium) by (destruct t'; try reflexivity; discriminate).
  subst t t'. destruct (Hc Medium) as [Hlen Hnd].
  rewrite Hlen in Hn, Hn'.
  destruct (candidates Medium) as [|a [|b l]]; try discriminate.
  cbn in Hn, Hn'. injection Hn as ->. injection Hn' as ->.
  apply NoDup_cons_iff in Hnd as [Hnd _]. apply Hnd. now left.
Qed.

(** C6 (amended).  In [mock_analyze_mood] the insight is made of three
    parts joined by single spaces: the opening sentence of the severity tier,
    the sentence of [trigger_insights] for the primary trigger and the
    severity, which differs from trigger to trigger, and the closing sentence
    of the tier.  In [analyze_mood] of [mindmate_frontend.py] the insight is
    one fixed string by tier, the same for every trigger. *)
Theorem C6_deep_insight :
  (forall hash md5_hexdigest user now_id now_stamp,
     insight_three_parts
       (front_classifier hash md5_hexdigest user now_id now_stamp)
       Front.severity Front.primary_trigger Front.deep_insight
       FrontView.labels
       FrontView.opening FrontView.specific FrontView.closing)
  /\ (forall entries user now text choice,
      exists e t,
        frontend_classifier entries user now text (supplied choice) = Ok e
        /\ Frontend.severity e = tier_name t
        /\ Frontend.deep_insight e = FrontendView.insight_of t).
Proof.
  split.
  - intros hash md5_hexdigest user now_id now_stamp. split.
    + intros t c c' Hc Hc' Hne E. apply Hne.
      exact (nodup_map_injective (fun c => FrontView.specific c t)
               FrontView.labels c c' (front_specific_nodup t) Hc Hc' E).
    + intros text choice.
      exists (FrontView.entry_of hash md5_hexdigest user text choice now_id now_stamp),
             (FrontView.tier_of choice text).
      split; [apply mock_analyze_mood_run|].
      split; [reflexivity|].
      split; [apply primary_of_label | reflexivity].
  - intros entries user now text choice.
    exists (FrontendView.entry_of entries user text choice now),
           (FrontendView.tier_of choice text).
    split; [apply analyze_mood_run|]. split; reflexivity.
Qed.

(** C6, the claim as stated, fails on [analyze_mood] of
    [mindmate_frontend.py]: at severity high the insight for "I lost my job"
    (trigger "work") is the insight for the empty text (trigger "other"), so
    no part of it is specific to the trigger. *)
Lemma C6_frontend_insight_ignores_trigger :
  ~ exists opening table closing,
      insight_three_parts
        (frontend_classifier [] "demo_user" "2024-01-01T00:00:00")
        Frontend.severity Frontend.primary_trigger Frontend.deep_insight
        FrontendView.labels opening table closing.
Proof.
  intros [opening [table [closing [Hspec H]]]].
  destruct (H "" (Some High)) as [e [t [He [Hs [_ Hi]]]]].
  destruct (H "I lost my job" (Some High)) as [e' [t' [He' [Hs' [_ Hi']]]]].
  vm_compute in He, He'. injection He as <-. injection He' as <-.
  cbn [Frontend.severity Frontend.primary_trigger Frontend.deep_insight] in *.
  apply (tier_name_injective High) in Hs, Hs'. subst t t'.
  rewrite Hi in Hi'. apply append_cancel_l, append_cancel_l in Hi'.
  apply append_cancel_r in Hi'.
  apply (Hspec High "other" "work"); [cbn; tauto | cbn; tauto | discriminate|].
  exact Hi'.
Qed.

(** C7 (amended).  Without a severity argument both classifiers return an
    entry for every text, the empty one and the blank ones included.  On
    empty or blank text [mock_analyze_mood] gives every category the score
    zero, the trigger "other" and the severity "low"; [analyze_mood] of
    [mindmate_frontend.py] gives no score at all, the trigger "other" and the
    severity "medium". *)
Theorem C7_no_error_and_blank_text :
  (forall hash md5_hexdigest user now_id now_stamp,
     blank_text_law
       (front_classifier hash md5_hexdigest user now_id now_stamp)
       Front.severity Front.primary_trigger
       (fun e => score_in 0%Z (Front.trigger_scores e))
       (fun v => v = 0%Z) FrontView.categories)
  /\ (forall entries user now,
        (forall text,
         exists e, frontend_classifier entries user now text None = Ok e)
        /\ forall text,
           whitespace_only text = true ->
           exists e,
             frontend_classifier entries user now text None = Ok e
             /\ Frontend.trigger_scores e = []
             /\ Frontend.primary_trigger e = "other"
             /\ Frontend.severity e = "medium").
Proof.
  split.
  - intros hash md5_hexdigest user now_id now_stamp. split.
    + intros text. eexists. apply (mock_analyze_mood_run _ _ _ _ None).
    + intros text Hw.
      exists (FrontView.entry_of hash md5_hexdigest user text None now_id now_stamp).
      split; [apply (mock_analyze_mood_run _ _ _ _ None)|].
      cbn [Front.severity Front.primary_trigger Front.trigger_scores
           FrontView.entry_of FrontView.tier_of].
      pose proof (front_blank_scores text Hw) as Hz.
      split; [now apply all_zero_iff|].
      split; [now apply primary_other_iff|].
      now rewrite (front_blank_detect text Hw).
  - intros entries user now. split.
    + intros text. eexists. apply (analyze_mood_run _ _ _ None).
    + intros text Hw.
      exists (FrontendView.entry_of entries user text None now).
      split; [apply (analyze_mood_run _ _ _ None)|].
      cbn [Frontend.severity Frontend.primary_trigger Frontend.trigger_scores
           FrontendView.entry_of FrontendView.tier_of].
      unfold FrontendView.primary_of, FrontendView.detect.
      rewrite (frontend_blank_scores text Hw).
      rewrite (blank_existsb Frontend.stress_words text eq_refl Hw).
      repeat split.
Qed.

(** C7, the claim as stated, fails on [analyze_mood] of
    [mindmate_frontend.py]: for the empty text and no severity argument the
    severity of the result is "medium", not "low". *)
Lemma C7_frontend_blank_is_medium :
  ~ blank_text_law
      (frontend_classifier [] "demo_user" "2024-01-01T00:00:00")
      Frontend.severity Frontend.primary_trigger
      (fun e => score_in 0%Q (Frontend.trigger_scores e))
      (fun v => v == 0) FrontendView.categories.
Proof.
  intros [_ H]. destruct (H "" eq_refl) as [e [He [_ [_ Hs]]]].
  vm_compute in He. injection He as <-. discriminate.
Qed.

(** C8.  For a store of well-formed entries: the delete handler takes out
    the first entry equal to the chosen one and keeps the others, in order;
    when the record ids of the store are distinct, that is the store without
    the entries of that record id, and every other entry stays.  "Clear My
    Data" keeps the entries of every other user, in order, and none of the
    user's. *)
Theorem C8_deletion (entries : list Front.MoodEntry) :
  Forall well_formed entries ->
  (forall entry,
     In entry entries ->
     exists before x after,
       entries = before ++ x :: after
       /\ Front.entry_eqb x entry = true
       /\ (forall y, In y before -> Front.entry_eqb y entry = false)
       /\ Front.delete_entry entries entry = Ok (before ++ after))
  /\ (NoDup (map Front.record_id entries) ->
      forall entry,
        In entry entries ->
        Front.delete_entry entries entry
        = Ok (filter (fun e => negb (Front.record_id e =? Front.record_id entry)%string)
                     entries)
        /\ forall e, In e entries -> e <> entry ->
             In e (filter (fun e => negb (Front.record_id e =? Front.record_id entry)%string)
                          entries))
  /\ (forall user,
        (forall e, In e (Front.clear_my_data entries user)
                   <-> In e entries /\ Front.user_id e <> user)
        /\ forall other,
             filter (fun e => (Front.user_id e =? other)%string)
                    (Front.clear_my_data entries user)
             = if (other =? user)%string then []
               else filter (fun e => (Front.user_id e =? other)%string) entries).
Proof.
  intros Hwf. rewrite Forall_forall in Hwf.
  assert (Hsplit : forall entry, In entry entries ->
            exists before x after,
              entries = before ++ x :: after
              /\ Front.entry_eqb x entry = true
              /\ (forall y, In y before -> Front.entry_eqb y entry = false)
              /\ Front.delete_entry entries entry = Ok (before ++ after)).
  { intros entry Hin. apply list_remove_split.
    exists entry. split; [exact Hin | now apply entry_eqb_refl, Hwf]. }
  split; [exact Hsplit|]. split.
  - intros Hnd entry Hin.
    assert (Hid : forall e, In e entries ->
                    Front.record_id e = Front.record_id entry -> e = entry).
    { intros e He E.
      exact (nodup_map_injective Front.record_id entries e entry Hnd He Hin E). }
    split.
    + destruct (Hsplit entry Hin) as [before [x [after [E [Hx [_ Hr]]]]]].
      rewrite Hr. f_equal.
      assert (x = entry).
      { apply Hid; [rewrite E; apply in_elt | now apply entry_eqb_record_id]. }
      subst x. rewrite E in Hnd. rewrite map_app in Hnd. cbn [map] in Hnd.
      apply NoDup_remove_2 in Hnd.
      rewrite E, filter_app. cbn [filter]. rewrite String.eqb_refl. cbn [negb].
      rewrite !filter_none; [reflexivity| |];
        intros y Hy; apply negb_true_iff, String.eqb_neq; intros Ey;
        apply Hnd, in_or_app; [right | left]; rewrite <- Ey; now apply in_map.
    + intros e He Hne. apply filter_In. split; [exact He|].
      apply negb_true_iff, String.eqb_neq. intros E. now apply Hne, Hid.
  - intros user. split.
    + intros e. unfold Front.clear_my_data. rewrite filter_In.
      now rewrite negb_true_iff, String.eqb_neq.
    + intros other. apply clear_my_data_frame.
Qed.

(** C8 at the sample store: deleting Ann's entry leaves Bob's, and clearing
    Bob's data leaves Ann's. *)
Lemma C8_deletion_sample :
  Forall well_formed sample_store
  /\ Front.delete_entry sample_store
       (sample_entry "0123456789ab" "ann" "I am stressed about my exam tomorrow")
     = Ok [sample_entry "ba9876543210" "bob" "a quiet day at the office"]
  /\ forall e, In e (Front.clear_my_data sample_store "bob")
               <-> In e sample_store /\ Front.user_id e <> "bob".
Proof.
  pose proof (C8_deletion sample_store sample_store_well_formed) as [_ [Hdel Hclear]].
  split; [exact sample_store_well_formed|]. split.
  - refine (proj1 (Hdel _ _ _)).
    + apply nodupb_sound. reflexivity.
    + left. reflexivity.
  - exact (proj1 (Hclear "bob")).
Defined.

(** C9.  Every entry that the analysis produces, for any text and a severity
    argument that is absent or names a tier, has a severity among low, medium
    and high, a primary trigger among the categories and "other", and score
    keys among the categories; the seven categories of
    [mindmate_frontend.py] are among the nine of [mindmate_front.py]. *)
Theorem C9_entry_invariants :
  (forall hash md5_hexdigest user now_id now_stamp,
     entry_invariants
       (front_classifier hash md5_hexdigest user now_id now_stamp)
       Front.severity Front.primary_trigger Front.trigger_scores
       FrontView.categories)
  /\ (forall entries user now,
        entry_invariants (frontend_classifier entries user now)
          Frontend.severity Frontend.primary_trigger Frontend.trigger_scores
          FrontendView.categories)
  /\ incl FrontendView.categories FrontView.categories.
Proof.
  split; [|split].
  - intros hash md5_hexdigest user now_id now_stamp text choice.
    exists (FrontView.entry_of hash md5_hexdigest user text choice now_id now_stamp).
    split; [apply mock_analyze_mood_run|].
    cbn [Front.severity Front.primary_trigger Front.trigger_scores FrontView.entry_of].
    split; [destruct (FrontView.tier_of choice text); cbn; tauto|].
    split; [apply primary_of_label|].
    rewrite scores_keys. apply incl_refl.
  - intros entries user now text choice.
    exists (FrontendView.entry_of entries user text choice now).
    split; [apply analyze_mood_run|].
    cbn [Frontend.severity Frontend.primary_trigger Frontend.trigger_scores
         FrontendView.entry_of].
    split; [destruct (FrontendView.tier_of choice text); cbn; tauto|].
    split; [|apply subsetb_incl, frontend_keys_subsetb].
    pose proof (frontend_primary_okb text) as H.
    unfold FrontendView.primary_okb in H. apply in_or_app.
    destruct (forallb _ FrontendView.categories).
    + right. apply String.eqb_eq in H. rewrite H. now left.
    + left. apply andb_true_iff in H as [_ H].
      apply first_maxb_sound in H.
      exact (first_max_in _ _ _ _ H).
  - apply subsetb_incl. reflexivity.
Qed.

(** C10.  Two calls with the same text and the same severity argument, absent
    or a tier, for two users return the same primary trigger, trigger scores,
    severity, advice, music track and insight. *)
Theorem C10_user_independence :
  (forall hash md5_hexdigest now_id now_stamp,
     user_independent
       (fun user => front_classifier hash md5_hexdigest user now_id now_stamp)
       (fun e => (Front.primary_trigger e, Front.trigger_scores e,
                  Front.severity e, Front.advice e, Front.music_track e,
                  Front.deep_insight e)))
  /\ (forall entries now,
        user_independent
          (fun user => frontend_classifier entries user now)
          (fun e => (Frontend.primary_trigger e, Frontend.trigger_scores e,
                     Frontend.severity e, Frontend.advice e,
                     Frontend.music_track e, Frontend.deep_insight e))).
Proof.
  split.
  - intros hash md5_hexdigest now_id now_stamp user user' text choice.
    exists (FrontView.entry_of hash md5_hexdigest user text choice now_id now_stamp),
           (FrontView.entry_of hash md5_hexdigest user' text choice now_id now_stamp).
    split; [apply mock_analyze_mood_run|].
    split; [apply mock_analyze_mood_run|reflexivity].
  - intros entries now user user' text choice.
    exists (FrontendView.entry_of entries user text choice now),
           (FrontendView.entry_of entries user' text choice now).
    split; [apply analyze_mood_run|].
    split; [apply analyze_mood_run|reflexivity].
Qed.

(* ================================================================== *)
(** ** Further properties: the classifiers, the handlers, the session *)
(* ================================================================== *)
(* ================================================================== *)
(** ** Further facts about the two classifiers *)
(* ================================================================== *)

Module ClassifierFacts.
Import Py PyText Spec Spec2 StrFacts PyFacts SpecFacts.

(** Every label has a row of three sentences in [trigger_insights]. *)
Lemma insight_row (p : string) :
  In p FrontView.labels ->
  dict_in p Front.trigger_insights = true
  /\ exists h m l,
       getitem Front.trigger_insights p
       = Ok [("high", h); ("medium", m); ("low", l)].
Proof.
  intros Hp. unfold FrontView.labels, FrontView.categories, keys in Hp.
  cbn in Hp.
  repeat (destruct Hp as [<-|Hp];
          [split; [reflexivity | do 3 eexists; reflexivity]|]).
  destruct Hp.
Qed.

(** [mock_analyze_mood] raises [KeyError] on a severity that is not empty
    and names no tier, whatever the text. *)
Lemma mock_analyze_mood_key_error (hash : string -> Z)
    (md5_hexdigest : string -> string) (user text severity : string)
    (now_id now_stamp : string) :
  severity <> "" -> severity <> "high" -> severity <> "medium" ->
  severity <> "low" ->
  Front.mock_analyze_mood hash md5_hexdigest user text (Some severity)
    now_id now_stamp = Raise KeyError.
Proof.
  intros He Hh Hm Hl.
  apply String.eqb_neq in Hh, Hm, Hl.
  rewrite String.eqb_sym in Hh, Hm, Hl.
  unfold Front.mock_analyze_mood. cbv zeta.
  rewrite FrontFacts.scores_loop_counts, FrontFacts.primary_step.
  destruct severity as [|c r]; [congruence|].
  cbn [bind].
  destruct (insight_row _ (FrontFacts.primary_of_label text))
    as [Hin [h [m [l Hrow]]]].
  rewrite Hin, Hrow. cbn [bind]. unfold getitem. cbn [dict_get].
  rewrite Hh, Hm, Hl. reflexivity.
Qed.

(** [analyze_mood] of [mindmate_frontend.py] returns for every severity
    argument. *)
Lemma analyze_mood_run_any (entries : list Frontend.MoodEntry)
    (user text : string) (severity : option string) (now : string) :
  Frontend.analyze_mood entries user text severity now
  = Ok (frontend_entry entries user text severity now).
Proof.
  unfold Frontend.analyze_mood. cbv zeta.
  rewrite !FrontendFacts.scan_lowered by (repeat constructor).
  change (if existsb (fun kw => occurs_cib kw text) ["money"; "debt"; "bills"]
          then _ else _) with (FrontendView.scores_of text).
  assert (Hs : match severity with
               | Some (String c r) => String c r
               | Some EmptyString | None =>
                   if any (map (fun word => contains word (lower text))
                               Frontend.stress_words)
                   then "high" else "medium"
               end = frontend_severity severity text).
  { unfold frontend_severity.
    destruct severity as [[|c r]|]; try reflexivity;
      apply (FrontendFacts.frontend_severity_step text None). }
  rewrite Hs. unfold frontend_entry, FrontendView.primary_of, content_tier.
  destruct (FrontendView.scores_of text) as [|[k w] d];
    destruct (frontend_severity severity text =? "high");
    destruct (frontend_severity severity text =? "medium"); reflexivity.
Qed.

(** The views of a text depend on the lowered text only. *)
Lemma occurs_cib_lower (kw text text' : string) :
  lower text = lower text' -> occurs_cib kw text = occurs_cib kw text'.
Proof. intros H. unfold occurs_cib. now rewrite H. Qed.

Lemma existsb_same {A : Type} (f g : A -> bool) (l : list A) :
  (forall x, f x = g x) -> existsb f l = existsb g l.
Proof.
  intros H. induction l as [|x l IH]; [reflexivity|].
  cbn [existsb]. now rewrite H, IH.
Qed.

Lemma front_scores_lower (text text' : string) :
  lower text = lower text' ->
  FrontView.scores_of text = FrontView.scores_of text'.
Proof.
  intros H. unfold FrontView.scores_of. apply map_ext.
  intros [trigger keywords]. unfold count_occurring.
  now rewrite (filter_ext _ _ (fun kw => occurs_cib_lower kw _ _ H)).
Qed.

Lemma front_detect_lower (text text' : string) :
  lower text = lower text' -> FrontView.detect text = FrontView.detect text'.
Proof.
  intros H. unfold FrontView.detect.
  now rewrite !(existsb_same _ _ _ (fun kw => occurs_cib_lower kw _ _ H)).
Qed.

Lemma front_primary_lower (text text' : string) :
  lower text = lower text' ->
  FrontView.primary_of text = FrontView.primary_of text'.
Proof.
  intros H. unfold FrontView.primary_of, FrontView.all_zero.
  now rewrite (front_scores_lower _ _ H).
Qed.

Lemma frontend_scores_lower (text text' : string) :
  lower text = lower text' ->
  FrontendView.scores_of text = FrontendView.scores_of text'.
Proof.
  intros H. unfold FrontendView.scores_of, FrontendView.category_table.
  cbn [fold_left].
  now rewrite !(existsb_same _ _ _ (fun kw => occurs_cib_lower kw _ _ H)).
Qed.

Lemma frontend_detect_lower (text text' : string) :
  lower text = lower text' ->
  FrontendView.detect text = FrontendView.detect text'.
Proof.
  intros H. unfold FrontendView.detect.
  now rewrite (existsb_same _ _ _ (fun kw => occurs_cib_lower kw _ _ H)).
Qed.

Lemma string_append_assoc (a b c : string) :
  ((a ++ b) ++ c = a ++ b ++ c)%string.
Proof. induction a as [|x a IH]; cbn; [reflexivity | now rewrite IH]. Qed.

(** A keyword that occurs in a text occurs in every text around it. *)
Lemma occurs_cib_extend (kw pre text post : string) :
  occurs_cib kw text = true ->
  occurs_cib kw (pre ++ text ++ post)%string = true.
Proof.
  rewrite !occurs_cib_iff. intros [a [mid [b [-> H]]]].
  exists (pre ++ a)%string, mid, (b ++ post)%string. split; [|exact H].
  now rewrite !string_append_assoc.
Qed.

Lemma filter_length_le {A : Type} (f g : A -> bool) (l : list A) :
  (forall x, f x = true -> g x = true) ->
  (List.length (filter f l) <= List.length (filter g l))%nat.
Proof.
  intros H. induction l as [|x l IH]; [apply le_n|]. cbn [filter].
  destruct (f x) eqn:F.
  - rewrite (H x F). cbn. lia.
  - destruct (g x); cbn; lia.
Qed.

Lemma existsb_le {A : Type} (f g : A -> bool) (l : list A) :
  (forall x, f x = true -> g x = true) ->
  existsb f l = true -> existsb g l = true.
Proof.
  intros H. rewrite !existsb_exists. intros [x [Hx F]]. exists x. auto.
Qed.

Lemma front_score_lookup (text : string) (row : string * list string) :
  In row Front.trigger_keywords ->
  score_in 0%Z (FrontView.scores_of text) (fst row)
  = Z.of_nat (count_occurring (snd row) text).
Proof.
  intros Hrow. pose proof (FrontFacts.scores_lookup text) as H.
  rewrite Forall_forall in H. unfold score_in. now rewrite (H row Hrow).
Qed.

Lemma front_scores_grow (pre text post : string) :
  Forall (fun c => (score_in 0 (FrontView.scores_of text) c
                    <= score_in 0 (FrontView.scores_of (pre ++ text ++ post)%string) c)%Z)
         FrontView.categories.
Proof.
  apply Forall_forall. intros c Hc.
  unfold FrontView.categories, keys in Hc.
  apply in_map_iff in Hc as [row [<- Hrow]].
  rewrite !(front_score_lookup _ row Hrow). apply inj_le.
  unfold count_occurring. apply filter_length_le.
  intros kw. apply occurs_cib_extend.
Qed.

Lemma front_scores_bounds (text : string) :
  Forall (fun row =>
            (0 <= score_in 0 (FrontView.scores_of text) (fst row)
               <= Z.of_nat (List.length (snd row)))%Z)
         Front.trigger_keywords.
Proof.
  apply Forall_forall. intros row Hrow.
  rewrite (front_score_lookup _ row Hrow). unfold count_occurring.
  pose proof (filter_length_le (fun kw => occurs_cib kw text) (fun _ => true)
                (snd row) (fun _ _ => eq_refl)) as H.
  rewrite (filter_none _ _ (fun _ _ => eq_refl)) in H. lia.
Qed.

Lemma front_detect_grows (pre text post : string) :
  (rank (FrontView.detect text)
   <= rank (FrontView.detect (pre ++ text ++ post)%string))%nat.
Proof.
  unfold FrontView.detect.
  pose proof (existsb_le _ _ Front.high_words
                (fun kw => occurs_cib_extend kw pre text post)) as Hh.
  pose proof (existsb_le _ _ Front.medium_words
                (fun kw => occurs_cib_extend kw pre text post)) as Hm.
  destruct (existsb _ Front.high_words);
    [rewrite (Hh eq_refl); apply le_n|].
  destruct (existsb _ Front.medium_words);
    [rewrite (Hm eq_refl)|];
    destruct (existsb _ Front.high_words);
    try destruct (existsb _ Front.medium_words); cbn; lia.
Qed.

Lemma frontend_detect_grows (pre text post : string) :
  (rank (FrontendView.detect text)
   <= rank (FrontendView.detect (pre ++ text ++ post)%string))%nat.
Proof.
  unfold FrontendView.detect.
  pose proof (existsb_le _ _ Frontend.stress_words
                (fun kw => occurs_cib_extend kw pre text post)) as Hh.
  destruct (existsb _ Frontend.stress_words);
    [rewrite (Hh eq_refl); apply le_n|].
  destruct (existsb _ Frontend.stress_words); cbn; lia.
Qed.

Lemma dict_set_keys {V : Type} (k c : string) (v : V) (d : dict V) :
  In k (keys (dict_set c v d)) <-> k = c \/ In k (keys d).
Proof.
  induction d as [|[k' v'] d IH]; cbn [dict_set keys map fst].
  - cbn. intuition congruence.
  - destruct (String.eqb_spec k' c) as [->|Hne]; cbn [keys map fst].
    + cbn. intuition congruence.
    + unfold keys in IH. cbn [In]. rewrite IH. intuition congruence.
Qed.

(** A category has a key in the scores of [mindmate_frontend.py] exactly
    when one of its keywords occurs. *)
Lemma frontend_fold_keys (text k : string)
    (table : list (string * list string * Q)) (d : dict Q) :
  In k (keys (fold_left
                (fun (d : dict Q) '(trigger, keywords, weight) =>
                   if existsb (fun kw => occurs_cib kw text) keywords
                   then dict_set trigger weight d
                   else d)
                table d))
  <-> In k (keys d)
      \/ exists row, In row table
                     /\ fst (fst row) = k
                     /\ existsb (fun kw => occurs_cib kw text) (snd (fst row)) = true.
Proof.
  revert d; induction table as [|[[c ws] w] table IH]; intros d; cbn [fold_left].
  - split; [now left | intros [H|[row [[] _]]]; exact H].
  - rewrite IH. split.
    + intros [H|[row [Hrow H]]].
      * destruct (existsb _ ws) eqn:E; [|now left].
        apply dict_set_keys in H as [->|H]; [|now left].
        right. exists (c, ws, w). split; [now left | now split].
      * right. exists row. split; [now right | exact H].
    + intros [H|[row [[<-|Hrow] [E1 E2]]]].
      * left. destruct (existsb _ ws); [apply dict_set_keys; now right | exact H].
      * left. cbn [fst snd] in E1, E2. rewrite E2. apply dict_set_keys. now left.
      * right. exists row. now split.
Qed.

Lemma frontend_key_iff (text c : string) :
  In c (keys (FrontendView.scores_of text))
  <-> exists row, In row FrontendView.category_table
                  /\ fst (fst row) = c
                  /\ existsb (fun kw => occurs_cib kw text) (snd (fst row)) = true.
Proof.
  unfold FrontendView.scores_of. rewrite frontend_fold_keys.
  split; [intros [[]|H]; exact H | now right].
Qed.

Lemma frontend_keys_grow (pre text post : string) :
  incl (keys (FrontendView.scores_of text))
       (keys (FrontendView.scores_of (pre ++ text ++ post)%string)).
Proof.
  intros c Hc. apply frontend_key_iff in Hc as [row [Hrow [E Hex]]].
  apply frontend_key_iff. exists row. split; [exact Hrow|]. split; [exact E|].
  exact (existsb_le _ _ _ (fun kw => occurs_cib_extend kw pre text post) Hex).
Qed.

Lemma frontend_primary_first_present (text : string) :
  FrontendView.primary_of text = first_present text.
Proof.
  unfold first_present, frontend_priority. cbn [find].
  replace (frontend_keywords "relationship")
    with ["relationship"; "partner"; "breakup"] by reflexivity.
  replace (frontend_keywords "political")
    with ["election"; "government"; "politics"] by reflexivity.
  replace (frontend_keywords "work")
    with ["work"; "job"; "boss"; "career"] by reflexivity.
  replace (frontend_keywords "health")
    with ["sick"; "pain"; "health"] by reflexivity.
  replace (frontend_keywords "environmental")
    with ["climate"; "environment"; "pollution"] by reflexivity.
  replace (frontend_keywords "financial")
    with ["money"; "debt"; "bills"] by reflexivity.
  replace (frontend_keywords "social")
    with ["people"; "society"; "community"] by reflexivity.
  FrontendFacts.scan_cases; vm_compute; reflexivity.
Qed.

End ClassifierFacts.

(* ================================================================== *)
(** ** Further properties *)
(* ================================================================== *)

Import PyText Spec2 ClassifierFacts.

(** X1.  [mock_analyze_mood] raises [KeyError] for every text when the
    severity argument is a non-empty string other than "high", "medium" and
    "low": [trigger_insights] has no sentence for it. *)
Theorem X1_unknown_severity_raises (hash : string -> Z)
    (md5_hexdigest : string -> string) (user text severity : string)
    (now_id now_stamp : string) :
  severity <> "" -> ~ In severity (map tier_name tiers) ->
  front_classifier hash md5_hexdigest user now_id now_stamp text (Some severity)
  = Raise KeyError.
Proof.
  intros He Hn. cbn in Hn.
  apply mock_analyze_mood_key_error; [exact He| | |];
    intros E; apply Hn; rewrite E; tauto.
Qed.

(** X1 at the capitalised name of a tier. *)
Lemma X1_unknown_severity_sample :
  "High" <> ""
  /\ ~ In "High" (map tier_name tiers)
  /\ front_classifier Samples.hash0 Samples.md5_0 "demo_user"
       "2024-01-01T09:00:00.000001" "2024-01-01T09:00:00.000002"
       "a quiet day at the office" (Some "High")
     = Raise KeyError.
Proof.
  assert (H1 : "High" <> "") by discriminate.
  assert (H2 : ~ In "High" (map tier_name tiers))
    by (cbn; intuition discriminate).
  split; [exact H1|]. split; [exact H2|].
  exact (X1_unknown_severity_raises _ _ _ _ _ _ _ H1 H2).
Defined.

(** X2.  [analyze_mood] of [mindmate_frontend.py] returns an entry for every
    severity argument.  A non-empty severity is the severity of the entry,
    whatever it is, and one that is neither "high" nor "medium" comes with
    the advice, the music and the insight of the low tier. *)
Theorem X2_frontend_any_severity :
  forall entries user text severity now,
  exists e,
    frontend_classifier entries user now text (Some severity) = Ok e
    /\ (severity <> "" -> Frontend.severity e = severity)
    /\ (severity <> "" -> severity <> "high" -> severity <> "medium" ->
        Frontend.advice e = FrontendView.advice_of Low
        /\ Frontend.music_track e = FrontendView.music_of Low
        /\ Frontend.deep_insight e = FrontendView.insight_of Low).
Proof.
  intros entries user text severity now.
  exists (frontend_entry entries user text (Some severity) now).
  split; [apply analyze_mood_run_any|].
  cbn [Frontend.severity Frontend.advice Frontend.music_track
       Frontend.deep_insight frontend_entry].
  destruct severity as [|c r]; [split; congruence|].
  cbn [frontend_severity]. split; [reflexivity|].
  intros _ Hh Hm. unfold content_tier.
  apply String.eqb_neq in Hh, Hm. now rewrite Hh, Hm.
Qed.

(** X3.  The analysis looks at the lowered text only: two texts that differ
    in the case of their letters get the same primary trigger, trigger
    scores, severity, advice and insight from [mock_analyze_mood], and the
    same six fields from [analyze_mood] of [mindmate_frontend.py], whose
    music track does not depend on the text. *)
Theorem X3_case_insensitive (text text' : string) :
  lower text = lower text' ->
  (forall hash md5_hexdigest user now_id now_stamp choice,
   exists e e',
     front_classifier hash md5_hexdigest user now_id now_stamp
       text (supplied choice) = Ok e
     /\ front_classifier hash md5_hexdigest user now_id now_stamp
          text' (supplied choice) = Ok e'
     /\ Front.primary_trigger e = Front.primary_trigger e'
     /\ Front.trigger_scores e = Front.trigger_scores e'
     /\ Front.severity e = Front.severity e'
     /\ Front.advice e = Front.advice e'
     /\ Front.deep_insight e = Front.deep_insight e')
  /\ (forall entries user now severity,
      exists e e',
        frontend_classifier entries user now text severity = Ok e
        /\ frontend_classifier entries user now text' severity = Ok e'
        /\ (Frontend.primary_trigger e, Frontend.trigger_scores e,
            Frontend.severity e, Frontend.advice e, Frontend.music_track e,
            Frontend.deep_insight e)
           = (Frontend.primary_trigger e', Frontend.trigger_scores e',
              Frontend.severity e', Frontend.advice e',
              Frontend.music_track e', Frontend.deep_insight e')).
Proof.
  intros H. split.
  - intros hash md5_hexdigest user now_id now_stamp choice.
    exists (FrontView.entry_of hash md5_hexdigest user text choice now_id now_stamp),
           (FrontView.entry_of hash md5_hexdigest user text' choice now_id now_stamp).
    split; [apply FrontFacts.mock_analyze_mood_run|].
    split; [apply FrontFacts.mock_analyze_mood_run|].
    cbn [Front.primary_trigger Front.trigger_scores Front.severity Front.advice
         Front.deep_insight FrontView.entry_of].
    assert (Ht : FrontView.tier_of choice text = FrontView.tier_of choice text')
      by (destruct choice; [reflexivity | apply (front_detect_lower _ _ H)]).
    rewrite (front_primary_lower _ _ H), (front_scores_lower _ _ H), Ht.
    repeat split.
  - intros entries user now severity.
    exists (frontend_entry entries user text severity now),
           (frontend_entry entries user text' severity now).
    split; [apply analyze_mood_run_any|].
    split; [apply analyze_mood_run_any|].
    cbn [Frontend.primary_trigger Frontend.trigger_scores Frontend.severity
         Frontend.advice Frontend.music_track Frontend.deep_insight
         frontend_entry].
    assert (Hs : frontend_severity severity text = frontend_severity severity text').
    { unfold frontend_severity.
      now rewrite (frontend_detect_lower _ _ H). }
    unfold FrontendView.primary_of.
    now rewrite (frontend_scores_lower _ _ H), Hs.
Qed.

(** X3 at a text in capitals. *)
Lemma X3_case_insensitive_sample :
  lower "I AM STRESSED ABOUT MY EXAM" = lower "i am stressed about my exam"
  /\ exists e e',
       Samples.front "I AM STRESSED ABOUT MY EXAM" None = Ok e
       /\ Samples.front "i am stressed about my exam" None = Ok e'
       /\ Front.primary_trigger e = Front.primary_trigger e'
       /\ Front.trigger_scores e = Front.trigger_scores e'
       /\ Front.severity e = Front.severity e'
       /\ Front.advice e = Front.advice e'
       /\ Front.deep_insight e = Front.deep_insight e'.
Proof.
  split; [reflexivity|].
  exact (proj1 (X3_case_insensitive "I AM STRESSED ABOUT MY EXAM"
                  "i am stressed about my exam" eq_refl)
           Samples.hash0 Samples.md5_0 "demo_user"
           "2024-01-01T09:00:00.000001" "2024-01-01T09:00:00.000002" None).
Defined.

(** X4.  More text never lowers a result: when a text is extended at
    either end no trigger score of [mock_analyze_mood] goes down and its
    severity does not get milder; in [mindmate_frontend.py] no score key is
    lost and the severity does not get milder. *)
Theorem X4_more_text_never_lowers (pre text post : string) :
  (forall hash md5_hexdigest user now_id now_stamp,
   exists e e' t t',
     front_classifier hash md5_hexdigest user now_id now_stamp text None = Ok e
     /\ front_classifier hash md5_hexdigest user now_id now_stamp
          (pre ++ text ++ post)%string None = Ok e'
     /\ Forall (fun c => (score_in 0 (Front.trigger_scores e) c
                          <= score_in 0 (Front.trigger_scores e') c)%Z)
               FrontView.categories
     /\ Front.severity e = tier_name t
     /\ Front.severity e' = tier_name t'
     /\ (rank t <= rank t')%nat)
  /\ (forall entries user now,
      exists e e' t t',
        frontend_classifier entries user now text None = Ok e
        /\ frontend_classifier entries user now
             (pre ++ text ++ post)%string None = Ok e'
        /\ incl (keys (Frontend.trigger_scores e))
                (keys (Frontend.trigger_scores e'))
        /\ Frontend.severity e = tier_name t
        /\ Frontend.severity e' = tier_name t'
        /\ (rank t <= rank t')%nat).
Proof.
  split.
  - intros hash md5_hexdigest user now_id now_stamp.
    exists (FrontView.entry_of hash md5_hexdigest user text None now_id now_stamp),
           (FrontView.entry_of hash md5_hexdigest user (pre ++ text ++ post)%string
              None now_id now_stamp),
           (FrontView.detect text),
           (FrontView.detect (pre ++ text ++ post)%string).
    split; [apply (FrontFacts.mock_analyze_mood_run _ _ _ _ None)|].
    split; [apply (FrontFacts.mock_analyze_mood_run _ _ _ _ None)|].
    split; [apply front_scores_grow|].
    split; [reflexivity|]. split; [reflexivity|]. apply front_detect_grows.
  - intros entries user now.
    exists (FrontendView.entry_of entries user text None now),
           (FrontendView.entry_of entries user (pre ++ text ++ post)%string None now),
           (FrontendView.detect text),
           (FrontendView.detect (pre ++ text ++ post)%string).
    split; [apply (FrontendFacts.analyze_mood_run _ _ _ None)|].
    split; [apply (FrontendFacts.analyze_mood_run _ _ _ None)|].
    split; [apply frontend_keys_grow|].
    split; [reflexivity|]. split; [reflexivity|]. apply frontend_detect_grows.
Qed.

(** X5.  In [mock_analyze_mood] the score of a category lies between 0 and
    the number of its keywords.  A primary trigger other than "other" has a
    score of at least 1 that no category exceeds, and a category whose score
    exceeds all the others is the primary trigger. *)
Theorem X5_scores_and_primary_trigger :
  forall hash md5_hexdigest user now_id now_stamp text choice,
  exists e,
    front_classifier hash md5_hexdigest user now_id now_stamp
      text (supplied choice) = Ok e
    /\ Forall (fun row =>
                 (0 <= score_in 0 (Front.trigger_scores e) (fst row)
                    <= Z.of_nat (List.length (snd row)))%Z)
              Front.trigger_keywords
    /\ (Front.primary_trigger e <> "other" ->
        (1 <= score_in 0 (Front.trigger_scores e) (Front.primary_trigger e))%Z
        /\ forall c, In c FrontView.categories ->
             (score_in 0 (Front.trigger_scores e) c
              <= score_in 0 (Front.trigger_scores e) (Front.primary_trigger e))%Z)
    /\ (forall c, In c FrontView.categories ->
          (forall c', In c' FrontView.categories -> c' <> c ->
             (score_in 0 (Front.trigger_scores e) c'
              < score_in 0 (Front.trigger_scores e) c)%Z) ->
          Front.primary_trigger e = c).
Proof.
  intros hash md5_hexdigest user now_id now_stamp text choice.
  exists (FrontView.entry_of hash md5_hexdigest user text choice now_id now_stamp).
  split; [apply FrontFacts.mock_analyze_mood_run|].
  cbn [Front.primary_trigger Front.trigger_scores FrontView.entry_of].
  pose proof (front_scores_bounds text) as Hb.
  assert (Hnn : forall c, In c FrontView.categories ->
                  (0 <= score_in 0 (FrontView.scores_of text) c)%Z).
  { intros c Hc. rewrite Forall_forall in Hb.
    unfold FrontView.categories, keys in Hc.
    apply in_map_iff in Hc as [row [<- Hrow]]. apply (Hb row Hrow). }
  assert (Hmax : FrontView.all_zero text = false ->
            forall c, In c FrontView.categories ->
              (score_in 0 (FrontView.scores_of text) c
               <= score_in 0 (FrontView.scores_of text) (FrontView.primary_of text))%Z).
  { intros Hz c Hc. apply Z.leb_le.
    exact (first_max_bounds Z.leb _ Zleb_total _ _ _
             (FrontFacts.primary_first_max text Hz) Hc). }
  split; [exact Hb|]. split.
  - intros Hne.
    destruct (FrontView.all_zero text) eqn:Hz;
      [exfalso; apply Hne; now apply FrontFacts.primary_other_iff|].
    split; [|exact (Hmax eq_refl)].
    destruct (Z.le_gt_cases 1 (score_in 0%Z (FrontView.scores_of text)
                                  (FrontView.primary_of text))) as [H|H];
      [exact H|].
    exfalso.
    assert (Hall : FrontView.all_zero text = true).
    { apply FrontFacts.all_zero_iff. intros c Hc.
      pose proof (Hmax eq_refl c Hc). pose proof (Hnn c Hc). lia. }
    congruence.
  - intros c Hc Hgt.
    destruct (String.eqb_spec (FrontView.primary_of text) c) as [E|Hne];
      [exact E|].
    exfalso.
    destruct (FrontView.all_zero text) eqn:Hz.
    + pose proof (proj1 (FrontFacts.all_zero_iff text) Hz) as Hall.
      assert (Hp : In "political" FrontView.categories) by (cbn; tauto).
      assert (Hw : In "work" FrontView.categories) by (cbn; tauto).
      destruct (String.eqb_spec c "political") as [->|Hcp].
      * pose proof (Hgt "work" Hw ltac:(discriminate)).
        rewrite (Hall _ Hw), (Hall _ Hp) in *. lia.
      * pose proof (Hgt "political" Hp ltac:(congruence)).
        rewrite (Hall _ Hp), (Hall _ Hc) in *. lia.
    + pose proof (first_max_in _ _ _ _ (FrontFacts.primary_first_max text Hz))
        as Hin.
      pose proof (Hgt _ Hin Hne). pose proof (Hmax eq_refl c Hc). lia.
Qed.

(** X6.  In [mindmate_frontend.py] the primary trigger does not count
    keywords: for a text that holds neither the Kelvin sign nor the
    capital I with a dot, it is the first category, in the order
    relationship, political, work, health, environmental, financial,
    social, that has a keyword in the text, and "other" when none has. *)
Theorem X6_frontend_priority (text : string) :
  plain text = true ->
  forall entries user now severity,
  exists e,
    frontend_classifier entries user now text severity = Ok e
    /\ Frontend.primary_trigger e = first_present text.
Proof.
  intros _ entries user now severity.
  exists (frontend_entry entries user text severity now).
  split; [apply analyze_mood_run_any|].
  cbn [Frontend.primary_trigger frontend_entry].
  apply frontend_primary_first_present.
Qed.

(** X6 at a text with letters outside ASCII: "boss" is a keyword of work
    and "partner" of relationship, which comes first. *)
Lemma X6_frontend_priority_sample :
  plain "Mon BOSS est fâché, my partner aussi" = true
  /\ exists e,
       Samples.frontend "Mon BOSS est fâché, my partner aussi" None = Ok e
       /\ Frontend.primary_trigger e = "relationship".
Proof.
  assert (H : plain "Mon BOSS est fâché, my partner aussi" = true)
    by reflexivity.
  split; [exact H|].
  destruct (X6_frontend_priority _ H [] "demo_user" "2024-01-01T09:00:00" None)
    as [e [He Hp]].
  exists e. split; [exact He|]. rewrite Hp. reflexivity.
Defined.

(* ================================================================== *)
(** ** Facts about the handlers of [mindmate_front.py] *)
(* ================================================================== *)

Module FrontAppFacts.
Import Py PyText Spec Spec2 Store StrFacts PyFacts SpecFacts StoreFacts.
Import ClassifierFacts FrontApp.

(** The escaped text never starts with a quote. *)
Lemma escape_head (s r : string) :
  replace_char double_quote (String backslash (String double_quote "")) s
  <> String double_quote r.
Proof.
  destruct s as [|c s]; cbn [replace_char]; [discriminate|].
  destruct (Ascii.eqb_spec c double_quote) as [->|Hne]; cbn [append];
    intros H; injection H as H _.
  - vm_compute in H. discriminate.
  - contradiction.
Qed.

(** [s.replace('"', '\\"')] tells any two strings apart. *)
Lemma escape_injective (s s' : string) :
  replace_char double_quote (String backslash (String double_quote "")) s
  = replace_char double_quote (String backslash (String double_quote "")) s' ->
  s = s'.
Proof.
  revert s'; induction s as [|c s IH]; intros [|c' s']; cbn [replace_char].
  - reflexivity.
  - destruct (Ascii.eqb c' double_quote); discriminate.
  - destruct (Ascii.eqb c double_quote); discriminate.
  - destruct (Ascii.eqb_spec c double_quote) as [->|Hc],
             (Ascii.eqb_spec c' double_quote) as [->|Hc']; cbn; intros H.
    + injection H as H. f_equal. now apply IH.
    + injection H as <- H. symmetry in H. now apply escape_head in H.
    + injection H as -> H. now apply escape_head in H.
    + injection H as -> H. f_equal. now apply IH.
Qed.

(** What [analyze_mood] does when the remote service gives no entry. *)
Lemma analyze_mood_falls_back (hash : string -> Z)
    (md5_hexdigest : string -> string) (r : remote) (user text : string)
    (severity : option string) (now_id now_stamp : string) :
  falls_back r ->
  snd (fst (analyze_mood hash md5_hexdigest r user text severity now_id now_stamp))
  = match Front.mock_analyze_mood hash md5_hexdigest user text severity
            now_id now_stamp with
    | Ok e => Some e
    | Raise _ => None
    end
  /\ snd (analyze_mood hash md5_hexdigest r user text severity now_id now_stamp)
     = match Front.mock_analyze_mood hash md5_hexdigest user text severity
             now_id now_stamp with
       | Ok _ => []
       | Raise _ => [ErrorAnalyzing]
       end.
Proof.
  intros Hr. unfold analyze_mood. cbv zeta.
  destruct r as [|status_code json|]; cbn in Hr; [| |destruct Hr].
  - destruct (Front.mock_analyze_mood _ _ _ _ _ _ _); split; reflexivity.
  - apply Z.eqb_neq in Hr. rewrite Hr.
    destruct (Front.mock_analyze_mood _ _ _ _ _ _ _); split; reflexivity.
Qed.

(** The severity that the "New Entry" form passes is absent or a tier. *)
Lemma severity_option_choice (severity : string) :
  In severity severity_options ->
  exists choice,
    (if severity =? "Auto-detect" then None else Some (lower severity))
    = supplied choice
    /\ (severity <> "Auto-detect" -> choice <> None).
Proof.
  intros H. cbn in H.
  destruct H as [<-|[<-|[<-|[<-|[]]]]].
  - exists None. split; [reflexivity | congruence].
  - exists (Some Low). split; [reflexivity | discriminate].
  - exists (Some Medium). split; [reflexivity | discriminate].
  - exists (Some High). split; [reflexivity | discriminate].
Qed.

(** The request that [analyze_mood] posts. *)
Lemma analyze_mood_payload (hash : string -> Z)
    (md5_hexdigest : string -> string) (r : remote) (user text : string)
    (severity : option string) (now_id now_stamp : string) :
  fst (fst (analyze_mood hash md5_hexdigest r user text severity now_id now_stamp))
  = {| payload_user_id :=
         replace_char double_quote (String backslash (String double_quote ""))
           user;
       payload_mood := text;
       payload_severity := severity |}.
Proof.
  unfold analyze_mood. cbv zeta.
  destruct r as [|status_code json|];
    try destruct (status_code =? 200)%Z;
    try destruct (Front.mock_analyze_mood _ _ _ _ _ _ _); reflexivity.
Qed.

(** The fields that an entry of [mock_analyze_mood] has for any severity
    argument with which the function returns. *)
Lemma mock_analyze_mood_fields (hash : string -> Z)
    (md5_hexdigest : string -> string) (user text : string)
    (severity : option string) (now_id now_stamp : string) (e : Front.MoodEntry) :
  Front.mock_analyze_mood hash md5_hexdigest user text severity now_id now_stamp
  = Ok e ->
  Front.success e = true
  /\ Front.user_id e = user
  /\ Front.mood e = text
  /\ Front.record_id e = take 12 (md5_hexdigest (user ++ now_id)%string)
  /\ Front.trigger_scores e = FrontView.scores_of text
  /\ Front.private_note e = None.
Proof.
  unfold Front.mock_analyze_mood. cbv zeta.
  rewrite FrontFacts.scores_loop_counts, FrontFacts.primary_step.
  cbn [bind].
  match goal with |- bind ?m _ = _ -> _ => destruct m as [parts|] end;
    cbn [bind]; [|discriminate].
  match goal with |- bind ?m _ = _ -> _ => destruct m as [advice_music|] end;
    cbn [bind]; [|discriminate].
  intros H. injection H as <-. repeat split.
Qed.

Lemma scores_well_formed (text : string) :
  NoDup (keys (FrontView.scores_of text)).
Proof. rewrite FrontFacts.scores_keys. apply FrontFacts.categories_nodup. Qed.

Lemma len_lt_10 (text : string) :
  (10 <= len text)%nat -> (len text <? 10)%nat = false.
Proof. intros H. apply Nat.ltb_ge. exact H. Qed.

(** [set_private_note] touches the note only. *)
Lemma set_private_note_fields (e : Front.MoodEntry) (note : string) :
  Front.user_id (set_private_note e note) = Front.user_id e
  /\ Front.record_id (set_private_note e note) = Front.record_id e
  /\ Front.trigger_scores (set_private_note e note) = Front.trigger_scores e.
Proof. repeat split. Qed.

(** What the "Analyze Mood" button can do to the entries and the file: it
    leaves them, or it adds one entry at the end and saves; without an
    answer of status 200 the entry is one of [mock_analyze_mood] for the
    user who is logged in. *)
Lemma new_entry_cases (hash : string -> Z) (md5_hexdigest : string -> string)
    (r : remote) (w : write) (entries : list Front.MoodEntry) (d : disk)
    (user text severity : string) (add_note : bool) (note : string)
    (now_id now_stamp : string) :
  let o := new_entry hash md5_hexdigest r w entries d user text severity
             add_note note now_id now_stamp in
  (entries_after o = entries /\ disk_after o = d)
  \/ exists e,
       entries_after o = entries ++ [e]
       /\ disk_after o = snd (fst (save_data w (entries ++ [e])))
       /\ (no_answer r ->
           Front.user_id e = user
           /\ Front.record_id e = take 12 (md5_hexdigest (user ++ now_id)%string)
           /\ well_formed e).
Proof.
  cbv zeta. unfold new_entry.
  destruct (blank text); [left; split; reflexivity|].
  destruct (len text <? 10)%nat; [left; split; reflexivity|].
  set (sev := if severity =? "Auto-detect" then None else Some (lower severity)).
  unfold analyze_mood. cbv zeta.
  assert (Hmock :
    forall p : payload,
      let o :=
        (let '(request, result, errors) :=
           match Front.mock_analyze_mood hash md5_hexdigest user text sev
                   now_id now_stamp with
           | Ok e => (p, Some e, [])
           | Raise _ => (p, None, [ErrorAnalyzing])
           end in
         match result with
         | Some result =>
             if Front.success result
             then
               let result :=
                 if add_note then set_private_note result note else result in
               let entries := entries ++ [result] in
               let '(_, d, save_errors) := save_data w entries in
               mkOutcome entries d [request]
                 (errors ++ save_errors ++ [AnalysisComplete])
             else mkOutcome entries d [request] (errors ++ [AnalysisFailed])
         | None => mkOutcome entries d [request] (errors ++ [AnalysisFailed])
         end) in
      (entries_after o = entries /\ disk_after o = d)
      \/ exists e,
           entries_after o = entries ++ [e]
           /\ disk_after o = snd (fst (save_data w (entries ++ [e])))
           /\ Front.user_id e = user
           /\ Front.record_id e = take 12 (md5_hexdigest (user ++ now_id)%string)
           /\ well_formed e).
  { intros p. cbv zeta.
    destruct (Front.mock_analyze_mood hash md5_hexdigest user text sev
                now_id now_stamp) as [e|] eqn:E; [|left; split; reflexivity].
    destruct (mock_analyze_mood_fields _ _ _ _ _ _ _ _ E)
      as [Hs [Hu [_ [Hid [Hsc _]]]]].
    rewrite Hs. right.
    exists (if add_note then set_private_note e note else e).
    destruct (save_data w _) as [[ok d'] save_errors] eqn:Es.
    cbn [entries_after disk_after fst snd].
    split; [reflexivity|]. split; [reflexivity|].
    unfold well_formed.
    destruct add_note; cbn [set_private_note Front.user_id Front.record_id
                            Front.trigger_scores];
      repeat split; try assumption; rewrite Hsc; apply scores_well_formed. }
  destruct r as [|status_code json|].
  - destruct (Hmock {| payload_user_id :=
                         replace_char double_quote
                           (String backslash (String double_quote "")) user;
                       payload_mood := text; payload_severity := sev |})
      as [H|[e [H1 [H2 H3]]]]; [now left|].
    right. exists e. split; [exact H1|]. split; [exact H2|]. now intros _.
  - destruct (status_code =? 200)%Z eqn:Est.
    + destruct (Front.success json); [|left; split; reflexivity].
      right. exists (if add_note then set_private_note json note else json).
      destruct (save_data w _) as [[ok d'] save_errors] eqn:Es.
      cbn [entries_after disk_after fst snd].
      split; [reflexivity|]. split; [reflexivity|].
      intros Hna. cbn in Hna. apply Z.eqb_eq in Est. contradiction.
    + destruct (Hmock {| payload_user_id :=
                           replace_char double_quote
                             (String backslash (String double_quote "")) user;
                         payload_mood := text; payload_severity := sev |})
        as [H|[e [H1 [H2 H3]]]]; [now left|].
      right. exists e. split; [exact H1|]. split; [exact H2|]. now intros _.
  - left. split; reflexivity.
Qed.

(** [l.remove(x)], when it returns, has taken out one item equal to [x]. *)
Lemma list_remove_ok {A : Type} (eqb : A -> A -> bool) (x : A) (l l' : list A) :
  list_remove eqb x l = Ok l' ->
  exists before y after,
    l = before ++ y :: after /\ eqb y x = true /\ l' = before ++ after.
Proof.
  revert l'; induction l as [|a l IH]; intros l'; cbn [list_remove];
    [discriminate|].
  destruct (eqb a x) eqn:Ea.
  - intros H. injection H as <-. now exists [], a, l.
  - destruct (list_remove eqb x l) as [r|]; [|discriminate].
    intros H. injection H as <-.
    destruct (IH r eq_refl) as [before [y [after [-> [Hy ->]]]]].
    now exists (a :: before), y, after.
Qed.

(** The item just appended is the one that [l.remove] takes when no earlier
    item is equal to it. *)
Lemma list_remove_last {A : Type} (eqb : A -> A -> bool) (x : A) (l : list A) :
  (forall y, In y l -> eqb y x = false) -> eqb x x = true ->
  list_remove eqb x (l ++ [x]) = Ok l.
Proof.
  intros Hl Hx. induction l as [|a l IH]; cbn [app list_remove].
  - now rewrite Hx.
  - rewrite (Hl a (or_introl eq_refl)), IH; [reflexivity|].
    intros y Hy. apply Hl. now right.
Qed.

Lemma entry_eqb_user_id (x y : Front.MoodEntry) :
  Front.entry_eqb x y = true -> Front.user_id x = Front.user_id y.
Proof.
  unfold Front.entry_eqb. rewrite !andb_true_iff.
  intros H. decompose [and] H. now apply String.eqb_eq.
Qed.

Lemma entry_eqb_other_id (x y : Front.MoodEntry) :
  Front.record_id x <> Front.record_id y -> Front.entry_eqb x y = false.
Proof.
  intros H. destruct (Front.entry_eqb x y) eqn:E; [|reflexivity].
  now apply entry_eqb_record_id in E.
Qed.

Lemma user_entries_app (l1 l2 : list Front.MoodEntry) (user : string) :
  user_entries (l1 ++ l2) user = user_entries l1 user ++ user_entries l2 user.
Proof. apply filter_app. Qed.

Lemma user_entries_in (entries : list Front.MoodEntry) (user : string)
    (e : Front.MoodEntry) :
  In e (user_entries entries user) <-> In e entries /\ Front.user_id e = user.
Proof.
  unfold user_entries. rewrite filter_In. now rewrite String.eqb_eq.
Qed.

Lemma filtered_entries_in (entries : list Front.MoodEntry)
    (user term : string) (e : Front.MoodEntry) :
  In e (filtered_entries entries user term) -> In e (user_entries entries user).
Proof.
  unfold filtered_entries. destruct term; [auto|].
  intros H. now apply filter_In in H.
Qed.

(** With a text that passes the two checks, a severity of the select box and
    a fall back to [mock_analyze_mood], the "Analyze Mood" button stores. *)
Lemma new_entry_accepts (hash : string -> Z) (md5_hexdigest : string -> string)
    (r : remote) (w : write) (entries : list Front.MoodEntry) (d : disk)
    (user text severity : string) (add_note : bool) (note : string)
    (now_id now_stamp : string) :
  blank text = false -> (10 <= len text)%nat ->
  In severity severity_options -> falls_back r ->
  exists e,
    entries_after (new_entry hash md5_hexdigest r w entries d user text severity
                     add_note note now_id now_stamp) = entries ++ [e]
    /\ disk_after (new_entry hash md5_hexdigest r w entries d user text severity
                     add_note note now_id now_stamp)
       = snd (fst (save_data w (entries ++ [e])))
    /\ Front.user_id e = user
    /\ Front.record_id e = take 12 (md5_hexdigest (user ++ now_id)%string)
    /\ well_formed e.
Proof.
  intros Hb Hl Hs Hr.
  destruct (severity_option_choice severity Hs) as [choice [Hc Hsome]].
  pose (e0 := FrontView.entry_of hash md5_hexdigest user text choice now_id now_stamp).
  exists (if add_note then set_private_note e0 note else e0).
  unfold new_entry. rewrite Hb, (len_lt_10 text Hl), Hc.
  destruct (analyze_mood_falls_back hash md5_hexdigest r user text
              (supplied choice) now_id now_stamp Hr) as [H1 H2].
  rewrite FrontFacts.mock_analyze_mood_run in H1, H2.
  destruct (analyze_mood _ _ _ _ _ _ _ _) as [[request result] errors].
  cbn [fst snd] in H1, H2. subst result errors.
  fold e0. cbn zeta.
  replace (Front.success e0) with true by reflexivity.
  destruct (save_data w _) as [[ok d'] save_errors] eqn:Es.
  cbn [entries_after disk_after fst snd].
  split; [reflexivity|]. split; [reflexivity|].
  unfold well_formed.
  destruct add_note; cbn [set_private_note Front.user_id Front.record_id
                          Front.trigger_scores];
    repeat split; apply scores_well_formed.
Qed.

End FrontAppFacts.

Import FrontAppFacts.

(** X7.  When the remote service cannot be reached or answers another
    status than 200, [analyze_mood] of [mindmate_front.py] returns the entry
    of [mock_analyze_mood] and shows nothing for a severity that is absent or
    a tier; for a non-empty severity that names no tier it catches the
    [KeyError], returns [None] and shows the analysis error. *)
Theorem X7_fallback (r : FrontApp.remote) :
  falls_back r ->
  forall hash md5_hexdigest user text now_id now_stamp,
    (forall choice,
     exists e,
       front_classifier hash md5_hexdigest user now_id now_stamp
         text (supplied choice) = Ok e
       /\ snd (fst (FrontApp.analyze_mood hash md5_hexdigest r user text
                      (supplied choice) now_id now_stamp)) = Some e
       /\ snd (FrontApp.analyze_mood hash md5_hexdigest r user text
                 (supplied choice) now_id now_stamp) = [])
    /\ (forall severity,
        severity <> "" -> ~ In severity (map tier_name tiers) ->
        snd (fst (FrontApp.analyze_mood hash md5_hexdigest r user text
                    (Some severity) now_id now_stamp)) = None
        /\ snd (FrontApp.analyze_mood hash md5_hexdigest r user text
                  (Some severity) now_id now_stamp)
           = [FrontApp.ErrorAnalyzing]).
Proof.
  intros Hr hash md5_hexdigest user text now_id now_stamp. split.
  - intros choice.
    destruct (analyze_mood_falls_back hash md5_hexdigest r user text
                (supplied choice) now_id now_stamp Hr) as [H1 H2].
    rewrite FrontFacts.mock_analyze_mood_run in H1, H2.
    eexists. split; [apply FrontFacts.mock_analyze_mood_run|].
    split; assumption.
  - intros severity He Hn.
    destruct (analyze_mood_falls_back hash md5_hexdigest r user text
                (Some severity) now_id now_stamp Hr) as [H1 H2].
    assert (Hk : Front.mock_analyze_mood hash md5_hexdigest user text
                   (Some severity) now_id now_stamp = Raise KeyError).
    { cbn in Hn. apply mock_analyze_mood_key_error; [exact He| | |];
        intros E; apply Hn; rewrite E; tauto. }
    rewrite Hk in H1, H2. split; assumption.
Qed.

(** X7 at an answer of status 503. *)
Lemma X7_fallback_sample :
  falls_back (FrontApp.Response 503 (sample_entry "000000000000" "remote" ""))
  /\ exists e,
       Samples.front "a quiet day at the office" None = Ok e
       /\ snd (fst (FrontApp.analyze_mood Samples.hash0 Samples.md5_0
                      (FrontApp.Response 503
                         (sample_entry "000000000000" "remote" ""))
                      "demo_user" "a quiet day at the office" None
                      "2024-01-01T09:00:00.000001"
                      "2024-01-01T09:00:00.000002")) = Some e.
Proof.
  assert (H : falls_back (FrontApp.Response 503
                            (sample_entry "000000000000" "remote" "")))
    by (cbn; lia).
  split; [exact H|].
  destruct (proj1 (X7_fallback _ H Samples.hash0 Samples.md5_0 "demo_user"
                     "a quiet day at the office" "2024-01-01T09:00:00.000001"
                     "2024-01-01T09:00:00.000002") None) as [e [He [Hr _]]].
  exists e. split; [exact He | exact Hr].
Defined.

(** X8.  The request that [analyze_mood] of [mindmate_front.py] posts
    carries the mood text and the severity as they are, quotes and line
    breaks included; only the user id is escaped, and two users never get
    the same escaped id. *)
Theorem X8_request_payload :
  forall hash md5_hexdigest r user text severity now_id now_stamp,
    FrontApp.payload_mood
      (fst (fst (FrontApp.analyze_mood hash md5_hexdigest r user text severity
                   now_id now_stamp))) = text
    /\ FrontApp.payload_severity
         (fst (fst (FrontApp.analyze_mood hash md5_hexdigest r user text severity
                      now_id now_stamp))) = severity
    /\ forall r' user' text' severity' now_id' now_stamp',
         FrontApp.payload_user_id
           (fst (fst (FrontApp.analyze_mood hash md5_hexdigest r user text
                        severity now_id now_stamp)))
         = FrontApp.payload_user_id
             (fst (fst (FrontApp.analyze_mood hash md5_hexdigest r' user' text'
                          severity' now_id' now_stamp'))) ->
         user = user'.
Proof.
  intros hash md5_hexdigest r user text severity now_id now_stamp.
  rewrite analyze_mood_payload. split; [reflexivity|]. split; [reflexivity|].
  intros r' user' text' severity' now_id' now_stamp'.
  rewrite analyze_mood_payload. cbn [FrontApp.payload_user_id].
  apply escape_injective.
Qed.

(** X9.  The "Analyze Mood" button of [mindmate_front.py] does nothing with
    a text that is blank or shorter than 10 characters: the entries and the
    file stay as they are, nothing is posted, and the one message shown asks
    for a description (blank text) or for more detail. *)
Theorem X9_new_entry_rejects (text : string) :
  blank text = true \/ (len text < 10)%nat ->
  forall hash md5_hexdigest r w entries d user severity add_note note
         now_id now_stamp,
    FrontApp.new_entry hash md5_hexdigest r w entries d user text severity
      add_note note now_id now_stamp
    = FrontApp.mkOutcome entries d []
        [if blank text then FrontApp.PleaseDescribe else FrontApp.MoreDetail].
Proof.
  intros H hash md5_hexdigest r w entries d user severity add_note note
         now_id now_stamp.
  unfold FrontApp.new_entry.
  destruct (blank text); [reflexivity|].
  destruct H as [H|H]; [discriminate|].
  apply Nat.ltb_lt in H. now rewrite H.
Qed.

(** X9 at a text of nine characters, two of them of two bytes. *)
Lemma X9_new_entry_rejects_sample :
  (blank "très fâch" = true \/ (len "très fâch" < 10)%nat)
  /\ FrontApp.new_entry Samples.hash0 Samples.md5_0 FrontApp.RequestError
       FrontApp.Written sample_store FrontApp.NoFile "ann" "très fâch"
       "Auto-detect" false "" "2024-01-02T09:00:00" "2024-01-02T09:00:00"
     = FrontApp.mkOutcome sample_store FrontApp.NoFile [] [FrontApp.MoreDetail].
Proof.
  assert (H : blank "très fâch" = true \/ (len "très fâch" < 10)%nat)
    by (right; vm_compute; repeat constructor).
  split; [right; vm_compute; repeat constructor|].
  exact (X9_new_entry_rejects "très fâch" H Samples.hash0 Samples.md5_0
           FrontApp.RequestError FrontApp.Written sample_store FrontApp.NoFile
           "ann" "Auto-detect" false "" "2024-01-02T09:00:00"
           "2024-01-02T09:00:00").
Defined.

(** X10.  With a text that is not blank and has 10 characters or more, a
    severity of the select box, and a remote service that cannot be reached
    or answers another status than 200, the "Analyze Mood" button always
    stores: one entry is added at the end, for the user who is logged in
    and with the text as typed, its severity is a tier (the chosen one
    unless "Auto-detect"), the note is kept when the box is ticked, one
    request is posted, "analysis failed" is not shown, and the file holds
    the new entries when the write succeeds. *)
Theorem X10_new_entry_stores (text severity : string) (r : FrontApp.remote) :
  blank text = false -> (10 <= len text)%nat ->
  In severity severity_options -> falls_back r ->
  forall hash md5_hexdigest w entries d user add_note note now_id now_stamp,
  exists e,
    let o := FrontApp.new_entry hash md5_hexdigest r w entries d user text
               severity add_note note now_id now_stamp in
    FrontApp.entries_after o = entries ++ [e]
    /\ Front.user_id e = user
    /\ Front.mood e = text
    /\ In (Front.severity e) (map tier_name tiers)
    /\ (severity <> "Auto-detect" -> Front.severity e = lower severity)
    /\ Front.private_note e = (if add_note then Some note else None)
    /\ (exists request,
          FrontApp.posted o = [request]
          /\ FrontApp.payload_mood request = text)
    /\ In FrontApp.AnalysisComplete (FrontApp.shown o)
    /\ ~ In FrontApp.AnalysisFailed (FrontApp.shown o)
    /\ FrontApp.disk_after o
       = match w with
         | FrontApp.Written => FrontApp.File (entries ++ [e])
         | FrontApp.WriteFailed remains => remains
         end.
Proof.
  intros Hb Hl Hs Hr hash md5_hexdigest w entries d user add_note note
         now_id now_stamp.
  destruct (severity_option_choice severity Hs) as [choice [Hc Hsome]].
  pose (e0 := FrontView.entry_of hash md5_hexdigest user text choice now_id now_stamp).
  exists (if add_note then FrontApp.set_private_note e0 note else e0).
  unfold FrontApp.new_entry. rewrite Hb, (len_lt_10 text Hl), Hc.
  destruct (analyze_mood_falls_back hash md5_hexdigest r user text
              (supplied choice) now_id now_stamp Hr) as [H1 H2].
  pose proof (analyze_mood_payload hash md5_hexdigest r user text
                (supplied choice) now_id now_stamp) as H3.
  rewrite FrontFacts.mock_analyze_mood_run in H1, H2.
  destruct (FrontApp.analyze_mood _ _ _ _ _ _ _ _) as [[request result] errors].
  cbn [fst snd] in H1, H2, H3. subst result errors request.
  fold e0. cbn zeta.
  assert (Hsev : Front.severity e0 = tier_name (FrontView.tier_of choice text))
    by reflexivity.
  replace (Front.success e0) with true by reflexivity.
  destruct w as [|remains]; cbn [FrontApp.save_data FrontApp.entries_after
    FrontApp.disk_after FrontApp.posted FrontApp.shown app];
    (split; [reflexivity|]);
    (split; [now destruct add_note|]);
    (split; [now destruct add_note|]);
    (split; [destruct add_note; cbn [Front.severity FrontApp.set_private_note];
             rewrite Hsev; destruct (FrontView.tier_of choice text); cbn; tauto|]);
    (split; [intros Hna; destruct choice as [t|]; [|now destruct (Hsome Hna)];
             destruct add_note; cbn [Front.severity FrontApp.set_private_note];
             rewrite Hsev; cbn [FrontView.tier_of];
             cbn in Hs; destruct Hs as [<-|[<-|[<-|[<-|[]]]]];
             try (now destruct (Hna eq_refl));
             cbn in Hc; destruct t; try discriminate; reflexivity|]);
    (split; [now destruct add_note|]);
    (split; [eexists; split; reflexivity|]);
    (split; [cbn; tauto|]);
    (split; [cbn; intuition discriminate | reflexivity]).
Qed.

Lemma X10_new_entry_stores_sample :
  blank "I am stressed about my exam tomorrow" = false
  /\ (10 <= len "I am stressed about my exam tomorrow")%nat
  /\ In "High" severity_options
  /\ falls_back FrontApp.RequestError
  /\ exists e,
       FrontApp.entries_after
         (FrontApp.new_entry Samples.hash0 Samples.md5_0 FrontApp.RequestError
            FrontApp.Written sample_store FrontApp.NoFile "ann"
            "I am stressed about my exam tomorrow" "High" true "before the exam"
            "20240102090000" "2024-01-02T09:00:00")
       = sample_store ++ [e]
       /\ Front.severity e = "high"
       /\ Front.private_note e = Some "before the exam".
Proof.
  assert (H1 : blank "I am stressed about my exam tomorrow" = false)
    by reflexivity.
  assert (H2 : (10 <= len "I am stressed about my exam tomorrow")%nat)
    by (vm_compute; lia).
  assert (H3 : In "High" severity_options) by (cbn; tauto).
  assert (H4 : falls_back FrontApp.RequestError) by exact I.
  repeat (split; [assumption|]).
  destruct (X10_new_entry_stores _ _ _ H1 H2 H3 H4 Samples.hash0 Samples.md5_0
              FrontApp.Written sample_store FrontApp.NoFile "ann" true
              "before the exam" "20240102090000" "2024-01-02T09:00:00")
    as [e H].
  cbv zeta in H. destruct H as (Ha & _ & _ & _ & Hsev & Hnote & _).
  exists e. split; [exact Ha|]. split; [|exact Hnote].
  apply Hsev. discriminate.
Defined.

(* ================================================================== *)
(** ** Facts about the session of [mindmate_front.py] *)
(* ================================================================== *)

Module SessionFacts.
Import Py PyText Spec Spec2 Store StrFacts PyFacts SpecFacts StoreFacts.
Import ClassifierFacts FrontApp FrontAppFacts.

(** The entries of [v] after an item of another user is taken out. *)
Lemma user_entries_remove (entries entries' : list Front.MoodEntry)
    (entry : Front.MoodEntry) (v : string) :
  Front.delete_entry entries entry = Ok entries' ->
  Front.user_id entry <> v ->
  user_entries entries' v = user_entries entries v.
Proof.
  intros Hd Hv. apply list_remove_ok in Hd.
  destruct Hd as [before [y [after [-> [Hy ->]]]]].
  rewrite !user_entries_app. f_equal.
  unfold user_entries at 2. cbn [filter].
  apply entry_eqb_user_id in Hy.
  destruct (Front.user_id y =? v)%string eqn:E; [|reflexivity].
  apply String.eqb_eq in E. congruence.
Qed.

(** The entries of [v] after another user clears their data. *)
Lemma user_entries_clear (entries : list Front.MoodEntry) (u v : string) :
  u <> v ->
  user_entries (Front.clear_my_data entries u) v = user_entries entries v.
Proof.
  intros Huv. unfold user_entries. rewrite clear_my_data_frame.
  destruct (v =? u)%string eqn:E; [|reflexivity].
  apply String.eqb_eq in E. congruence.
Qed.

(** A row of the history is an entry of the user. *)
Lemma history_row_user (entries : list Front.MoodEntry) (user term : string)
    (row : nat) (entry : Front.MoodEntry) :
  nth_error (rev (filtered_entries entries user term)) row = Some entry ->
  In entry entries /\ Front.user_id entry = user.
Proof.
  intros H. apply nth_error_In in H. apply in_rev in H.
  apply filtered_entries_in in H. now apply user_entries_in in H.
Qed.

(** One interaction in which [v] is not the user and the remote service
    does not answer 200 keeps the entries of [v]. *)
Lemma step_keeps_others (hash : string -> Z) (md5_hexdigest : string -> string)
    (s : session) (ev : event) (v : string) :
  logged_in s <> Some v -> local_event ev ->
  user_entries (entries (step hash md5_hexdigest s ev)) v
  = user_entries (entries s) v.
Proof.
  intros Hcur Hloc. unfold step.
  destruct ev as [username| |r w text severity add_note note now_id now_stamp
                  |w term row|w].
  - now destruct (logged_in s).
  - now destruct (logged_in s).
  - destruct (logged_in s) as [u|] eqn:Eu; [|reflexivity].
    cbn [entries].
    destruct (new_entry_cases hash md5_hexdigest r w (entries s) (file s) u
                text severity add_note note now_id now_stamp)
      as [[H _]|[e [H [_ Hf]]]]; rewrite H; [reflexivity|].
    destruct (Hf Hloc) as [Hu _].
    rewrite user_entries_app. unfold user_entries at 2. cbn [filter].
    destruct (Front.user_id e =? v)%string eqn:E.
    + apply String.eqb_eq in E. congruence.
    + apply app_nil_r.
  - destruct (logged_in s) as [u|] eqn:Eu; [|reflexivity].
    destruct (nth_error _ row) as [entry|] eqn:En; [|reflexivity].
    unfold delete.
    destruct (Front.delete_entry (entries s) entry) as [entries'|] eqn:Ed;
      cbn [bind]; [|reflexivity].
    destruct (save_data w entries') as [[ok d'] save_errors].
    cbn [entries entries_after].
    apply (user_entries_remove _ _ entry); [exact Ed|].
    apply history_row_user in En. destruct En as [_ ->]. congruence.
  - destruct (logged_in s) as [u|] eqn:Eu; [|reflexivity].
    unfold clear. destruct (save_data w _) as [[ok d'] save_errors].
    cbn [entries entries_after].
    apply user_entries_clear. congruence.
Qed.

(** Who is logged in after one interaction. *)
Lemma step_logged_in (hash : string -> Z) (md5_hexdigest : string -> string)
    (s : session) (ev : event) (v : string) :
  logged_in s <> Some v -> other_user v ev ->
  logged_in (step hash md5_hexdigest s ev) <> Some v.
Proof.
  intros Hcur Hother.
  assert (Hsame : forall es d,
            logged_in (mkSession es (current_user s) d) <> Some v)
    by (intros es d; exact Hcur).
  unfold step.
  destruct ev as [username| |r w text severity add_note note now_id now_stamp
                  |w term row|w].
  - cbn in Hother.
    assert (Hin : logged_in (mkSession (entries s)
                               (login (current_user s) username) (file s))
                  <> Some v).
    { unfold login. destruct (blank username); cbn [negb]; [apply Hsame|].
      unfold logged_in. cbn [current_user].
      destruct (strip username); [discriminate|].
      intros H. injection H as H. contradiction. }
    now destruct (logged_in s).
  - destruct (logged_in s) eqn:E; [discriminate | now rewrite E].
  - destruct (logged_in s) eqn:E; [apply Hsame | now rewrite E].
  - destruct (logged_in s) eqn:E; [|now rewrite E].
    destruct (nth_error _ row); [|now rewrite E].
    destruct (delete _ _ _ _); [apply Hsame | now rewrite E].
  - destruct (logged_in s) eqn:E; [apply Hsame | now rewrite E].
Qed.

Lemma step_saved (hash : string -> Z) (md5_hexdigest : string -> string)
    (s : session) (ev : event) :
  saved s -> writes_well ev -> saved (step hash md5_hexdigest s ev).
Proof.
  unfold saved. intros Hs Hw. unfold step.
  destruct ev as [username| |r w text severity add_note note now_id now_stamp
                  |w term row|w].
  - now destruct (logged_in s).
  - now destruct (logged_in s).
  - destruct (logged_in s) as [u|]; [|exact Hs].
    cbn [entries file]. cbn in Hw. subst w.
    destruct (new_entry_cases hash md5_hexdigest r Written (entries s) (file s) u
                text severity add_note note now_id now_stamp)
      as [[H1 H2]|[e [H1 [H2 _]]]]; rewrite H1, H2; [exact Hs | reflexivity].
  - destruct (logged_in s) as [u|]; [|exact Hs].
    destruct (nth_error _ row) as [entry|]; [|exact Hs].
    unfold delete.
    destruct (Front.delete_entry (entries s) entry) as [entries'|];
      cbn [bind]; [|exact Hs].
    cbn in Hw. subst w. reflexivity.
  - destruct (logged_in s) as [u|]; [|exact Hs].
    cbn in Hw. subst w. reflexivity.
Qed.

End SessionFacts.

Import SessionFacts.

(** X11.  Storing and deleting undo each other.  After an accepted "Analyze
    Mood" (text that passes the checks, a severity of the select box, fall
    back to the local analysis), the new entry is the first row of the
    user's history; when no earlier entry has its record id, pressing that
    row's "Delete Entry" gives back the entries as they were, and the file
    holds them when the write succeeds. *)
Theorem X11_store_then_delete (hash : string -> Z)
    (md5_hexdigest : string -> string) (s : FrontApp.session)
    (user text severity now_id : string) (r : FrontApp.remote) :
  FrontApp.logged_in s = Some user ->
  blank text = false -> (10 <= len text)%nat ->
  In severity severity_options -> falls_back r ->
  (forall y, In y (FrontApp.entries s) ->
             Front.record_id y <> take 12 (md5_hexdigest (user ++ now_id)%string)) ->
  forall w add_note note now_stamp w',
    let s1 := FrontApp.step hash md5_hexdigest s
                (FrontApp.NewEntry r w text severity add_note note now_id now_stamp) in
    let s2 := FrontApp.step hash md5_hexdigest s1 (FrontApp.DeleteRow w' "" 0) in
    (exists e,
       FrontApp.entries s1 = FrontApp.entries s ++ [e]
       /\ nth_error (rev (FrontApp.filtered_entries (FrontApp.entries s1) user "")) 0
          = Some e)
    /\ FrontApp.entries s2 = FrontApp.entries s
    /\ FrontApp.logged_in s2 = Some user
    /\ (w' = FrontApp.Written -> FrontApp.file s2 = FrontApp.File (FrontApp.entries s)).
Proof.
  intros Hcur Hb Hl Hs Hr Hfresh w add_note note now_stamp w'.
  cbv zeta.
  destruct (new_entry_accepts hash md5_hexdigest r w (FrontApp.entries s)
              (FrontApp.file s) user text severity add_note note now_id
              now_stamp Hb Hl Hs Hr) as [e [He [Hd [Hu [Hid Hwf]]]]].
  assert (Hs1 : FrontApp.step hash md5_hexdigest s
                  (FrontApp.NewEntry r w text severity add_note note now_id now_stamp)
                = FrontApp.mkSession (FrontApp.entries s ++ [e])
                    (FrontApp.current_user s)
                    (snd (fst (FrontApp.save_data w (FrontApp.entries s ++ [e]))))).
  { unfold FrontApp.step. rewrite Hcur, He, Hd. reflexivity. }
  assert (Hcur1 : FrontApp.logged_in
                    (FrontApp.mkSession (FrontApp.entries s ++ [e])
                       (FrontApp.current_user s)
                       (snd (fst (FrontApp.save_data w (FrontApp.entries s ++ [e])))))
                  = Some user) by exact Hcur.
  rewrite Hs1. clear Hs1 He Hd.
  assert (Hrow : nth_error
                   (rev (FrontApp.filtered_entries (FrontApp.entries s ++ [e]) user ""))
                   0 = Some e).
  { unfold FrontApp.filtered_entries. rewrite user_entries_app.
    unfold FrontApp.user_entries at 2. cbn [filter].
    rewrite Hu, String.eqb_refl, rev_app_distr. reflexivity. }
  assert (Hdel : Front.delete_entry (FrontApp.entries s ++ [e]) e
                 = Ok (FrontApp.entries s)).
  { apply list_remove_last; [|now apply entry_eqb_refl].
    intros y Hy. apply entry_eqb_other_id. rewrite Hid. now apply Hfresh. }
  split.
  - exists e. cbn [FrontApp.entries]. split; [reflexivity | exact Hrow].
  - unfold FrontApp.step. rewrite Hcur1.
    cbn [FrontApp.entries FrontApp.current_user FrontApp.file].
    rewrite Hrow. unfold FrontApp.delete. rewrite Hdel. cbn [bind].
    destruct w' as [|remains]; cbn [FrontApp.save_data FrontApp.entries
      FrontApp.file FrontApp.entries_after FrontApp.disk_after];
      (split; [reflexivity|]); (split; [exact Hcur|]);
      [reflexivity | discriminate].
Qed.

Lemma X11_store_then_delete_sample :
  let s := FrontApp.mkSession sample_store (Some "ann") (FrontApp.File sample_store) in
  let s2 :=
    FrontApp.step Samples.hash0 Samples.md5_0
      (FrontApp.step Samples.hash0 Samples.md5_0 s
         (FrontApp.NewEntry FrontApp.RequestError FrontApp.Written
            "a walk in the park with friends" "Auto-detect" false ""
            "20240102090000" "2024-01-02T09:00:00"))
      (FrontApp.DeleteRow FrontApp.Written "" 0) in
  FrontApp.entries s2 = sample_store
  /\ FrontApp.file s2 = FrontApp.File sample_store.
Proof.
  cbv zeta.
  assert (H1 : blank "a walk in the park with friends" = false) by reflexivity.
  assert (H2 : (10 <= len "a walk in the park with friends")%nat)
    by (vm_compute; lia).
  assert (H3 : In "Auto-detect" severity_options) by (cbn; tauto).
  assert (H4 : falls_back FrontApp.RequestError) by exact I.
  assert (H5 : forall y, In y sample_store ->
                 Front.record_id y
                 <> take 12 (Samples.md5_0 ("ann" ++ "20240102090000")%string)).
  { intros y [<-|[<-|[]]]; vm_compute; discriminate. }
  destruct (X11_store_then_delete Samples.hash0 Samples.md5_0
              (FrontApp.mkSession sample_store (Some "ann")
                 (FrontApp.File sample_store))
              "ann" "a walk in the park with friends" "Auto-detect"
              "20240102090000" FrontApp.RequestError eq_refl H1 H2 H3 H4 H5
              FrontApp.Written false "" "2024-01-02T09:00:00" FrontApp.Written)
    as (_ & Ha & _ & Hb).
  split; [exact Ha | exact (Hb eq_refl)].
Defined.

(** X12.  What one user does never touches another user's entries.  Over
    any run of interactions in which nobody logs in as [v] and the remote
    service never answers 200, the entries of [v] in the session are, in
    order, what they were: new entries belong to the user who is logged in,
    a deleted row and cleared data are that user's own. *)
Theorem X12_other_users_entries_kept (hash : string -> Z)
    (md5_hexdigest : string -> string) (v : string)
    (evs : list FrontApp.event) :
  Forall local_event evs -> Forall (other_user v) evs ->
  forall s,
    FrontApp.logged_in s <> Some v ->
    FrontApp.user_entries (FrontApp.entries (FrontApp.run hash md5_hexdigest s evs)) v
    = FrontApp.user_entries (FrontApp.entries s) v
    /\ FrontApp.logged_in (FrontApp.run hash md5_hexdigest s evs) <> Some v.
Proof.
  unfold FrontApp.run.
  induction evs as [|ev evs IH]; intros Hloc Hother s Hcur; cbn [fold_left].
  - now split.
  - inversion Hloc as [|? ? Hl Hls]; subst.
    inversion Hother as [|? ? Ho Hos]; subst.
    destruct (IH Hls Hos (FrontApp.step hash md5_hexdigest s ev)
                (step_logged_in hash md5_hexdigest s ev v Hcur Ho))
      as [H1 H2].
    split; [|exact H2].
    rewrite H1. now apply step_keeps_others.
Qed.

Lemma X12_other_users_entries_kept_sample :
  let evs :=
    [ FrontApp.Login " ann ";
      FrontApp.NewEntry FrontApp.RequestError FrontApp.Written
        "a walk in the park with friends" "Low" false ""
        "20240102090000" "2024-01-02T09:00:00";
      FrontApp.DeleteRow FrontApp.Written "" 1;
      FrontApp.ClearMyData FrontApp.Written;
      FrontApp.Logout ] in
  Forall local_event evs /\ Forall (other_user "bob") evs
  /\ FrontApp.user_entries
       (FrontApp.entries
          (FrontApp.run Samples.hash0 Samples.md5_0
             (FrontApp.start (FrontApp.File sample_store)) evs)) "bob"
     = [sample_entry "ba9876543210" "bob" "a quiet day at the office"].
Proof.
  cbv zeta.
  assert (H1 : Forall local_event
                 [ FrontApp.Login " ann ";
                   FrontApp.NewEntry FrontApp.RequestError FrontApp.Written
                     "a walk in the park with friends" "Low" false ""
                     "20240102090000" "2024-01-02T09:00:00";
                   FrontApp.DeleteRow FrontApp.Written "" 1;
                   FrontApp.ClearMyData FrontApp.Written;
                   FrontApp.Logout ])
    by (repeat constructor).
  assert (H2 : Forall (other_user "bob")
                 [ FrontApp.Login " ann ";
                   FrontApp.NewEntry FrontApp.RequestError FrontApp.Written
                     "a walk in the park with friends" "Low" false ""
                     "20240102090000" "2024-01-02T09:00:00";
                   FrontApp.DeleteRow FrontApp.Written "" 1;
                   FrontApp.ClearMyData FrontApp.Written;
                   FrontApp.Logout ])
    by (repeat constructor; cbn; discriminate).
  split; [exact H1|]. split; [exact H2|].
  destruct (X12_other_users_entries_kept Samples.hash0 Samples.md5_0 "bob" _
              H1 H2 (FrontApp.start (FrontApp.File sample_store)))
    as [H _]; [discriminate|].
  rewrite H. reflexivity.
Defined.

(** X13.  The file follows the session.  From the start of a session and
    as long as every write succeeds, the file holds exactly the entries of
    the session after every interaction, whatever the remote service
    answers: a session started from that file begins with the same
    entries. *)
Theorem X13_file_follows_session (hash : string -> Z)
    (md5_hexdigest : string -> string) (d : FrontApp.disk)
    (evs : list FrontApp.event) :
  Forall writes_well evs ->
  let s := FrontApp.run hash md5_hexdigest (FrontApp.start d) evs in
  fst (FrontApp.load_data (FrontApp.file s)) = FrontApp.entries s
  /\ FrontApp.entries (FrontApp.start (FrontApp.file s)) = FrontApp.entries s.
Proof.
  intros Hw. cbv zeta.
  assert (H : saved (FrontApp.run hash md5_hexdigest (FrontApp.start d) evs)).
  { unfold FrontApp.run.
    assert (H0 : saved (FrontApp.start d)) by reflexivity.
    revert H0. generalize (FrontApp.start d).
    induction Hw as [|ev evs Hev Hevs IH]; intros s Hs; cbn [fold_left];
      [exact Hs|].
    apply IH. now apply step_saved. }
  split; exact H.
Qed.

Lemma X13_file_follows_session_sample :
  let evs :=
    [ FrontApp.Login "ann";
      FrontApp.NewEntry FrontApp.RequestError FrontApp.Written
        "a walk in the park with friends" "Low" false ""
        "20240102090000" "2024-01-02T09:00:00";
      FrontApp.DeleteRow FrontApp.Written "exam" 0 ] in
  Forall writes_well evs
  /\ fst (FrontApp.load_data
            (FrontApp.file
               (FrontApp.run Samples.hash0 Samples.md5_0
                  (FrontApp.start (FrontApp.File sample_store)) evs)))
     = FrontApp.entries
         (FrontApp.run Samples.hash0 Samples.md5_0
            (FrontApp.start (FrontApp.File sample_store)) evs).
Proof.
  cbv zeta.
  assert (H1 : Forall writes_well
                 [ FrontApp.Login "ann";
                   FrontApp.NewEntry FrontApp.RequestError FrontApp.Written
                     "a walk in the park with friends" "Low" false ""
                     "20240102090000" "2024-01-02T09:00:00";
                   FrontApp.DeleteRow FrontApp.Written "exam" 0 ])
    by (repeat constructor).
  split; [exact H1|].
  exact (proj1 (X13_file_follows_session Samples.hash0 Samples.md5_0
                  (FrontApp.File sample_store) _ H1)).
Defined.

(* ================================================================== *)
(** ** Facts about the history and the dashboard *)
(* ================================================================== *)

Module HistoryFacts.
Import Py PyText Spec Spec2 Store StrFacts PyFacts SpecFacts StoreFacts.
Import ClassifierFacts FrontApp FrontAppFacts.

(** A substring of a substring is a substring, the case of letters apart. *)
Lemma occurs_ci_trans (a b c : string) :
  occurs_ci a b -> occurs_ci b c -> occurs_ci a c.
Proof.
  intros Hab Hbc. apply occurs_cib_iff. unfold occurs_cib.
  apply occurs_cib_iff in Hab. apply occurs_cib_iff in Hbc.
  unfold occurs_cib in Hab, Hbc.
  apply contains_iff_split in Hab as [p [q Hb]].
  apply contains_iff_split in Hbc as [p' [q' Hc]].
  apply contains_iff_split.
  exists (p' ++ p)%string, (q ++ q')%string.
  rewrite Hc, Hb. now rewrite !string_append_assoc.
Qed.

Lemma occurs_ci_empty (text : string) : occurs_ci "" text.
Proof. now exists ""%string, ""%string, text. Qed.

Lemma sublist_filter {A : Type} (f : A -> bool) (l : list A) :
  sublist (filter f l) l.
Proof.
  induction l as [|a l IH]; cbn [filter]; [constructor|].
  destruct (f a); now constructor.
Qed.

Lemma sublist_filter2 {A : Type} (f g : A -> bool) (l : list A) :
  sublist (filter g (filter f l)) l.
Proof.
  induction l as [|a l IH]; cbn [filter]; [constructor|].
  destruct (f a); cbn [filter]; [destruct (g a)|]; now constructor.
Qed.

(** [l.index(x)] finds the first item equal to [x]. *)
Lemma list_index_in {A : Type} (eqb : A -> A -> bool) (x : A) (l : list A) :
  (exists y, In y l /\ eqb y x = true) ->
  exists i y,
    list_index eqb x l = Ok i
    /\ nth_error l i = Some y
    /\ eqb y x = true.
Proof.
  induction l as [|a l IH]; intros [y [Hin Hy]]; [destruct Hin|].
  cbn [list_index]. destruct (eqb a x) eqn:Ea.
  - now exists 0%nat, a.
  - destruct Hin as [->|Hin]; [congruence|].
    destruct (IH (ex_intro _ y (conj Hin Hy))) as [i [y' [Hi [Hn Hy']]]].
    exists (S i), y'. now rewrite Hi.
Qed.

Lemma for_each_map {A B : Type} (f : A -> result B) (g : A -> B) (l : list A) :
  (forall x, In x l -> f x = Ok (g x)) -> for_each f l = Ok (map g l).
Proof.
  induction l as [|a l IH]; intros H; [reflexivity|].
  cbn [for_each map]. rewrite (H a (or_introl eq_refl)), IH; [reflexivity|].
  intros x Hx. apply H. now right.
Qed.

(** The place of an entry among entries without two equal record ids. *)
Lemma place_of_entry (l : list Front.MoodEntry) (e : Front.MoodEntry) :
  Forall well_formed l -> In e l ->
  (place Front.entry_eqb e l < List.length l)%nat
  /\ list_index Front.entry_eqb e l = Ok (place Front.entry_eqb e l)
  /\ (NoDup (map Front.record_id l) ->
      nth_error l (place Front.entry_eqb e l) = Some e).
Proof.
  intros Hwf Hin.
  assert (Hex : exists y, In y l /\ Front.entry_eqb y e = true).
  { exists e. split; [exact Hin|]. apply entry_eqb_refl.
    rewrite Forall_forall in Hwf. now apply Hwf. }
  destruct (list_index_in Front.entry_eqb e l Hex) as [i [y [Hi [Hn Hy]]]].
  unfold place. rewrite Hi. split; [|split; [reflexivity|]].
  - apply nth_error_Some. congruence.
  - intros Hnd. rewrite Hn. f_equal.
    apply (nodup_map_injective Front.record_id l y e Hnd);
      [now apply nth_error_In in Hn | exact Hin
      | now apply entry_eqb_record_id].
Qed.

Lemma times_count (x : string) (l : list string) :
  list_count x l = Z.of_nat (times x l).
Proof. reflexivity. Qed.

Lemma times_map {A : Type} (f : A -> string) (x : string) (l : list A) :
  times x (map f l) = List.length (filter (fun a => (f a =? x)%string) l).
Proof.
  unfold times. induction l as [|a l IH]; [reflexivity|].
  cbn [map filter]. destruct (f a =? x)%string; cbn [List.length]; now rewrite IH.
Qed.

Lemma times_not_in (x : string) (l : list string) :
  ~ In x l -> times x l = 0%nat.
Proof.
  unfold times. induction l as [|a l IH]; intros H; [reflexivity|].
  cbn [filter]. destruct (a =? x)%string eqn:E.
  - apply String.eqb_eq in E. subst a. exfalso. apply H. now left.
  - apply IH. intros Hx. apply H. now right.
Qed.

(** [max(set(triggers), key=triggers.count)] *)
Lemma most_common (set_items : list string -> list string)
    (x : string) (triggers : list string) :
  set_like set_items ->
  exists top,
    max_by Z.gtb (fun t => list_count t (x :: triggers))
      (set_items (x :: triggers)) = Ok top
    /\ In top (x :: triggers)
    /\ forall t, (times t (x :: triggers) <= times top (x :: triggers))%nat.
Proof.
  intros Hset. destruct (Hset (x :: triggers)) as [_ Hin].
  destruct (set_items (x :: triggers)) as [|y r] eqn:E.
  - exfalso. apply (Hin x). now left.
  - destruct (max_by_first_max Z.leb Z.gtb
                (fun t => list_count t (x :: triggers))
                Zgtb_leb Zleb_total Zleb_trans y r) as [Hrun Hmax].
    exists (max_from Z.gtb (fun t => list_count t (x :: triggers)) y r).
    split; [exact Hrun|]. split.
    + apply Hin. eapply first_max_in. exact Hmax.
    + intros t.
      destruct (in_dec string_dec t (x :: triggers)) as [Ht|Ht].
      * apply Hin in Ht.
        pose proof (first_max_bounds Z.leb
                      (fun t => list_count t (x :: triggers))
                      Zleb_total _ _ _ Hmax Ht) as Hle.
        cbv beta in Hle. rewrite !times_count in Hle.
        apply Z.leb_le in Hle. lia.
      * rewrite (times_not_in _ _ Ht). lia.
Qed.

Lemma sum_high {A : Type} (sev : A -> string) (l : list A) :
  sum (map (fun _ => 1%Z) (filter (fun e => (sev e =? "high")%string) l))
  = Z.of_nat (times "high" (map sev l)).
Proof. now rewrite sum_ones, times_map. Qed.

End HistoryFacts.

Import HistoryFacts.

(** X14.  The search of the "History" tab, for a search term of ASCII
    characters and entries whose mood text and primary trigger hold
    neither the Kelvin sign nor the capital I with a dot.  The entries
    listed are the entries of the user whose mood text or primary trigger
    contains the search term, the case of letters apart, in the order of
    the session; the empty term lists all of the user's entries, and a
    term that contains another lists no entry that the other does not. *)
Theorem X14_history_search (entries : list Front.MoodEntry) (user term : string) :
  ascii_only term = true ->
  Forall searchable entries ->
  (forall e,
     In e (FrontApp.filtered_entries entries user term)
     <-> In e entries /\ Front.user_id e = user
         /\ (occurs_ci term (Front.mood e)
             \/ occurs_ci term (Front.primary_trigger e)))
  /\ sublist (FrontApp.filtered_entries entries user term) entries
  /\ FrontApp.filtered_entries entries user ""
     = FrontApp.user_entries entries user
  /\ (forall longer e,
        ascii_only longer = true ->
        occurs_ci term longer ->
        In e (FrontApp.filtered_entries entries user longer) ->
        In e (FrontApp.filtered_entries entries user term)).
Proof.
  intros _ _.
  assert (Hchar : forall t e,
            In e (FrontApp.filtered_entries entries user t)
            <-> In e entries /\ Front.user_id e = user
                /\ (occurs_ci t (Front.mood e)
                    \/ occurs_ci t (Front.primary_trigger e))).
  { intros t e. unfold FrontApp.filtered_entries.
    destruct t as [|c t].
    - rewrite user_entries_in. split.
      + intros [H1 H2]. repeat split; auto. left. apply occurs_ci_empty.
      + intros [H1 [H2 _]]. now split.
    - rewrite filter_In, user_entries_in, orb_true_iff.
      fold (occurs_cib (String c t) (Front.mood e)).
      fold (occurs_cib (String c t) (Front.primary_trigger e)).
      rewrite !occurs_cib_iff. tauto. }
  split; [apply Hchar|]. split; [|split; [reflexivity|]].
  - unfold FrontApp.filtered_entries, FrontApp.user_entries.
    destruct term as [|c t]; [apply sublist_filter|].
    apply sublist_filter2.
  - intros longer e _ Hocc Hin. apply Hchar. apply Hchar in Hin.
    destruct Hin as [H1 [H2 [H3|H3]]]; repeat split; auto;
      [left | right]; eapply occurs_ci_trans; eauto.
Qed.

(** X14 at the sample store: the search for "EXAM" finds the entry of Ann,
    whose text holds "exam". *)
Lemma X14_history_search_sample :
  ascii_only "EXAM" = true
  /\ Forall searchable sample_store
  /\ In (sample_entry "0123456789ab" "ann" "I am stressed about my exam tomorrow")
        (FrontApp.filtered_entries sample_store "ann" "EXAM").
Proof.
  assert (H1 : ascii_only "EXAM" = true) by reflexivity.
  assert (H2 : Forall searchable sample_store)
    by (repeat constructor).
  split; [exact H1|]. split; [exact H2|].
  apply (proj1 (X14_history_search sample_store "ann" "EXAM" H1 H2)).
  split; [now left|]. split; [reflexivity|].
  left. apply occurs_cib_iff. reflexivity.
Defined.

(** X15.  The rows of the "History" tab.  For entries that are dicts, the
    tab lists the entries found by the search, the newest first, and never
    fails on [index]; an entry number lies between 1 and the number of
    entries of the user.  When no two entries of the user share a record
    id, "Entry #n" is the n-th newest entry of the user, and without a
    search term the rows are numbered 1, 2, 3, ... from the top. *)
Theorem X15_history_rows (entries : list Front.MoodEntry) (user term : string) :
  Forall well_formed entries ->
  exists rows,
    FrontApp.history entries user term = Ok rows
    /\ map snd rows = rev (FrontApp.filtered_entries entries user term)
    /\ (forall n e, In (n, e) rows ->
          (1 <= n <= Z.of_nat (List.length (FrontApp.user_entries entries user)))%Z)
    /\ (NoDup (map Front.record_id (FrontApp.user_entries entries user)) ->
        (forall n e, In (n, e) rows ->
           nth_error (rev (FrontApp.user_entries entries user)) (Z.to_nat (n - 1))
           = Some e)
        /\ (term = "" ->
            map fst rows
            = map Z.of_nat
                (seq 1 (List.length (FrontApp.user_entries entries user))))).
Proof.
  intros Hwf.
  set (l := FrontApp.user_entries entries user).
  set (xs := rev (FrontApp.filtered_entries entries user term)).
  set (g := fun e : Front.MoodEntry =>
              ((Z.of_nat (List.length l) - Z.of_nat (place Front.entry_eqb e l))%Z, e)).
  assert (Hl : Forall well_formed l).
  { rewrite Forall_forall in *. intros e He. apply Hwf.
    now apply user_entries_in in He. }
  assert (Hxs : forall e, In e xs -> In e l).
  { intros e He. apply in_rev in He. now apply filtered_entries_in in He. }
  exists (map g xs). split; [|split; [|split]].
  - unfold FrontApp.history. fold l. fold xs. apply for_each_map.
    intros e He. destruct (place_of_entry l e Hl (Hxs e He)) as [_ [Hi _]].
    now rewrite Hi.
  - rewrite map_map. cbn [g snd]. apply map_id.
  - intros n e Hin. apply in_map_iff in Hin as [x [Hg Hx]].
    injection Hg as <- <-.
    destruct (place_of_entry l x Hl (Hxs x Hx)) as [Hlt _]. lia.
  - intros Hnd. split.
    + intros n e Hin. apply in_map_iff in Hin as [x [Hg Hx]].
      injection Hg as <- <-.
      destruct (place_of_entry l x Hl (Hxs x Hx)) as [Hlt [_ Hn]].
      rewrite nth_error_rev.
      replace (Z.to_nat (Z.of_nat (List.length l)
                         - Z.of_nat (place Front.entry_eqb x l) - 1))
        with (List.length l - S (place Front.entry_eqb x l))%nat by lia.
      destruct (Nat.ltb_spec (List.length l - S (place Front.entry_eqb x l))
                  (List.length l)); [|lia].
      replace (List.length l - S (List.length l - S (place Front.entry_eqb x l)))%nat
        with (place Front.entry_eqb x l) by lia.
      now apply Hn.
    + intros ->. unfold xs, FrontApp.filtered_entries. fold l.
      rewrite map_map. cbn [g fst].
      apply nth_error_ext. intros k.
      rewrite !nth_error_map, nth_error_rev, nth_error_seq.
      destruct (Nat.ltb_spec k (List.length l)) as [Hk|Hk]; [|reflexivity].
      destruct (nth_error l (List.length l - S k)) as [e|] eqn:En;
        [|apply nth_error_None in En; lia].
      cbn [option_map]. f_equal.
      destruct (place_of_entry l e Hl (nth_error_In _ _ En)) as [Hlt [_ Hn]].
      assert (Hp : place Front.entry_eqb e l = (List.length l - S k)%nat).
      { apply (proj1 (NoDup_nth_error l)); [|exact Hlt|].
        - eapply NoDup_map_inv. exact Hnd.
        - now rewrite (Hn Hnd), En. }
      rewrite Hp. lia.
Qed.

Lemma X15_history_rows_sample :
  Forall well_formed sample_store
  /\ exists rows,
       FrontApp.history sample_store "ann" "EXAM" = Ok rows
       /\ map fst rows = [1%Z].
Proof.
  split; [exact sample_store_well_formed|].
  destruct (X15_history_rows sample_store "ann" "EXAM" sample_store_well_formed)
    as [rows [Hrun _]].
  exists rows. split; [exact Hrun|].
  assert (H : FrontApp.history sample_store "ann" "EXAM"
              = Ok [(1%Z, sample_entry "0123456789ab" "ann"
                            "I am stressed about my exam tomorrow")])
    by reflexivity.
  rewrite H in Hrun. now injection Hrun as <-.
Defined.

(** X16.  The dashboard.  Whatever the order in which a set yields its
    items, the dashboard of either program does not fail; with no entry to
    count it shows none, otherwise it shows the number of entries counted,
    the number of those whose severity is "high", and as top trigger a
    primary trigger of one of them that no other trigger beats in number.
    [mindmate_front.py] counts the entries of the user who is logged in,
    [mindmate_frontend.py] all the entries of the session. *)
Theorem X16_dashboard (set_items : list string -> list string) :
  set_like set_items ->
  (forall entries user,
     exists shown,
       FrontApp.dashboard set_items entries user = Ok shown
       /\ dashboard_of
            (map Front.severity (FrontApp.user_entries entries user))
            (map Front.primary_trigger (FrontApp.user_entries entries user))
            shown)
  /\ (forall entries,
        exists shown,
          FrontendApp.dashboard set_items entries = Ok shown
          /\ dashboard_of (map Frontend.severity entries)
               (map Frontend.primary_trigger entries) shown).
Proof.
  intros Hset. split.
  - intros entries user. unfold FrontApp.dashboard.
    destruct (FrontApp.user_entries entries user) as [|e l]; [now exists None|].
    rewrite sum_high. cbn [map].
    destruct (most_common set_items (Front.primary_trigger e)
                (map Front.primary_trigger l) Hset) as [top [Hrun [Hin Hmax]]].
    rewrite Hrun. cbn [bind]. eexists. split; [reflexivity|].
    cbn [dashboard_of]. exists top. repeat split; auto.
    cbn [List.length]. now rewrite length_map.
  - intros entries. unfold FrontendApp.dashboard.
    destruct entries as [|e l]; [now exists None|].
    rewrite sum_high. cbn [map].
    destruct (most_common set_items (Frontend.primary_trigger e)
                (map Frontend.primary_trigger l) Hset) as [top [Hrun [Hin Hmax]]].
    rewrite Hrun. cbn [bind]. eexists. split; [reflexivity|].
    cbn [dashboard_of]. exists top. repeat split; auto.
    cbn [List.length]. now rewrite length_map.
Qed.

Lemma X16_dashboard_sample :
  set_like (nodup string_dec)
  /\ exists shown,
       FrontApp.dashboard (nodup string_dec) sample_store "ann" = Ok shown
       /\ dashboard_of
            (map Front.severity (FrontApp.user_entries sample_store "ann"))
            (map Front.primary_trigger (FrontApp.user_entries sample_store "ann"))
            shown.
Proof.
  assert (H : set_like (nodup string_dec)).
  { intros l. split; [apply NoDup_nodup | apply nodup_In]. }
  split; [exact H|].
  exact (proj1 (X16_dashboard (nodup string_dec) H) sample_store "ann").
Defined.

(* ================================================================== *)
(** ** Facts about [strip] *)
(* ================================================================== *)

Module TextFacts.
Import Py PyText Spec StrFacts.
Local Open Scope string_scope.

Ltac bytes :=
  repeat match goal with
         | |- context [Nat.eqb ?a ?b] => destruct (Nat.eqb_spec a b); try lia
         | |- context [Nat.leb ?a ?b] => destruct (Nat.leb_spec a b); try lia
         end;
  try reflexivity.

Lemma space1_is_space (c : ascii) : space1 c = is_space c.
Proof. reflexivity. Qed.

Lemma is_space_ascii (c : ascii) : is_space c = true -> (nat_of_ascii c <= 32)%nat.
Proof. unfold is_space. cbv zeta. bytes; discriminate. Qed.

Lemma space2_ascii (c1 c2 : ascii) : is_space c2 = true -> space2 c1 c2 = false.
Proof.
  intros H. apply is_space_ascii in H. unfold space2. cbv zeta. bytes.
Qed.

Lemma space3_ascii_2 (c1 c2 c3 : ascii) :
  is_space c2 = true -> space3 c1 c2 c3 = false.
Proof.
  intros H. apply is_space_ascii in H. unfold space3. cbv zeta. bytes.
Qed.

Lemma space3_ascii_3 (c1 c2 c3 : ascii) :
  is_space c3 = true -> space3 c1 c2 c3 = false.
Proof.
  intros H. apply is_space_ascii in H. unfold space3. cbv zeta. bytes.
Qed.

Lemma lstrip_space1 (c1 : ascii) (r : string) :
  space1 c1 = true -> lstrip (String c1 r) = lstrip r.
Proof. intros E. cbn [lstrip]. now rewrite E. Qed.

Lemma lstrip_space2 (c1 c2 : ascii) (r : string) :
  space1 c1 = false -> space2 c1 c2 = true ->
  lstrip (String c1 (String c2 r)) = lstrip r.
Proof. intros E1 E2. cbn [lstrip]. now rewrite E1, E2. Qed.

Lemma lstrip_space3 (c1 c2 c3 : ascii) (r : string) :
  space1 c1 = false -> space2 c1 c2 = false -> space3 c1 c2 c3 = true ->
  lstrip (String c1 (String c2 (String c3 r))) = lstrip r.
Proof. intros E1 E2 E3. cbn [lstrip]. now rewrite E1, E2, E3. Qed.

(** A text that starts with no white space is left as it is. *)
Lemma lstrip_stuck (c1 : ascii) (r1 : string) :
  space1 c1 = false ->
  (forall c2 r2, r1 = String c2 r2 ->
     space2 c1 c2 = false
     /\ forall c3 r3, r2 = String c3 r3 -> space3 c1 c2 c3 = false) ->
  lstrip (String c1 r1) = String c1 r1.
Proof.
  intros E1 H. cbn [lstrip]. rewrite E1.
  destruct r1 as [|c2 r2]; [reflexivity|].
  destruct (H c2 r2 eq_refl) as [E2 H3]. rewrite E2.
  destruct r2 as [|c3 r3]; [reflexivity|].
  now rewrite (H3 c3 r3 eq_refl).
Qed.

(** Induction along the steps of [lstrip]. *)
Lemma lstrip_cases (P : string -> Prop) :
  P "" ->
  (forall c1 r, space1 c1 = true -> P r -> P (String c1 r)) ->
  (forall c1 c2 r, space1 c1 = false -> space2 c1 c2 = true -> P r ->
     P (String c1 (String c2 r))) ->
  (forall c1 c2 c3 r,
     space1 c1 = false -> space2 c1 c2 = false -> space3 c1 c2 c3 = true ->
     P r -> P (String c1 (String c2 (String c3 r)))) ->
  (forall c1 r1,
     space1 c1 = false ->
     (forall c2 r2, r1 = String c2 r2 ->
        space2 c1 c2 = false
        /\ forall c3 r3, r2 = String c3 r3 -> space3 c1 c2 c3 = false) ->
     P (String c1 r1)) ->
  forall s, P s.
Proof.
  intros H0 H1 H2 H3 Hstuck s.
  assert (H : forall n s, (String.length s <= n)%nat -> P s).
  { clear s. induction n as [|n IH]; intros s Hn.
    - destruct s; [exact H0 | cbn in Hn; lia].
    - destruct s as [|c1 r1]; [exact H0|]. cbn in Hn.
      destruct (space1 c1) eqn:E1; [apply H1; [exact E1 | apply IH; lia]|].
      destruct r1 as [|c2 r2];
        [apply Hstuck; [exact E1 | intros ? ? ?; discriminate]|].
      cbn in Hn.
      destruct (space2 c1 c2) eqn:E2;
        [apply H2; [exact E1 | exact E2 | apply IH; lia]|].
      destruct r2 as [|c3 r3].
      + apply Hstuck; [exact E1|].
        intros c2' r2' E. injection E as <- <-.
        split; [exact E2 | intros ? ? ?; discriminate].
      + cbn in Hn.
        destruct (space3 c1 c2 c3) eqn:E3;
          [apply H3; [exact E1 | exact E2 | exact E3 | apply IH; lia]|].
        apply Hstuck; [exact E1|].
        intros c2' r2' E. injection E as <- <-.
        split; [exact E2|].
        intros c3' r3' E. injection E as <- <-. exact E3. }
  apply (H (String.length s)). lia.
Qed.

Lemma lstrip_idempotent (s : string) : lstrip (lstrip s) = lstrip s.
Proof.
  induction s as [|c1 r E1 IH|c1 c2 r E1 E2 IH|c1 c2 c3 r E1 E2 E3 IH|c1 r1 E1 H0]
    using lstrip_cases.
  - reflexivity.
  - now rewrite lstrip_space1.
  - now rewrite lstrip_space2.
  - now rewrite lstrip_space3.
  - now rewrite !lstrip_stuck.
Qed.

(** What [lstrip] leaves starts with no ASCII white space. *)
Lemma lstrip_head (s : string) (c : ascii) (rest : string) :
  lstrip s = String c rest -> is_space c = false.
Proof.
  induction s as [|c1 r E1 IH|c1 c2 r E1 E2 IH|c1 c2 c3 r E1 E2 E3 IH|c1 r1 E1 H0]
    using lstrip_cases.
  - discriminate.
  - now rewrite lstrip_space1.
  - now rewrite lstrip_space2.
  - now rewrite lstrip_space3.
  - rewrite lstrip_stuck by assumption. intros E. injection E as <- _.
    assumption.
Qed.

Lemma lstrip_whitespace (w : string) :
  whitespace_only w = true -> lstrip w = "".
Proof.
  induction w as [|c w IH]; [reflexivity|]. cbn [whitespace_only].
  intros H. apply andb_true_iff in H as [Hc Hw].
  rewrite lstrip_space1 by exact Hc. now apply IH.
Qed.

Lemma lstrip_whitespace_app (w s : string) :
  whitespace_only w = true -> lstrip (w ++ s) = lstrip s.
Proof.
  induction w as [|c w IH]; [reflexivity|]. cbn [whitespace_only append].
  intros H. apply andb_true_iff in H as [Hc Hw].
  rewrite lstrip_space1 by exact Hc. now apply IH.
Qed.

(** ASCII white space after a text is left by [lstrip] unless the text is
    blank. *)
Lemma lstrip_app_whitespace (s w : string) :
  whitespace_only w = true ->
  lstrip (s ++ w) = if blank s then "" else lstrip s ++ w.
Proof.
  intros Hw. unfold blank. induction s as [|c1 r E1 IH|c1 c2 r E1 E2 IH|c1 c2 c3 r E1 E2 E3 IH|c1 r1 E1 H0]
    using lstrip_cases.
  - cbn [append lstrip]. now apply lstrip_whitespace.
  - cbn [append]. now rewrite !lstrip_space1.
  - cbn [append]. now rewrite !lstrip_space2.
  - cbn [append]. now rewrite !lstrip_space3.
  - rewrite (lstrip_stuck c1 r1) by assumption.
    change (String c1 r1 ++ w) with (String c1 (r1 ++ w)).
    apply lstrip_stuck; [assumption|].
    intros c2 r2 E.
    destruct r1 as [|c2' r2'].
    + cbn [append] in E. subst w. cbn [whitespace_only] in Hw.
      apply andb_true_iff in Hw as [Hc2 Hw]. split.
      * now apply space2_ascii.
      * intros c3 r3 _. now apply space3_ascii_2.
    + cbn [append] in E. injection E as <- <-.
      destruct (H0 c2' r2' eq_refl) as [E2 H3]. split; [exact E2|].
      intros c3 r3 E.
      destruct r2' as [|c3' r3'].
      * cbn [append] in E. subst w. cbn [whitespace_only] in Hw.
        apply andb_true_iff in Hw as [Hc3 Hw]. now apply space3_ascii_3.
      * cbn [append] in E. injection E as <- <-. now apply (H3 c3' r3').
Qed.

Lemma blank_app_whitespace (s w : string) :
  whitespace_only w = true -> blank (s ++ w) = blank s.
Proof.
  intros Hw. unfold blank at 1. rewrite (lstrip_app_whitespace s w Hw).
  unfold blank. destruct (lstrip s); reflexivity.
Qed.

Lemma rstrip_app_whitespace (s w : string) :
  whitespace_only w = true -> rstrip (s ++ w) = rstrip s.
Proof.
  intros Hw. induction s as [|c s IH].
  - cbn [append]. destruct w as [|c w]; [reflexivity|]. cbn [rstrip].
    unfold blank. now rewrite (lstrip_whitespace _ Hw).
  - change (String c s ++ w) with (String c (s ++ w)). cbn [rstrip].
    change (String c (s ++ w)) with (String c s ++ w).
    now rewrite (blank_app_whitespace _ _ Hw), IH.
Qed.

(** ASCII white space around a text does not count. *)
Lemma strip_whitespace_around (w1 s w2 : string) :
  whitespace_only w1 = true -> whitespace_only w2 = true ->
  blank (w1 ++ s ++ w2) = blank s /\ strip (w1 ++ s ++ w2) = strip s.
Proof.
  intros H1 H2. split.
  - unfold blank at 1. rewrite (lstrip_whitespace_app _ _ H1).
    fold (blank (s ++ w2)). now apply blank_app_whitespace.
  - unfold strip. rewrite (lstrip_whitespace_app _ _ H1).
    rewrite (lstrip_app_whitespace _ _ H2).
    unfold blank. destruct (lstrip s) eqn:E; [reflexivity|].
    now apply rstrip_app_whitespace.
Qed.

Lemma rstrip_empty (s : string) : rstrip s = "" -> blank s = true.
Proof.
  destruct s as [|c r]; [reflexivity|]. cbn [rstrip].
  destruct (blank (String c r)); [reflexivity | discriminate].
Qed.

(** What [rstrip] leaves ends with no ASCII white space. *)
Lemma rstrip_last (s p : string) (c : ascii) :
  rstrip s = p ++ String c "" -> is_space c = false.
Proof.
  revert p; induction s as [|c0 r IH]; intros p; cbn [rstrip].
  - destruct p; discriminate.
  - destruct (blank (String c0 r)) eqn:Eb; [destruct p; discriminate|].
    destruct p as [|c0' p']; cbn [append]; intros E.
    + injection E as <- Er. apply rstrip_empty in Er.
      destruct (is_space c0) eqn:Ec; [|reflexivity].
      unfold blank in Eb. rewrite lstrip_space1 in Eb by exact Ec.
      unfold blank in Er. destruct (lstrip r); discriminate.
    + injection E as _ Er. now apply (IH p').
Qed.

(** A text that is not blank is stripped to a text that starts and ends
    with no ASCII white space. *)
Lemma strip_not_blank (s : string) :
  blank s = false ->
  exists c r,
    strip s = String c r
    /\ is_space c = false
    /\ forall p c', String c r = p ++ String c' "" -> is_space c' = false.
Proof.
  intros Hb. unfold strip.
  destruct (lstrip s) as [|c r] eqn:E;
    [unfold blank in Hb; now rewrite E in Hb|].
  assert (Hb' : blank (String c r) = false).
  { unfold blank. rewrite <- E, lstrip_idempotent, E. reflexivity. }
  exists c, (rstrip r). cbn [rstrip]. rewrite Hb'.
  split; [reflexivity|]. split; [now apply (lstrip_head s c r)|].
  intros p c' Hp. apply (rstrip_last (String c r) p c').
  cbn [rstrip]. now rewrite Hb'.
Qed.

End TextFacts.

Import TextFacts.

(** X17.  The "Login" button.  A name of white space only leaves the
    session as it is.  Any other name logs in the user of that name without
    the white space around it: the name kept is not empty, it starts and
    ends with no ASCII white space, and names that differ by ASCII white
    space around them log in the same user. *)
Theorem X17_login (current_user : option string) (username : string) :
  (blank username = true ->
   FrontApp.login current_user username = current_user)
  /\ (blank username = false ->
      exists c r,
        FrontApp.login current_user username = Some (String c r)
        /\ is_space c = false
        /\ forall p c', String c r = (p ++ String c' "")%string ->
                        is_space c' = false)
  /\ (forall w1 w2,
        whitespace_only w1 = true -> whitespace_only w2 = true ->
        FrontApp.login current_user (w1 ++ username ++ w2)%string
        = FrontApp.login current_user username).
Proof.
  unfold FrontApp.login. split; [|split].
  - now intros ->.
  - intros Hb. rewrite Hb. cbn [negb].
    destruct (strip_not_blank username Hb) as [c [r [Hs H]]].
    exists c, r. now rewrite Hs.
  - intros w1 w2 H1 H2.
    destruct (strip_whitespace_around w1 username w2 H1 H2) as [-> ->].
    reflexivity.
Qed.

(* ================================================================== *)
(** ** Facts about the session of [mindmate_frontend.py] *)
(* ================================================================== *)

Module FrontendAppFacts.
Import Py PyText Spec Spec2 StrFacts PyFacts SpecFacts.
Import ClassifierFacts FrontendApp.

(** Two numbers are written with the same digits only when equal. *)
Lemma str_of_nat_injective (n m : nat) : str_of_nat n = str_of_nat m -> n = m.
Proof.
  unfold str_of_nat. intros H.
  apply (f_equal NilEmpty.uint_of_string) in H.
  rewrite !NilEmpty.usu in H. injection H as H.
  apply (f_equal Nat.of_uint) in H.
  now rewrite !DecimalNat.Unsigned.of_to in H.
Qed.

(** The "Analyze Mood" button of [mindmate_frontend.py], for any severity. *)
Lemma new_entry_run (entries : list Frontend.MoodEntry)
    (user text severity now : string) :
  new_entry entries user text severity now
  = if blank text then Ok (entries, [PleaseDescribe])
    else Ok (entries
             ++ [frontend_entry entries user text
                   (if (severity =? "Auto-detect")%string then None
                    else Some (lower severity)) now],
             [AnalysisComplete]).
Proof.
  unfold new_entry. destruct (blank text); cbn [negb]; [reflexivity|].
  now rewrite analyze_mood_run_any.
Qed.

Lemma numbered_step (entries : list Frontend.MoodEntry) (ev : event) :
  numbered entries /\ Forall (fun e => Frontend.success e = true) entries ->
  numbered (step entries ev)
  /\ Forall (fun e => Frontend.success e = true) (step entries ev).
Proof.
  intros [Hn Hs]. destruct ev as [user text severity now|]; cbn [step].
  - rewrite new_entry_run. destruct (blank text); [now split|]. split.
    + intros i e. rewrite nth_error_app.
      destruct (Nat.ltb_spec i (List.length entries)) as [Hi|Hi];
        [apply Hn|].
      destruct (i - List.length entries)%nat as [|k] eqn:Ek;
        [|destruct k; discriminate].
      cbn [nth_error]. intros E. injection E as <-.
      cbn [frontend_entry Frontend.record_id].
      now replace i with (List.length entries) by lia.
    + apply Forall_app. split; [exact Hs|]. now constructor.
  - split; [intros [|i] e; discriminate | constructor].
Qed.

Lemma nodup_map {A B : Type} (f : A -> B) (l : list A) :
  (forall x y, f x = f y -> x = y) -> NoDup l -> NoDup (map f l).
Proof.
  intros Hf. induction 1 as [|a l Ha Hl IH]; cbn [map]; constructor; auto.
  intros Hin. apply in_map_iff in Hin as [x [Hx Hin]].
  apply Hf in Hx. now subst x.
Qed.

Lemma numbered_nodup (entries : list Frontend.MoodEntry) :
  numbered entries -> NoDup (map Frontend.record_id entries).
Proof.
  intros Hn.
  assert (E : map Frontend.record_id entries
              = map (fun i => ("entry_" ++ str_of_nat (i + 1))%string)
                    (seq 0 (List.length entries))).
  { apply nth_error_ext. intros k.
    rewrite !nth_error_map, nth_error_seq.
    destruct (Nat.ltb_spec k (List.length entries)) as [Hk|Hk].
    - destruct (nth_error entries k) as [e|] eqn:Ee;
        [|apply nth_error_None in Ee; lia].
      cbn [option_map]. now rewrite (Hn k e Ee).
    - apply nth_error_None in Hk. now rewrite Hk. }
  rewrite E. apply nodup_map; [|apply seq_NoDup].
  intros i j H. apply append_cancel_l in H.
  apply str_of_nat_injective in H. lia.
Qed.

Lemma combine_seq_nth {A : Type} (l : list A) (s i : nat) (x : A) :
  In (i, x) (combine (seq s (List.length l)) l) ->
  (s <= i)%nat /\ nth_error l (i - s) = Some x.
Proof.
  revert s; induction l as [|a l IH]; intros s; cbn [List.length seq combine];
    [intros []|].
  intros [E|H].
  - injection E as <- <-. split; [lia|]. now rewrite Nat.sub_diag.
  - apply IH in H as [Hs Hn]. split; [lia|].
    replace (i - s)%nat with (S (i - S s)) by lia. exact Hn.
Qed.

Lemma combine_seq_snd {A : Type} (l : list A) (s : nat) :
  map snd (combine (seq s (List.length l)) l) = l.
Proof.
  revert s; induction l as [|a l IH]; intros s; [reflexivity|].
  cbn [List.length seq combine map snd]. now rewrite IH.
Qed.

(** After any interactions the record ids number the entries. *)
Lemma run_numbered (evs : list event) :
  numbered (run evs) /\ Forall (fun e => Frontend.success e = true) (run evs).
Proof.
  unfold run.
  assert (H0 : numbered [] /\ Forall (fun e => Frontend.success e = true) [])
    by (split; [intros [|i] e; discriminate | constructor]).
  revert H0. generalize (@nil Frontend.MoodEntry).
  induction evs as [|ev evs IH]; intros entries H0; cbn [fold_left];
    [exact H0|].
  apply IH. now apply numbered_step.
Qed.

End FrontendAppFacts.

Import FrontendAppFacts.

(** X18.  The session of [mindmate_frontend.py].  "Analyze Mood" shows the
    request for a description and stores nothing when the text is blank;
    with any other text, however short, and any severity it does not fail
    and adds one entry at the end, whose record id is "entry_" and the new
    number of entries.  So after any interactions, "Clear All Data"
    included, the record ids number the entries of the session from 1 in
    order, no two entries share a record id, and every entry reports
    success. *)
Theorem X18_frontend_session :
  (forall entries user text severity now,
     exists stored shown,
       FrontendApp.new_entry entries user text severity now = Ok (stored, shown)
       /\ (blank text = true ->
           stored = entries /\ shown = [FrontendApp.PleaseDescribe])
       /\ (blank text = false ->
           exists e,
             stored = entries ++ [e]
             /\ shown = [FrontendApp.AnalysisComplete]
             /\ Frontend.user_id e = user
             /\ Frontend.record_id e
                = ("entry_" ++ str_of_nat (List.length stored))%string))
  /\ (forall evs,
        numbered (FrontendApp.run evs)
        /\ NoDup (map Frontend.record_id (FrontendApp.run evs))
        /\ Forall (fun e => Frontend.success e = true) (FrontendApp.run evs)).
Proof.
  split.
  - intros entries user text severity now. rewrite new_entry_run.
    destruct (blank text).
    + exists entries, [FrontendApp.PleaseDescribe].
      split; [reflexivity|]. split; [now split | discriminate].
    + eexists. eexists. split; [reflexivity|]. split; [discriminate|].
      intros _. eexists. split; [reflexivity|]. split; [reflexivity|].
      split; [reflexivity|].
      rewrite length_app. reflexivity.
  - intros evs.
    pose proof (run_numbered evs) as H.
    destruct H as [Hn Hs]. split; [exact Hn|]. split; [|exact Hs].
    now apply numbered_nodup.
Qed.

(** X19.  The "History" tab of [mindmate_frontend.py].  The tab lists the
    entries of the session, the newest first, and numbers them from the
    number of entries down to 1; after any interactions the number shown
    for an entry is the number in its record id. *)
Theorem X19_frontend_history :
  (forall entries,
     map snd (FrontendApp.history entries) = rev entries
     /\ forall n e, In (n, e) (FrontendApp.history entries) ->
          (1 <= n <= Z.of_nat (List.length entries))%Z
          /\ nth_error entries (Z.to_nat (n - 1)) = Some e)
  /\ (forall evs n e,
        In (n, e) (FrontendApp.history (FrontendApp.run evs)) ->
        Frontend.record_id e = ("entry_" ++ str_of_nat (Z.to_nat n))%string).
Proof.
  assert (Hrow : forall entries n e,
            In (n, e) (FrontendApp.history entries) ->
            (1 <= n <= Z.of_nat (List.length entries))%Z
            /\ nth_error entries (Z.to_nat (n - 1)) = Some e).
  { intros entries n e Hin. unfold FrontendApp.history, enumerate in Hin.
    apply in_map_iff in Hin as [[i x] [E Hin]]. injection E as <- <-.
    apply combine_seq_nth in Hin as [_ Hn].
    rewrite Nat.sub_0_r, nth_error_rev in Hn.
    destruct (Nat.ltb_spec i (List.length entries)) as [Hi|Hi];
      [|discriminate].
    split; [lia|].
    now replace (Z.to_nat (Z.of_nat (List.length entries) - Z.of_nat i - 1))
      with (List.length entries - S i)%nat by lia. }
  split.
  - intros entries. split; [|apply Hrow].
    unfold FrontendApp.history, enumerate. rewrite map_map.
    rewrite (map_ext _ snd) by (now intros [i x]).
    apply combine_seq_snd.
  - intros evs n e Hin. apply Hrow in Hin as [Hn He].
    destruct (run_numbered evs) as [Hnum _].
    rewrite (Hnum _ _ He). do 2 f_equal. lia.
Qed.

(* ================================================================== *)
(** ** Facts about the progress bars *)
(* ================================================================== *)

Module BarFacts.
Import Py PyText Spec Spec2 StrFacts PyFacts SpecFacts FrontFacts.
Import ClassifierFacts.

Lemma insert_reverse_in {A : Type} (key : A -> Z) (x y : A) (l : list A) :
  In y (insert_reverse key x l) <-> y = x \/ In y l.
Proof.
  induction l as [|a l IH]; cbn [insert_reverse In].
  - intuition congruence.
  - destruct (key a >? key x)%Z; cbn [In]; [rewrite IH|]; intuition congruence.
Qed.

Lemma sorted_reverse_in {A : Type} (key : A -> Z) (y : A) (l : list A) :
  In y (sorted_reverse key l) <-> In y l.
Proof.
  unfold sorted_reverse. induction l as [|a l IH]; cbn [fold_right In];
    [reflexivity|].
  rewrite insert_reverse_in, IH. intuition congruence.
Qed.

Lemma filter_nothing {A : Type} (f : A -> bool) (l : list A) :
  (forall x, In x l -> f x = false) -> filter f l = [].
Proof.
  induction l as [|a l IH]; intros H; [reflexivity|]. cbn [filter].
  rewrite (H a (or_introl eq_refl)). apply IH. intros x Hx. apply H. now right.
Qed.

Lemma firstn_in {A : Type} (n : nat) (y : A) (l : list A) :
  In y (firstn n l) -> In y l.
Proof.
  intros H. rewrite <- (firstn_skipn n l). apply in_or_app. now left.
Qed.

(** A sort that keeps equal items in place puts the first maximum first. *)
Lemma sorted_reverse_head {A : Type} (key : A -> Z) (x : A) (l : list A) :
  exists m rest,
    sorted_reverse key (x :: l) = m :: rest
    /\ first_max Z.leb key (x :: l) m.
Proof.
  revert x; induction l as [|y l IH]; intros x.
  - exists x, []. split; [reflexivity|].
    exists [], []. split; [reflexivity|]. split; intros z [].
  - destruct (IH y) as [m [rest [Hs Hm]]].
    change (sorted_reverse key (x :: y :: l))
      with (insert_reverse key x (sorted_reverse key (y :: l))).
    rewrite Hs. cbn [insert_reverse].
    destruct (key m >? key x)%Z eqn:E.
    + exists m, (insert_reverse key x rest). split; [reflexivity|].
      destruct Hm as [pre [post [Hl [Hpre Hpost]]]].
      exists (x :: pre), post. split; [now rewrite Hl|]. split; [|exact Hpost].
      intros z [<-|Hz]; [|now apply Hpre].
      apply Z.leb_gt. apply Z.gtb_lt in E. lia.
    + exists x, (m :: rest). split; [reflexivity|].
      exists [], (y :: l). split; [reflexivity|]. split; [intros z []|].
      intros z Hz.
      pose proof (first_max_bounds Z.leb key Zleb_total _ _ _ Hm Hz) as Hle.
      apply Z.leb_le in Hle. apply Z.leb_le.
      rewrite Z.gtb_ltb in E. apply Z.ltb_ge in E. lia.
Qed.

(** [max] of the keys is the key of [max] by key. *)
Lemma max_from_key {A : Type} (key : A -> Z) (x : A) (l : list A) :
  max_from Z.gtb (fun v => v) (key x) (map key l)
  = key (max_from Z.gtb key x l).
Proof.
  revert x; induction l as [|y l IH]; intros x; cbn [map max_from];
    [reflexivity|].
  destruct (key y >? key x)%Z; apply IH.
Qed.

Lemma max_from_bound (x : Z) (l : list Z) (v : Z) :
  In v (x :: l) -> (v <= max_from Z.gtb (fun v => v) x l)%Z.
Proof.
  intros Hv.
  pose proof (proj2 (max_by_first_max Z.leb Z.gtb (fun v : Z => v)
                       Zgtb_leb Zleb_total Zleb_trans x l)) as Hm.
  pose proof (first_max_bounds Z.leb (fun v : Z => v) Zleb_total _ _ _ Hm Hv)
    as Hle.
  now apply Z.leb_le in Hle.
Qed.

(** The quotient of a score by the greatest score. *)
Lemma bar_value (score m : Z) :
  (0 < score <= m)%Z ->
  (0 < inject_Z score / inject_Z m /\ inject_Z score / inject_Z m <= 1)%Q.
Proof.
  intros [H0 Hm].
  assert (Hpos : (0 < inject_Z m)%Q).
  { change 0%Q with (inject_Z 0). rewrite <- Zlt_Qlt. lia. }
  split.
  - apply Qlt_shift_div_l; [exact Hpos|].
    rewrite Qmult_0_l. change 0%Q with (inject_Z 0). now rewrite <- Zlt_Qlt.
  - apply Qle_shift_div_r; [exact Hpos|].
    rewrite Qmult_1_l. now rewrite <- Zle_Qle.
Qed.

Lemma dict_set_values (k : string) (w v : Q) (d : dict Q) :
  In v (values (dict_set k w d)) -> v = w \/ In v (values d).
Proof.
  induction d as [|[k' v'] d IH]; cbn [dict_set values map snd In].
  - intuition congruence.
  - destruct (String.eqb_spec k' k) as [->|Hne]; cbn [values map snd In].
    + intuition congruence.
    + unfold values in IH. intuition congruence.
Qed.

(** Every score of [mindmate_frontend.py] is a weight of the table. *)
Lemma frontend_fold_values (text : string) (v : Q)
    (table : list (string * list string * Q)) (d : dict Q) :
  In v (values (fold_left
                  (fun (d : dict Q) '(trigger, keywords, weight) =>
                     if existsb (fun kw => occurs_cib kw text) keywords
                     then dict_set trigger weight d
                     else d)
                  table d)) ->
  In v (values d) \/ In v (map snd table).
Proof.
  revert d; induction table as [|[[c ws] w] table IH]; intros d;
    cbn [fold_left]; [now left|].
  intros H. apply IH in H as [H|H]; [|right; now right].
  destruct (existsb _ ws); [|now left].
  apply dict_set_values in H as [->|H]; [right; now left | now left].
Qed.

Lemma items_values {V : Type} (d : dict V) (k : string) (v : V) :
  In (k, v) (items d) -> In k (keys d) /\ In v (values d).
Proof.
  unfold items, keys, values. intros H. split.
  - now apply (in_map fst) in H.
  - now apply (in_map snd) in H.
Qed.

(** The "Trigger Analysis" for scores with an item. *)
Lemma progress_bars_run (to_float : Q -> Q) (it : string * Z) (d : dict Z)
    (m : Z) :
  m = max_from Z.gtb (fun v => v) (snd it) (map snd d) ->
  FrontApp.progress_bars to_float (it :: d)
  = Ok (map (fun '(trigger, score) =>
               (trigger,
                to_float
                  (inject_Z score / inject_Z (if (m =? 0)%Z then 1%Z else m))%Q))
            (filter (fun '(_, score) => (score >? 0)%Z)
               (firstn 5 (sorted_reverse snd (it :: d))))).
Proof. intros ->. reflexivity. Qed.

(** The float of a quotient between 0 and 1 lies between 0 and 1. *)
Lemma rounded_value (to_float : Q -> Q) (q : Q) :
  rounds to_float -> (0 < q)%Q -> (q <= 1)%Q ->
  (0 <= to_float q)%Q /\ (to_float q <= 1)%Q.
Proof.
  intros [Hmono [H0 H1]] Hpos Hle. split.
  - rewrite <- H0. apply Hmono. now apply Qlt_le_weak.
  - rewrite <- H1. now apply Hmono.
Qed.

(** The float of a quotient equal to 1 is 1. *)
Lemma rounded_one (to_float : Q -> Q) (q : Q) :
  rounds to_float -> (q == 1)%Q -> (to_float q == 1)%Q.
Proof.
  intros [Hmono [H0 H1]] Hq. apply Qle_antisym.
  - rewrite <- H1. apply Hmono. rewrite Hq. apply Qle_refl.
  - rewrite <- H1 at 1. apply Hmono. rewrite Hq. apply Qle_refl.
Qed.

(** The stand-in for the rounding rounds down, and keeps 0 and 1. *)
Lemma to_float0_rounds : rounds Samples.to_float0.
Proof.
  unfold rounds, Samples.to_float0. split; [|split; reflexivity].
  intros q q' Hle.
  assert (H : (Qfloor (q * 1024) <= Qfloor (q' * 1024))%Z).
  { apply Qfloor_resp_le. apply Qmult_le_compat_r; [exact Hle | discriminate]. }
  unfold Qle. cbn [Qnum Qden]. lia.
Qed.

End BarFacts.

Import BarFacts.

(** X20.  The progress bars of an entry.  Whatever float the division
    gives, as long as a greater quotient does not give a smaller float and
    0 and 1 are floats: for any scores the "Trigger Analysis" of
    [mindmate_front.py] does not fail and shows at most five bars, each for
    a trigger of the entry and with a value from 0 to 1, as [st.progress]
    requires.  For the scores of [mock_analyze_mood], no bar is shown when
    the primary trigger is "other", and otherwise the first bar is the
    primary trigger, full.  The bars of [mindmate_frontend.py] are the
    scores of the entry, which lie above 0 and at most at 1. *)
Theorem X20_progress_bars (to_float : Q -> Q) :
  rounds to_float ->
  (forall trigger_scores,
     exists bars,
       FrontApp.progress_bars to_float trigger_scores = Ok bars
       /\ (List.length bars <= 5)%nat
       /\ forall trigger value,
            In (trigger, value) bars ->
            In trigger (keys trigger_scores)
            /\ (0 <= value)%Q /\ (value <= 1)%Q)
  /\ (forall text,
        (FrontView.primary_of text = "other" ->
         FrontApp.progress_bars to_float (FrontView.scores_of text) = Ok [])
        /\ (FrontView.primary_of text <> "other" ->
            exists value rest,
              FrontApp.progress_bars to_float (FrontView.scores_of text)
              = Ok ((FrontView.primary_of text, value) :: rest)
              /\ (value == 1)%Q))
  /\ (forall text trigger value,
        In (trigger, value)
           (FrontendApp.progress_bars (FrontendView.scores_of text)) ->
        In trigger (keys (FrontendView.scores_of text))
        /\ (0 < value)%Q /\ (value <= 1)%Q).
Proof.
  intros Hround. split; [|split].
  - intros d.
    destruct d as [|it d];
      [exists []; split; [reflexivity|]; split; [cbn; lia | intros ? ? []]|].
    set (m := max_from Z.gtb (fun v => v) (snd it) (map snd d)).
    rewrite (progress_bars_run to_float it d m eq_refl).
    eexists. split; [reflexivity|]. split.
    + rewrite length_map.
      etransitivity; [apply List.filter_length_le|]. apply firstn_le_length.
    + intros trigger value Hin.
      apply in_map_iff in Hin as [[t score] [E Hin]]. injection E as <- <-.
      apply filter_In in Hin as [Hin Hpos]. apply Z.gtb_lt in Hpos.
      apply firstn_in, sorted_reverse_in in Hin.
      split; [now apply (items_values (it :: d) t score)|].
      assert (Hle : (score <= m)%Z).
      { apply max_from_bound. change (In score (map snd (it :: d))).
        now apply (in_map snd) in Hin. }
      destruct (Z.eqb_spec m 0) as [E|_]; [lia|].
      destruct (bar_value score m (conj Hpos Hle)) as [Hq0 Hq1].
      now apply rounded_value.
  - intros text. split.
    + intros Hother. apply primary_other_iff in Hother.
      rewrite (scores_of_cons text).
      rewrite (progress_bars_run _ _ _ _ eq_refl).
      rewrite <- (scores_of_cons text). f_equal.
      replace (filter _ _) with (@nil (string * Z)); [reflexivity|].
      symmetry. apply filter_nothing.
      intros [t score] Hin. apply firstn_in, sorted_reverse_in in Hin.
      unfold FrontView.all_zero in Hother. rewrite forallb_forall in Hother.
      apply (in_map snd) in Hin. apply Hother in Hin. cbn [snd] in Hin.
      apply Z.eqb_eq in Hin. subst score. reflexivity.
    + intros Hother.
      assert (Hz : FrontView.all_zero text = false).
      { destruct (FrontView.all_zero text) eqn:E; [|reflexivity].
        now apply primary_other_iff in E. }
      pose proof (scores_of_cons text) as Hc.
      set (x := hd ("other", 0%Z) (FrontView.scores_of text)) in *.
      set (l := tl (FrontView.scores_of text)) in *.
      pose proof (proj2 (max_by_first_max Z.leb Z.gtb snd
                           Zgtb_leb Zleb_total Zleb_trans x l)) as Hmax.
      destruct (sorted_reverse_head snd x l) as [top [rest [Hs Htop]]].
      assert (Etop : top = max_from Z.gtb snd x l)
        by (eapply first_max_unique; eassumption).
      assert (Hp : FrontView.primary_of text = fst top).
      { unfold FrontView.primary_of. rewrite Hz. fold x l. now rewrite Etop. }
      assert (Hpos : (0 < snd top)%Z).
      { destruct (Z.ltb_spec 0 (snd top)) as [H|H]; [exact H|]. exfalso.
        assert (Hall : FrontView.all_zero text = true); [|congruence].
        unfold FrontView.all_zero. apply forallb_forall. intros v Hv.
        apply Z.eqb_eq.
        assert (H0 : (0 <= v)%Z).
        { apply in_map_iff in Hv as [[t s] [<- Hin]].
          unfold FrontView.scores_of in Hin.
          apply in_map_iff in Hin as [[t' kws] [E _]]. injection E as _ <-.
          cbn [snd]. lia. }
        assert (H1 : (v <= snd top)%Z).
        { apply in_map_iff in Hv as [it [<- Hin]]. rewrite Hc in Hin.
          pose proof (first_max_bounds Z.leb snd Zleb_total _ _ _ Htop Hin)
            as Hle.
          now apply Z.leb_le in Hle. }
        lia. }
      rewrite Hc.
      rewrite (progress_bars_run to_float x l (snd top))
        by (now rewrite (max_from_key snd x l), <- Etop).
      rewrite Hs.
      destruct (Z.eqb_spec (snd top) 0) as [E|_]; [lia|].
      cbn [firstn filter]. destruct top as [t score]. cbn [fst snd] in *.
      assert (Hgt : (score >? 0)%Z = true) by (apply Z.gtb_lt; lia).
      rewrite Hgt. cbn [map]. rewrite Hp.
      eexists. eexists. split; [reflexivity|].
      apply (rounded_one to_float _ Hround).
      unfold Qdiv. apply Qmult_inv_r.
      intros H. unfold Qeq in H. cbn in H. lia.
  - intros text trigger value Hin. unfold FrontendApp.progress_bars in Hin.
    destruct (FrontendView.scores_of text) as [|it d] eqn:E; [destruct Hin|].
    rewrite <- E in *. apply items_values in Hin as [Hk Hv].
    split; [exact Hk|].
    unfold FrontendView.scores_of in Hv.
    apply frontend_fold_values in Hv as [[]|Hv].
    cbn in Hv.
    repeat (destruct Hv as [<-|Hv]; [split; unfold Qlt, Qle; cbn; lia|]).
    destruct Hv.
Qed.

(** X20 with a rounding that gives 0 for a small quotient: of two scores,
    2000 and 1, the first bar is full and the second is empty. *)
Lemma X20_progress_bars_sample :
  rounds Samples.to_float0
  /\ FrontApp.progress_bars Samples.to_float0 [("work", 2000%Z); ("health", 1%Z)]
     = Ok [("work", 1024 # 1024); ("health", 0 # 1024)]
  /\ exists bars,
       FrontApp.progress_bars Samples.to_float0
         [("work", 2000%Z); ("health", 1%Z)] = Ok bars
       /\ (List.length bars <= 5)%nat.
Proof.
  split; [exact to_float0_rounds|]. split; [reflexivity|].
  destruct (proj1 (X20_progress_bars Samples.to_float0 to_float0_rounds)
              [("work", 2000%Z); ("health", 1%Z)]) as [bars [Hrun [Hlen _]]].
  exists bars. now split.
Defined.
